(** * LAN_Text_Chat: the WebSocket coordinator (websocket.js) and its schema

    A shallow embedding of the session registry, the broadcast router, the
    command interpreter and the message handlers of [websocket.js], over a
    relational model of the tables of [schema.sql], followed by the
    properties of the design document that are settled against it.

    Conventions.
    - A JavaScript string is a [string]; a character stands for one UTF-16
      code unit (only the Latin-1 range is representable, and case mapping
      is the ASCII one).
    - JavaScript numbers that hold timestamps and role ranks are integers
      and are modelled as [Z].
    - The [clients] registry is a JS [Map]: an association list in insertion
      order ([forEach] visits it in that order).  Its values are references
      to session objects that live in a heap, because handlers keep such a
      reference across suspension points and mutate it.
    - Every [await] of the source is a suspension point: a handler is a tree
      of synchronous segments ([Sync]) separated by [Await] nodes. *)

From Stdlib Require Import ZArith String Ascii List Bool Lia.
From stdpp Require Import base option list gmap strings.
Import ListNotations.

Open Scope string_scope.
Open Scope list_scope.
Open Scope Z_scope.

(* ===================================================================== *)
(** * JavaScript string primitives used by the source                     *)
(* ===================================================================== *)

Module JS.

(** [!!s] for a string: the empty string is the only falsy one. *)
Definition truthy (s : string) : bool := negb (String.eqb s "").

(** [o || d] for an optional string: [undefined], [null] and [""] fall
    through to [d]. *)
Definition or_else (o : option string) (d : string) : string :=
  match o with
  | Some s => if truthy s then s else d
  | None => d
  end.

(** [x || null] for an optional string. *)
Definition or_null (o : option string) : option string :=
  match o with
  | Some s => if truthy s then Some s else None
  | None => None
  end.

(** White space of [String.prototype.trim] in the Latin-1 range:
    TAB, LF, VT, FF, CR, SP and NBSP. *)
Definition is_ws (c : ascii) : bool :=
  match nat_of_ascii c with
  | 9%nat | 10%nat | 11%nat | 12%nat | 13%nat | 32%nat | 160%nat => true
  | _ => false
  end.

Fixpoint trimStart (s : string) : string :=
  match s with
  | EmptyString => EmptyString
  | String c s' => if is_ws c then trimStart s' else s
  end.

Fixpoint trimEnd (s : string) : string :=
  match s with
  | EmptyString => EmptyString
  | String c s' =>
      let t := trimEnd s' in
      if is_ws c && String.eqb t "" then EmptyString else String c t
  end.

Definition trim (s : string) : string := trimEnd (trimStart s).

(** [s.startsWith(p)] *)
Definition startsWith (s p : string) : bool := String.prefix p s.

(** [s.substring(0, n)] *)
Definition substring_to (n : nat) (s : string) : string :=
  String.substring 0 n s.

(** [s.substring(n)] *)
Fixpoint substring_from (n : nat) (s : string) : string :=
  match n, s with
  | O, _ => s
  | S n', String _ s' => substring_from n' s'
  | S _, EmptyString => EmptyString
  end.

(** [s.split(sep)] for a one-character separator: never empty, and two
    adjacent separators produce an empty field. *)
Fixpoint split (sep : ascii) (s : string) : list string :=
  match s with
  | EmptyString => [EmptyString]
  | String c s' =>
      match split sep s' with
      | [] => [EmptyString]
      | w :: ws =>
          if Ascii.eqb c sep then EmptyString :: w :: ws
          else String c w :: ws
      end
  end.

(** [parts.join(sep)] *)
Fixpoint join (sep : string) (l : list string) : string :=
  match l with
  | [] => EmptyString
  | [w] => w
  | w :: ws => w +:+ sep +:+ join sep ws
  end.

Definition lower_char (c : ascii) : ascii :=
  let n := nat_of_ascii c in
  if (Nat.leb 65 n && Nat.leb n 90)%bool then ascii_of_nat (n + 32) else c.

Definition upper_char (c : ascii) : ascii :=
  let n := nat_of_ascii c in
  if (Nat.leb 97 n && Nat.leb n 122)%bool then ascii_of_nat (n - 32) else c.

Fixpoint map_chars (f : ascii -> ascii) (s : string) : string :=
  match s with
  | EmptyString => EmptyString
  | String c s' => String (f c) (map_chars f s')
  end.

Definition toLowerCase : string -> string := map_chars lower_char.
Definition toUpperCase : string -> string := map_chars upper_char.

(** Names that every plain object inherits from [Object.prototype].  A
    read [acc[k]] of such a name on an object without an own property [k]
    yields the inherited member (a function, or the prototype itself for
    [__proto__]), which is truthy. *)
Definition Object_prototype_keys : list string :=
  [ "constructor"; "__defineGetter__"; "__defineSetter__";
    "hasOwnProperty"; "__lookupGetter__"; "__lookupSetter__";
    "isPrototypeOf"; "propertyIsEnumerable"; "toString"; "valueOf";
    "__proto__"; "toLocaleString" ].

Definition inherited (k : string) : bool :=
  existsb (String.eqb k) Object_prototype_keys.

End JS.

(* ===================================================================== *)
(** * Role policy                                                         *)
(* ===================================================================== *)

(** The four keys of [ROLE_HIERARCHY].  Every call site of [hasPermission]
    passes one of these literals as the required role; the role of a user
    is whatever string the [users] table holds. *)
Inductive Role : Type := Admin | Moderator | User | Guest.

Definition role_name (r : Role) : string :=
  match r with
  | Admin => "Admin"
  | Moderator => "Moderator"
  | User => "User"
  | Guest => "Guest"
  end.

(** [const ROLE_HIERARCHY = { 'Admin': 3, 'Moderator': 2, 'User': 1, 'Guest': 0 }]:
    the own properties of the object.  [None] is a key the literal does not
    define; reading it gives [undefined] or an inherited member, and either
    one compares false against a number. *)
Definition ROLE_HIERARCHY (name : string) : option Z :=
  if String.eqb name "Admin" then Some 3
  else if String.eqb name "Moderator" then Some 2
  else if String.eqb name "User" then Some 1
  else if String.eqb name "Guest" then Some 0
  else None.

(** [function hasPermission(userRole, requiredRole)
      { return ROLE_HIERARCHY[userRole] >= ROLE_HIERARCHY[requiredRole]; }] *)
Definition hasPermission (userRole : string) (requiredRole : Role) : bool :=
  match ROLE_HIERARCHY userRole, ROLE_HIERARCHY (role_name requiredRole) with
  | Some u, Some r => r <=? u
  | _, _ => false
  end.

(** Rank of a role in the order Admin > Moderator > User > Guest. *)
Definition rank (r : Role) : Z :=
  match r with Admin => 3 | Moderator => 2 | User => 1 | Guest => 0 end.

(* ===================================================================== *)
(** * The persistence service: tables of schema.sql                       *)
(* ===================================================================== *)

(** Rows carry the columns that [websocket.js] reads or writes.  Columns
    it never touches ([password_hash], [created_at], [last_login_ip],
    [joined_at], [log_id], [action_time]) and the tables it never touches
    ([read_receipts], [channel_permissions]) are left out.  Key columns are
    compared with string equality; column length limits are not modelled. *)

(** JSON text of an attachment descriptor ([JSON.stringify] of the object
    the client sent); [JSON.parse] gives the object back, so one type
    serves for both. *)
Definition Json : Type := string.

Module Users.
Record row : Type := mk {
  user_id : string;
  username : string;
  user_role : string;
  current_status : string;
  last_seen_channel : string;
  is_banned : bool;
  ban_reason : option string
}.
End Users.

Module Channels.
Record row : Type := mk {
  channel_name : string;
  is_private : bool;
  invite_code : option string;
  created_by : option string;
  pinned_message_id : option string
}.
End Channels.

Module Messages.
Record row : Type := mk {
  id : string;
  channel_name : string;
  author_id : string;
  author_username : string;
  content : string;
  timestamp : Z;
  edited : bool;
  edited_timestamp : option Z;
  attachment_metadata : option Json;
  is_system : bool;
  parent_message_id : option string;
  is_thread_root : bool
}.
End Messages.

Module Reactions.
Record row : Type := mk {
  message_id : string;
  user_id : string;
  emoji : string
}.
End Reactions.

Module ChannelMembers.
Record row : Type := mk {
  channel_name : string;
  user_id : string
}.
End ChannelMembers.

(** [JSON.stringify({ targetUsername, room })] and
    [JSON.stringify({ room, content })]: the detail payload of an audit row. *)
Inductive AuditDetails : Type :=
| ModerationDetails (targetUsername room : string)
| DeletionDetails (room content : string).

Module AuditLogs.
Record row : Type := mk {
  action_type : string;
  actor_id : string;
  target_id : option string;
  details : AuditDetails
}.
End AuditLogs.

Record DB : Type := mkDB {
  users : list Users.row;
  channels : list Channels.row;
  channel_members : list ChannelMembers.row;
  messages : list Messages.row;
  reactions : list Reactions.row;
  audit_logs : list AuditLogs.row
}.

(** Functional updates of one table. *)
Definition with_users (f : list Users.row -> list Users.row) (d : DB) : DB :=
  mkDB (f (users d)) (channels d) (channel_members d) (messages d)
       (reactions d) (audit_logs d).
Definition with_channels (f : list Channels.row -> list Channels.row) (d : DB) : DB :=
  mkDB (users d) (f (channels d)) (channel_members d) (messages d)
       (reactions d) (audit_logs d).
Definition with_channel_members
    (f : list ChannelMembers.row -> list ChannelMembers.row) (d : DB) : DB :=
  mkDB (users d) (channels d) (f (channel_members d)) (messages d)
       (reactions d) (audit_logs d).
Definition with_messages (f : list Messages.row -> list Messages.row) (d : DB) : DB :=
  mkDB (users d) (channels d) (channel_members d) (f (messages d))
       (reactions d) (audit_logs d).
Definition with_reactions (f : list Reactions.row -> list Reactions.row) (d : DB) : DB :=
  mkDB (users d) (channels d) (channel_members d) (messages d)
       (f (reactions d)) (audit_logs d).
Definition with_audit_logs (f : list AuditLogs.row -> list AuditLogs.row) (d : DB) : DB :=
  mkDB (users d) (channels d) (channel_members d) (messages d)
       (reactions d) (f (audit_logs d)).

(** ** Row-level setters (the SET clauses of the UPDATE statements) *)

Definition set_last_seen_channel (c : string) (u : Users.row) : Users.row :=
  Users.mk (Users.user_id u) (Users.username u) (Users.user_role u)
           (Users.current_status u) c (Users.is_banned u) (Users.ban_reason u).

Definition set_current_status (s : string) (u : Users.row) : Users.row :=
  Users.mk (Users.user_id u) (Users.username u) (Users.user_role u)
           s (Users.last_seen_channel u) (Users.is_banned u) (Users.ban_reason u).

Definition set_banned (reason : string) (u : Users.row) : Users.row :=
  Users.mk (Users.user_id u) (Users.username u) (Users.user_role u)
           (Users.current_status u) (Users.last_seen_channel u) true (Some reason).

Definition set_pinned (p : option string) (c : Channels.row) : Channels.row :=
  Channels.mk (Channels.channel_name c) (Channels.is_private c)
              (Channels.invite_code c) (Channels.created_by c) p.

Definition set_edited (newContent : string) (ts : Z) (m : Messages.row) : Messages.row :=
  Messages.mk (Messages.id m) (Messages.channel_name m) (Messages.author_id m)
              (Messages.author_username m) newContent (Messages.timestamp m)
              true (Some ts) (Messages.attachment_metadata m)
              (Messages.is_system m) (Messages.parent_message_id m)
              (Messages.is_thread_root m).

Definition set_parent_null (m : Messages.row) : Messages.row :=
  Messages.mk (Messages.id m) (Messages.channel_name m) (Messages.author_id m)
              (Messages.author_username m) (Messages.content m)
              (Messages.timestamp m) (Messages.edited m)
              (Messages.edited_timestamp m) (Messages.attachment_metadata m)
              (Messages.is_system m) None (Messages.is_thread_root m).

(** [UPDATE t SET ... WHERE p]: apply [f] to the rows that satisfy [p]. *)
Definition update_where {A : Type} (p : A -> bool) (f : A -> A) (t : list A) : list A :=
  map (fun r => if p r then f r else r) t.

(** [DELETE FROM t WHERE p] *)
Definition delete_where {A : Type} (p : A -> bool) (t : list A) : list A :=
  List.filter (fun r => negb (p r)) t.

(** [SELECT ... FROM t WHERE p] *)
Definition select_where {A : Type} (p : A -> bool) (t : list A) : list A :=
  List.filter p t.

Definition opt_eqb (o : option string) (s : string) : bool :=
  match o with Some x => String.eqb x s | None => false end.

(** ** Existence tests behind the key constraints *)

Definition user_exists (d : DB) (uid : string) : bool :=
  existsb (fun u => String.eqb (Users.user_id u) uid) (users d).
Definition channel_exists (d : DB) (name : string) : bool :=
  existsb (fun c => String.eqb (Channels.channel_name c) name) (channels d).
Definition message_exists (d : DB) (mid : string) : bool :=
  existsb (fun m => String.eqb (Messages.id m) mid) (messages d).
Definition reaction_key_eqb (mid uid e : string) (r : Reactions.row) : bool :=
  String.eqb (Reactions.message_id r) mid
  && String.eqb (Reactions.user_id r) uid
  && String.eqb (Reactions.emoji r) e.
Definition reaction_exists (d : DB) (mid uid e : string) : bool :=
  existsb (reaction_key_eqb mid uid e) (reactions d).

(* ===================================================================== *)
(** * Awaited calls and their meaning on the tables                       *)
(* ===================================================================== *)

(** Result of an awaited promise: rejected with an error code (the source
    reads [e.code] in one place and otherwise only logs), or resolved. *)
Inductive Outcome (R : Type) : Type :=
| Rejected (code : string)
| Resolved (r : R).
Arguments Rejected {R} code.
Arguments Resolved {R} r.

(** One element of the list [getAuthorizedChannels] resolves to. *)
Module ChannelInfo.
Record t : Type := mk {
  name : string;
  is_private : bool;
  invite_code : option string;
  created_by : option string
}.
End ChannelInfo.

(** [{ id, author, content }]: the pinned-message summary. *)
Module Pinned.
Record t : Type := mk {
  id : string;
  author : string;
  content : string
}.
End Pinned.

(** The aggregated reactions of one message: emoji to the array of the
    reacting user ids (a plain JS object used as a map). *)
Abbreviation ReactionMap := (gmap string (list string)).

(** A message of a room history: the selected columns, the attachment
    parsed, and the reactions attached. *)
Module HistMsg.
Record t : Type := mk {
  row : Messages.row;
  reactions : ReactionMap
}.
End HistMsg.

Module RoomData.
Record t : Type := mk {
  messages : list HistMsg.t;
  pinnedMessage : option Pinned.t
}.
End RoomData.

(** A user id as a JS value: [undefined], [null] or a string. *)
Inductive JsId : Type :=
| js_undefined
| js_null
| js_string (s : string).

(** The calls the handlers await.  The first group are the SQL statements
    passed to [db.query]; the last two are the async helpers of
    [websocket.js], which catch every error themselves. *)
Inductive Call : Type -> Type :=
| SelectUserById (userId : string) : Call (list Users.row)
| UpdateLastSeenChannel (channel userId : string) : Call unit
| UpdateCurrentStatus (status userId : string) : Call unit
| UpdateUserBanned (reason username : string) : Call unit
| InsertAuditLog (action_type actor_id : string) (target_id : option string)
                 (details : AuditDetails) : Call unit
| SelectMessageInChannel (id channel : string) : Call (list Messages.row)
| UpdatePinnedMessage (id : option string) (channel : string) : Call unit
| InsertMessage (id channel author_id author_username content : string)
                (timestamp : Z) (attachment : option Json)
                (parent : option string) (is_thread_root : bool) : Call unit
| UpdateMessageContent (content : string) (edited_timestamp : Z) (id : string) : Call unit
| DeleteMessage (id : string) : Call unit
| ClearPinnedIfEquals (channel id : string) : Call unit
| InsertIgnoreReaction (message_id user_id emoji : string) : Call unit
| DeleteReaction (message_id user_id emoji : string) : Call unit
| SelectReactions (message_id : string) : Call (list Reactions.row)
| InsertChannel (channel_name : string) (is_private : bool)
                (invite_code : option string) (created_by : string) : Call unit
| InsertChannelMember (channel_name user_id : string) : Call unit
| InsertIgnoreChannelMember (channel_name user_id : string) : Call unit
| SelectChannelByName (channel_name : string) : Call (list Channels.row)
| SelectChannelByInviteCode (code : string) : Call (list Channels.row)
| DeleteChannel (channel_name : string) : Call unit
| GetAuthorizedChannels (userId : JsId) : Call (list ChannelInfo.t)
| GetRoomData (roomName : string) : Call RoomData.t
| SetTimeout (ms : Z) : Call unit.

Definition FALLBACK_CHANNEL : string := "#general".

(** ** The reaction aggregate

    [rows.reduce((acc, { user_id, emoji }) => {
         acc[emoji] = acc[emoji] || []; acc[emoji].push(user_id); return acc; }, {})]

    [acc] starts as a plain object.  For an emoji that is not yet an own
    property, [acc[emoji]] reads through to [Object.prototype]: if the name
    is inherited the value read is truthy, it is stored back, and
    [.push] on it is not a function, so the reduction throws a [TypeError]
    ([None]). *)
Definition reaction_step (acc : option ReactionMap) (r : Reactions.row)
  : option ReactionMap :=
  match acc with
  | None => None
  | Some a =>
      match a !! Reactions.emoji r with
      | Some ids => Some (<[Reactions.emoji r := ids ++ [Reactions.user_id r]]> a)
      | None =>
          if JS.inherited (Reactions.emoji r) then None
          else Some (<[Reactions.emoji r := [Reactions.user_id r]]> a)
      end
  end.

Definition aggregate_reactions (rows : list Reactions.row) : option ReactionMap :=
  fold_left reaction_step rows (Some ∅).

(** [SELECT user_id, emoji FROM reactions WHERE message_id = ?] *)
Definition reactions_of (d : DB) (mid : string) : list Reactions.row :=
  select_where (fun r => String.eqb (Reactions.message_id r) mid) (reactions d).

(** ** getAuthorizedChannels *)

Definition public_channel_info (c : Channels.row) : ChannelInfo.t :=
  ChannelInfo.mk (Channels.channel_name c) (Channels.is_private c)
                 (JS.or_null (Channels.invite_code c)) None.

Definition private_channel_info (c : Channels.row) : ChannelInfo.t :=
  ChannelInfo.mk (Channels.channel_name c) (Channels.is_private c)
                 (JS.or_null (Channels.invite_code c)) (Channels.created_by c).

Definition is_member (d : DB) (uid : string) (c : Channels.row) : bool :=
  existsb (fun cm => String.eqb (ChannelMembers.channel_name cm) (Channels.channel_name c)
                     && String.eqb (ChannelMembers.user_id cm) uid)
          (channel_members d).

Definition fallback_channels : list ChannelInfo.t :=
  [ChannelInfo.mk FALLBACK_CHANNEL false None None].

(** All public channels, then the private channels the user is a member
    of; the single fallback channel when a query fails.  An [undefined]
    id cannot be bound as a statement parameter (the driver throws, which
    the [catch] turns into the fallback); a [null] id matches no
    membership. *)
Definition getAuthorizedChannels (fail : bool) (d : DB) (userId : JsId)
  : list ChannelInfo.t :=
  if fail then fallback_channels
  else
    let public :=
      map public_channel_info
          (select_where (fun c => negb (Channels.is_private c)) (channels d)) in
    match userId with
    | js_undefined => fallback_channels
    | js_null => public
    | js_string uid =>
        public ++
        map private_channel_info
            (select_where (fun c => Channels.is_private c && is_member d uid c)
                          (channels d))
    end.

(** ** getRoomData *)

(** [ORDER BY timestamp ASC], as a stable insertion sort. *)
Fixpoint insert_by_timestamp (m : Messages.row) (l : list Messages.row)
  : list Messages.row :=
  match l with
  | [] => [m]
  | x :: xs =>
      if Messages.timestamp m <=? Messages.timestamp x then m :: l
      else x :: insert_by_timestamp m xs
  end.

Definition order_by_timestamp (l : list Messages.row) : list Messages.row :=
  fold_right insert_by_timestamp [] l.

Definition pinned_summary (m : Messages.row) : Pinned.t :=
  Pinned.mk (Messages.id m) (Messages.author_username m) (Messages.content m).

(** The pinned summary of a room: the channel's [pinned_message_id], when
    truthy, looked up in [messages] by id alone. *)
Definition pinned_of (d : DB) (roomName : string) : option Pinned.t :=
  match select_where (fun c => String.eqb (Channels.channel_name c) roomName)
                     (channels d) with
  | c :: _ =>
      match JS.or_null (Channels.pinned_message_id c) with
      | Some pid =>
          match select_where (fun m => String.eqb (Messages.id m) pid) (messages d) with
          | m :: _ => Some (pinned_summary m)
          | [] => None
          end
      | None => None
      end
  | [] => None
  end.

(** The history loop: one reaction query and one aggregate per message; a
    [TypeError] in any aggregate aborts the whole loop. *)
Fixpoint attach_reactions (d : DB) (ms : list Messages.row)
  : option (list HistMsg.t) :=
  match ms with
  | [] => Some []
  | m :: rest =>
      match aggregate_reactions (reactions_of d (Messages.id m)) with
      | None => None
      | Some rs =>
          match attach_reactions d rest with
          | None => None
          | Some hs => Some (HistMsg.mk m rs :: hs)
          end
      end
  end.

Definition empty_room : RoomData.t := RoomData.mk [] None.

(** Direct-message rooms have no durable history; every error inside the
    [try] block (a failed query, a throwing aggregate) degrades to the
    empty history. *)
Definition getRoomData (fail : bool) (d : DB) (roomName : string) : RoomData.t :=
  if JS.startsWith roomName "DM:" then empty_room
  else if fail then empty_room
  else
    let rows := order_by_timestamp
                  (select_where (fun m => String.eqb (Messages.channel_name m) roomName)
                                (messages d)) in
    match attach_reactions d rows with
    | Some hs => RoomData.mk hs (pinned_of d roomName)
    | None => empty_room
    end.

(** ** Execution of one call on the tables

    [fail] is the environment's choice to make this call fail (connection
    lost, pool exhausted); otherwise the statement runs and may still be
    rejected by a key constraint of the schema. *)
Definition CONNECTION_LOST : string := "PROTOCOL_CONNECTION_LOST".
Definition ER_DUP_ENTRY : string := "ER_DUP_ENTRY".
Definition ER_NO_REFERENCED_ROW : string := "ER_NO_REFERENCED_ROW_2".

Definition new_message_row (id channel author_id author_username content : string)
    (timestamp : Z) (attachment : option Json) (parent : option string)
    (is_thread_root : bool) : Messages.row :=
  Messages.mk id channel author_id author_username content timestamp
              false None attachment false parent is_thread_root.

Definition parent_ok (d : DB) (parent : option string) : bool :=
  match parent with
  | Some p => message_exists d p
  | None => true
  end.

Definition invite_code_taken (d : DB) (code : option string) : bool :=
  match code with
  | Some c => existsb (fun r => opt_eqb (Channels.invite_code r) c) (channels d)
  | None => false
  end.

Definition member_exists (d : DB) (channel user : string) : bool :=
  existsb (fun cm => String.eqb (ChannelMembers.channel_name cm) channel
                     && String.eqb (ChannelMembers.user_id cm) user)
          (channel_members d).

(** [DELETE FROM messages WHERE id = ?] with its cascades: the reactions of
    the message go, and replies keep their place with the parent reference
    set to NULL. *)
Definition delete_message_cascade (id : string) (d : DB) : DB :=
  with_reactions
    (delete_where (fun r => String.eqb (Reactions.message_id r) id))
    (with_messages
       (fun t => update_where (fun m => opt_eqb (Messages.parent_message_id m) id)
                              set_parent_null
                   (delete_where (fun m => String.eqb (Messages.id m) id) t))
       d).

(** [DELETE FROM channels WHERE channel_name = ?] with its cascades: the
    memberships and the messages of the channel go, each message with its
    own cascade. *)
Definition delete_channel_cascade (name : string) (d : DB) : DB :=
  let doomed :=
    map Messages.id
        (select_where (fun m => String.eqb (Messages.channel_name m) name) (messages d)) in
  with_channels
    (delete_where (fun c => String.eqb (Channels.channel_name c) name))
    (with_channel_members
       (delete_where (fun cm => String.eqb (ChannelMembers.channel_name cm) name))
       (fold_left (fun acc id => delete_message_cascade id acc) doomed d)).

Definition exec {R : Type} (fail : bool) (c : Call R) (d : DB) : Outcome R * DB :=
  match c in Call R return Outcome R * DB with
  | GetAuthorizedChannels userId =>
      (Resolved (getAuthorizedChannels fail d userId), d)
  | GetRoomData roomName =>
      (Resolved (getRoomData fail d roomName), d)
  | SetTimeout _ => (Resolved tt, d)
  | InsertChannel channel_name is_private invite_code created_by =>
      if fail then (Rejected CONNECTION_LOST, d) else
      if channel_exists d channel_name || invite_code_taken d invite_code
      then (Rejected ER_DUP_ENTRY, d) else
      if user_exists d created_by
      then (Resolved tt,
            with_channels
              (fun t => t ++ [Channels.mk channel_name is_private invite_code
                                          (Some created_by) None]) d)
      else (Rejected ER_NO_REFERENCED_ROW, d)
  | InsertChannelMember channel_name user_id =>
      if fail then (Rejected CONNECTION_LOST, d) else
      if member_exists d channel_name user_id then (Rejected ER_DUP_ENTRY, d) else
      if channel_exists d channel_name && user_exists d user_id
      then (Resolved tt,
            with_channel_members
              (fun t => t ++ [ChannelMembers.mk channel_name user_id]) d)
      else (Rejected ER_NO_REFERENCED_ROW, d)
  | InsertIgnoreChannelMember channel_name user_id =>
      if fail then (Rejected CONNECTION_LOST, d) else
      if member_exists d channel_name user_id
         || negb (channel_exists d channel_name)
         || negb (user_exists d user_id)
      then (Resolved tt, d)
      else (Resolved tt,
            with_channel_members
              (fun t => t ++ [ChannelMembers.mk channel_name user_id]) d)
  | SelectChannelByName channel_name =>
      if fail then (Rejected CONNECTION_LOST, d) else
      (Resolved (select_where (fun c => String.eqb (Channels.channel_name c) channel_name)
                              (channels d)), d)
  | SelectChannelByInviteCode code =>
      if fail then (Rejected CONNECTION_LOST, d) else
      (Resolved (select_where (fun c => opt_eqb (Channels.invite_code c) code)
                              (channels d)), d)
  | DeleteChannel channel_name =>
      if fail then (Rejected CONNECTION_LOST, d) else
      (Resolved tt, delete_channel_cascade channel_name d)
  | SelectUserById userId =>
      if fail then (Rejected CONNECTION_LOST, d) else
      (Resolved (select_where (fun u => String.eqb (Users.user_id u) userId) (users d)), d)
  | UpdateLastSeenChannel channel userId =>
      if fail then (Rejected CONNECTION_LOST, d) else
      (Resolved tt,
       with_users (update_where (fun u => String.eqb (Users.user_id u) userId)
                                (set_last_seen_channel channel)) d)
  | UpdateCurrentStatus status userId =>
      if fail then (Rejected CONNECTION_LOST, d) else
      (Resolved tt,
       with_users (update_where (fun u => String.eqb (Users.user_id u) userId)
                                (set_current_status status)) d)
  | UpdateUserBanned reason username =>
      if fail then (Rejected CONNECTION_LOST, d) else
      (Resolved tt,
       with_users (update_where (fun u => String.eqb (Users.username u) username)
                                (set_banned reason)) d)
  | InsertAuditLog action_type actor_id target_id details =>
      if fail then (Rejected CONNECTION_LOST, d) else
      if user_exists d actor_id
      then (Resolved tt,
            with_audit_logs
              (fun t => t ++ [AuditLogs.mk action_type actor_id target_id details]) d)
      else (Rejected ER_NO_REFERENCED_ROW, d)
  | SelectMessageInChannel id channel =>
      if fail then (Rejected CONNECTION_LOST, d) else
      (Resolved (select_where (fun m => String.eqb (Messages.id m) id
                                        && String.eqb (Messages.channel_name m) channel)
                              (messages d)), d)
  | UpdatePinnedMessage id channel =>
      if fail then (Rejected CONNECTION_LOST, d) else
      (Resolved tt,
       with_channels (update_where (fun c => String.eqb (Channels.channel_name c) channel)
                                   (set_pinned id)) d)
  | InsertMessage id channel author_id author_username content timestamp
                  attachment parent is_thread_root =>
      if fail then (Rejected CONNECTION_LOST, d) else
      if message_exists d id then (Rejected ER_DUP_ENTRY, d) else
      if channel_exists d channel && user_exists d author_id && parent_ok d parent
      then (Resolved tt,
            with_messages
              (fun t => t ++ [new_message_row id channel author_id author_username
                                              content timestamp attachment parent
                                              is_thread_root]) d)
      else (Rejected ER_NO_REFERENCED_ROW, d)
  | UpdateMessageContent content edited_timestamp id =>
      if fail then (Rejected CONNECTION_LOST, d) else
      (Resolved tt,
       with_messages (update_where (fun m => String.eqb (Messages.id m) id)
                                   (set_edited content edited_timestamp)) d)
  | DeleteMessage id =>
      if fail then (Rejected CONNECTION_LOST, d) else
      (Resolved tt, delete_message_cascade id d)
  | ClearPinnedIfEquals channel id =>
      if fail then (Rejected CONNECTION_LOST, d) else
      (Resolved tt,
       with_channels
         (update_where (fun c => String.eqb (Channels.channel_name c) channel
                                 && opt_eqb (Channels.pinned_message_id c) id)
                       (set_pinned None)) d)
  | InsertIgnoreReaction message_id user_id emoji =>
      if fail then (Rejected CONNECTION_LOST, d) else
      if reaction_exists d message_id user_id emoji
         || negb (message_exists d message_id)
         || negb (user_exists d user_id)
      then (Resolved tt, d)
      else (Resolved tt,
            with_reactions (fun t => t ++ [Reactions.mk message_id user_id emoji]) d)
  | DeleteReaction message_id user_id emoji =>
      if fail then (Rejected CONNECTION_LOST, d) else
      (Resolved tt,
       with_reactions (delete_where (reaction_key_eqb message_id user_id emoji)) d)
  | SelectReactions message_id =>
      if fail then (Rejected CONNECTION_LOST, d) else
      (Resolved (reactions_of d message_id), d)
  end.

(* ===================================================================== *)
(** * Events sent to clients                                              *)
(* ===================================================================== *)

Definition UserId : Type := string.
(** A connection handle: the position of the socket in connection order. *)
Definition WsId : Type := nat.
(** A reference to a session object ([clientData]). *)
Definition Ref : Type := nat.

(** One entry of a [user_presence] list. *)
Module PresenceEntry.
Record t : Type := mk {
  id : UserId;
  username : string;
  role : string;
  status : string
}.
End PresenceEntry.

(** [messageData] of the send path.  The constant fields of the literal
    ([system: false], [edited: false], [editedTimestamp: null],
    [reactions: {}]) are not repeated. *)
Module MessageData.
Record t : Type := mk {
  id : string;
  author : string;
  authorId : UserId;
  content : string;
  timestamp : Z;
  channel : string;
  attachment : option Json;
  parent_message_id : option string;
  is_thread_root : bool
}.
End MessageData.

(** [{ ...messageToEdit, content, edited: true, editedTimestamp, attachment }] *)
Module UpdatedMsg.
Record t : Type := mk {
  base : Messages.row;
  content : string;
  editedTimestamp : Z
}.
End UpdatedMsg.

(** The two shapes of a [channel_message] payload: a notice written by the
    server ([author: 'Server'], [system: true]; the moderation notice has
    no id) and a chat message. *)
Inductive ChannelMessage : Type :=
| ServerNotice (id : option string) (content : string) (timestamp : Z)
| ChatMessage (m : MessageData.t).

Module Event.
Inductive t : Type :=
| error (message : string)
| notification (message : string)
| kicked (reason : string)
| banned (reason : string)
| initial_state (currentChannel : string) (availableChannels : list ChannelInfo.t)
| message_history (channel : string) (messages : list HistMsg.t)
                  (pinned : option Pinned.t)
| login_success (username role : string)
| channel_message (m : ChannelMessage)
| user_presence (channel : string) (users : list PresenceEntry.t)
| typing_status (channel : string) (typingUsers : list string)
| channel_list_update (availableChannels : list ChannelInfo.t)
| channel_change (newChannel : string) (history : list HistMsg.t)
                 (pinned : option Pinned.t)
                 (availableChannels : list ChannelInfo.t)
| update_pinned_message (message : option Pinned.t)
| message_edited (m : UpdatedMsg.t)
| message_deleted (id channel : string)
| message_reacted (id : string) (reactions : ReactionMap).
End Event.

(** What the server does to the outside: a frame written to a socket, or
    the closing handshake started on it. *)
Inductive Output : Type :=
| Sent (ws : WsId) (e : Event.t)
| CloseCalled (ws : WsId) (code : Z) (reason : string).

(* ===================================================================== *)
(** * In-process state                                                    *)
(* ===================================================================== *)

(** [clientData]: the session object. *)
Module Client.
Record t : Type := mk {
  ws : WsId;
  username : string;
  channel : string;
  role : string;
  status : string
}.
Definition with_channel (c : string) (o : t) : t :=
  mk (ws o) (username o) c (role o) (status o).
Definition with_status (s : string) (o : t) : t :=
  mk (ws o) (username o) (channel o) (role o) s.
(** Value read through a reference that was never allocated (does not
    happen: references only come from [alloc]). *)
Definition blank : t := mk 0%nat "" "" "" "".
End Client.

Inductive ReadyState : Type := CONNECTING | OPEN | CLOSING | CLOSED.


Module Socket.
Record t : Type := mk {
  readyState : ReadyState;
  (** the [let currentUserId = null] of the connection closure *)
  var_currentUserId : option UserId;
  (** the property [ws.currentUserId]: unset until the first message,
      then a copy of the variable *)
  field_currentUserId : JsId
}.
Definition fresh : t := mk OPEN None js_undefined.
End Socket.

(** What the process reads from its environment and never writes:
    the outcome of [parseInt(process.env.MESSAGE_EDIT_TTL_MS, 10)] ([None]
    for [NaN]) and the two random sources. *)
Record Env : Type := mkEnv {
  env_MESSAGE_EDIT_TTL_MS : option Z;
  uuids : nat -> string;
  invite_codes : nat -> string
}.

(** [parseInt(process.env.MESSAGE_EDIT_TTL_MS, 10) || (24 * 60 * 60 * 1000)] *)
Definition MESSAGE_EDIT_TTL_MS (e : Env) : Z :=
  match env_MESSAGE_EDIT_TTL_MS e with
  | Some n => if n =? 0 then 24 * 60 * 60 * 1000 else n
  | None => 24 * 60 * 60 * 1000
  end.

(** The state of the server process between two synchronous segments.
    [clock] is what [Date.now()] returns during a segment; the environment
    may advance it between segments.  [drawn] counts the random values
    consumed so far. *)
Record Mem : Type := mkMem {
  clients : list (UserId * Ref);
  heap : gmap Ref Client.t;
  next_ref : Ref;
  typingUsers : list (string * list string);
  bannedUsers : gset string;
  sockets : list Socket.t;
  clock : Z;
  env : Env;
  drawn : nat;
  out : list Output
}.

Definition set_clients (f : list (UserId * Ref) -> list (UserId * Ref)) (m : Mem) : Mem :=
  mkMem (f (clients m)) (heap m) (next_ref m) (typingUsers m) (bannedUsers m)
        (sockets m) (clock m) (env m) (drawn m) (out m).
Definition set_heap (f : gmap Ref Client.t -> gmap Ref Client.t) (m : Mem) : Mem :=
  mkMem (clients m) (f (heap m)) (next_ref m) (typingUsers m) (bannedUsers m)
        (sockets m) (clock m) (env m) (drawn m) (out m).
Definition set_next_ref (n : Ref) (m : Mem) : Mem :=
  mkMem (clients m) (heap m) n (typingUsers m) (bannedUsers m)
        (sockets m) (clock m) (env m) (drawn m) (out m).
Definition set_typingUsers (f : list (string * list string) -> list (string * list string))
    (m : Mem) : Mem :=
  mkMem (clients m) (heap m) (next_ref m) (f (typingUsers m)) (bannedUsers m)
        (sockets m) (clock m) (env m) (drawn m) (out m).
Definition set_bannedUsers (f : gset string -> gset string) (m : Mem) : Mem :=
  mkMem (clients m) (heap m) (next_ref m) (typingUsers m) (f (bannedUsers m))
        (sockets m) (clock m) (env m) (drawn m) (out m).
Definition set_sockets (f : list Socket.t -> list Socket.t) (m : Mem) : Mem :=
  mkMem (clients m) (heap m) (next_ref m) (typingUsers m) (bannedUsers m)
        (f (sockets m)) (clock m) (env m) (drawn m) (out m).
Definition set_clock (t : Z) (m : Mem) : Mem :=
  mkMem (clients m) (heap m) (next_ref m) (typingUsers m) (bannedUsers m)
        (sockets m) t (env m) (drawn m) (out m).
Definition set_drawn (n : nat) (m : Mem) : Mem :=
  mkMem (clients m) (heap m) (next_ref m) (typingUsers m) (bannedUsers m)
        (sockets m) (clock m) (env m) n (out m).
Definition emit (o : Output) (m : Mem) : Mem :=
  mkMem (clients m) (heap m) (next_ref m) (typingUsers m) (bannedUsers m)
        (sockets m) (clock m) (env m) (drawn m) (out m ++ [o]).

(** ** A JS [Map] with string keys, in insertion order *)

Module JsMap.
Section Ops.
Context {V : Type}.

Definition get (k : string) (l : list (string * V)) : option V :=
  match List.find (fun p => String.eqb (fst p) k) l with
  | Some p => Some (snd p)
  | None => None
  end.

Definition has (k : string) (l : list (string * V)) : bool :=
  existsb (fun p => String.eqb (fst p) k) l.

(** [set] keeps the position of a key that is present and appends a
    new key at the end. *)
Fixpoint set (k : string) (v : V) (l : list (string * V)) : list (string * V) :=
  match l with
  | [] => [(k, v)]
  | p :: r => if String.eqb (fst p) k then (fst p, v) :: r else p :: set k v r
  end.

Definition delete (k : string) (l : list (string * V)) : list (string * V) :=
  List.filter (fun p => negb (String.eqb (fst p) k)) l.

Definition keys (l : list (string * V)) : list string := map fst l.
End Ops.
End JsMap.

(** A JS [Set] of strings in insertion order. *)
Module JsSet.
Definition has (x : string) (s : list string) : bool := existsb (String.eqb x) s.
Definition add (x : string) (s : list string) : list string :=
  if has x s then s else s ++ [x].
Definition delete (x : string) (s : list string) : list string :=
  List.filter (fun y => negb (String.eqb y x)) s.
End JsSet.

(* ===================================================================== *)
(** * Synchronous segments                                                *)
(* ===================================================================== *)

(** Code that runs without suspension: a state transformer on [Mem]. *)
Definition Sync (A : Type) : Type := Mem -> A * Mem.

Definition ret {A : Type} (a : A) : Sync A := fun m => (a, m).
Definition bind {A B : Type} (c : Sync A) (f : A -> Sync B) : Sync B :=
  fun m => let (a, m') := c m in f a m'.
Definition gets {A : Type} (f : Mem -> A) : Sync A := fun m => (f m, m).
Definition modify (f : Mem -> Mem) : Sync unit := fun m => (tt, f m).

Declare Scope sync_scope.
Delimit Scope sync_scope with sync.
Notation "x <- c1 ;; c2" := (bind c1 (fun x => c2))
  (at level 100, c1 at next level, right associativity) : sync_scope.
Notation "c1 ;; c2" := (bind c1 (fun _ => c2))
  (at level 100, right associativity) : sync_scope.
Open Scope sync_scope.

(** [for (x of l) body(x)] *)
Fixpoint forEach {A : Type} (l : list A) (body : A -> Sync unit) : Sync unit :=
  match l with
  | [] => ret tt
  | x :: r => body x ;; forEach r body
  end.

(** ** Environment reads *)

Definition Date_now : Sync Z := gets clock.

Definition randomUUID : Sync string :=
  fun m => (uuids (env m) (drawn m), set_drawn (S (drawn m)) m).

(** [crypto.randomBytes(4).toString('hex').toUpperCase()] *)
Definition generateInviteCode : Sync string :=
  fun m => (JS.toUpperCase (invite_codes (env m) (drawn m)), set_drawn (S (drawn m)) m).

(** ** Sockets *)

Definition socket (ws : WsId) (m : Mem) : option Socket.t := sockets m !! ws.

Definition readyState_of (ws : WsId) (m : Mem) : option ReadyState :=
  Socket.readyState <$> socket ws m.

Definition is_open (ws : WsId) (m : Mem) : bool :=
  match readyState_of ws m with
  | Some OPEN => true
  | _ => false
  end.

(** [function sendToClient(ws, eventType, data)]: writes the frame when the
    socket is open, and is silent otherwise. *)
Definition sendToClient (ws : WsId) (e : Event.t) : Sync unit :=
  fun m => if is_open ws m then (tt, emit (Sent ws e) m) else (tt, m).

Definition update_socket (ws : WsId) (f : Socket.t -> Socket.t) (m : Mem) : Mem :=
  match sockets m !! ws with
  | Some s => set_sockets (fun l => <[ws := f s]> l) m
  | None => m
  end.

(** [ws.close(code, reason)]: starts the closing handshake of an open
    socket; the ['close'] event is delivered later by the environment. *)
Definition ws_close (ws : WsId) (code : Z) (reason : string) : Sync unit :=
  fun m =>
    if is_open ws m
    then (tt, emit (CloseCalled ws code reason)
                (update_socket ws
                   (fun s => Socket.mk CLOSING (Socket.var_currentUserId s)
                                       (Socket.field_currentUserId s)) m))
    else (tt, m).

(** The closure variable [currentUserId] of a connection. *)
Definition get_currentUserId (ws : WsId) : Sync (option UserId) :=
  gets (fun m => match socket ws m with
                 | Some s => Socket.var_currentUserId s
                 | None => None
                 end).

Definition set_currentUserId (ws : WsId) (v : option UserId) : Sync unit :=
  modify (update_socket ws
            (fun s => Socket.mk (Socket.readyState s) v (Socket.field_currentUserId s))).

(** The property [ws.currentUserId]. *)
Definition get_ws_currentUserId (ws : WsId) : Sync JsId :=
  gets (fun m => match socket ws m with
                 | Some s => Socket.field_currentUserId s
                 | None => js_undefined
                 end).

Definition set_ws_currentUserId (ws : WsId) (v : JsId) : Sync unit :=
  modify (update_socket ws
            (fun s => Socket.mk (Socket.readyState s) (Socket.var_currentUserId s) v)).

Definition field_of_var (v : option UserId) : JsId :=
  match v with
  | Some u => js_string u
  | None => js_null
  end.

(** ** Session objects and the registry *)

Definition deref_in (m : Mem) (r : Ref) : Client.t :=
  default Client.blank (heap m !! r).

Definition deref (r : Ref) : Sync Client.t := gets (fun m => deref_in m r).

(** Evaluation of an object literal: a new object. *)
Definition alloc (o : Client.t) : Sync Ref :=
  fun m => (next_ref m,
            set_next_ref (S (next_ref m)) (set_heap (fun h => <[next_ref m := o]> h) m)).

Definition assign_channel (r : Ref) (c : string) : Sync unit :=
  modify (fun m => set_heap (fun h => <[r := Client.with_channel c (deref_in m r)]> h) m).

Definition assign_status (r : Ref) (s : string) : Sync unit :=
  modify (fun m => set_heap (fun h => <[r := Client.with_status s (deref_in m r)]> h) m).

Definition clients_has (userId : UserId) : Sync bool :=
  gets (fun m => JsMap.has userId (clients m)).
Definition clients_get (userId : UserId) : Sync (option Ref) :=
  gets (fun m => JsMap.get userId (clients m)).
Definition clients_set (userId : UserId) (r : Ref) : Sync unit :=
  modify (set_clients (JsMap.set userId r)).
Definition clients_delete (userId : UserId) : Sync unit :=
  modify (set_clients (JsMap.delete userId)).

(** ** Broadcast router *)

Definition sender_differs (clientId : UserId) (senderId : option UserId) : bool :=
  match senderId with
  | Some s => negb (String.eqb clientId s)
  | None => true
  end.

(** [function broadcast(roomName, eventType, data, senderId = null)] *)
Definition broadcast (roomName : string) (e : Event.t) (senderId : option UserId)
  : Sync unit :=
  cs <- gets clients ;;
  forEach cs (fun entry =>
    client <- deref (snd entry) ;;
    if String.eqb (Client.channel client) roomName && sender_differs (fst entry) senderId
    then sendToClient (Client.ws client) e
    else ret tt).

(** [function getActiveUsersInRoom(roomName)] *)
Definition getActiveUsersInRoom (roomName : string) : Sync (list PresenceEntry.t) :=
  gets (fun m =>
    omap (fun entry : UserId * Ref =>
            let client := deref_in m (snd entry) in
            if String.eqb (Client.channel client) roomName
            then Some (PresenceEntry.mk (fst entry) (Client.username client)
                                        (Client.role client) (Client.status client))
            else None)
         (clients m)).

(** [function broadcastPresence(roomName)] *)
Definition broadcastPresence (roomName : string) : Sync unit :=
  activeUsers <- getActiveUsersInRoom roomName ;;
  cs <- gets clients ;;
  forEach cs (fun entry =>
    client <- deref (snd entry) ;;
    if String.eqb (Client.channel client) roomName
    then sendToClient (Client.ws client) (Event.user_presence roomName activeUsers)
    else ret tt).

(** [function getDmRoomName(id1, id2)]: the two ids in [Array.prototype.sort]
    order (code-unit order), joined with a dash. *)
Definition getDmRoomName (id1 id2 : string) : string :=
  if String.leb id1 id2 then "DM:" +:+ id1 +:+ "-" +:+ id2
  else "DM:" +:+ id2 +:+ "-" +:+ id1.

(* ===================================================================== *)
(** * Asynchronous handlers                                               *)
(* ===================================================================== *)

(** What is left of an async function after a synchronous segment: nothing,
    an awaited call with the segment that runs when it settles, or two
    independent continuations (a promise chain started without [await], a
    timer, an emitted event). *)
#[warnings="-register-all"]
Inductive Task : Type :=
| Done : Task
| Await : forall {R : Type}, Call R -> (Outcome R -> Mem -> Task * Mem) -> Task
| Fork : Task -> Task -> Task.

Definition fork_all (ts : list Task) (t : Task) : Task :=
  fold_right Fork t ts.

Definition done : Sync Task := ret Done.

(** [await c], followed by [k]. *)
Definition await {R : Type} (c : Call R) (k : Outcome R -> Sync Task) : Sync Task :=
  ret (Await c k).

(** The [catch] block of the message listener. *)
Definition internal_error (ws : WsId) : Sync Task :=
  sendToClient ws (Event.error "Internal error processing request.") ;; done.

(** [await c] inside the listener's [try]: a rejection lands in its
    [catch]. *)
Definition await_try {R : Type} (ws : WsId) (c : Call R) (k : R -> Sync Task)
  : Sync Task :=
  await c (fun o => match o with
                    | Rejected _ => internal_error ws
                    | Resolved r => k r
                    end).

(** [sendToClient(ws, 'error', { message }); return;] *)
Definition reject (ws : WsId) (message : string) : Sync Task :=
  sendToClient ws (Event.error message) ;; done.

(** The value of [currentUserId] where the source binds it as a statement
    parameter or a map key.  The variable is never reset to [null] once a
    login has set it, so the default is not reached from an authenticated
    handler. *)
Definition bound_id (cur : option UserId) : UserId := default "" cur.

(** [if (!room.startsWith('DM:')) broadcast(room, 'channel_message',
      { id: crypto.randomUUID(), author: 'Server', content, timestamp: Date.now(),
        system: true }, senderId)] *)
Definition notice_unless_dm (room content : string) (senderId : option UserId)
  : Sync unit :=
  if JS.startsWith room "DM:" then ret tt
  else
    id <- randomUUID ;;
    now <- Date_now ;;
    broadcast room (Event.channel_message (ServerNotice (Some id) content now)) senderId.

(** [const s = typingUsers.get(room); if (s && s.delete(name)) broadcast(...)] *)
Definition clear_typing (room name : string) : Sync unit :=
  ts <- gets typingUsers ;;
  match JsMap.get room ts with
  | Some s =>
      if JsSet.has name s then
        modify (set_typingUsers (JsMap.set room (JsSet.delete name s))) ;;
        broadcast room (Event.typing_status room (JsSet.delete name s)) None
      else ret tt
  | None => ret tt
  end.

(** ** Command interpreter *)

(** [clients.forEach((c, id) => { if (c.username === targetUsername)
      { targetClient = c; targetId = id; } })]: the last match wins. *)
Definition find_target (targetUsername : string) : Sync (option (UserId * Ref)) :=
  gets (fun m =>
    fold_left (fun found (entry : UserId * Ref) =>
                 if String.eqb (Client.username (deref_in m (snd entry))) targetUsername
                 then Some entry else found)
              (clients m) None).

Definition is_ban (command : string) : bool := String.eqb command "/ban".

(** The part of [/kick] and [/ban] after the ban bookkeeping. *)
Definition moderate (command targetUsername roomName : string)
    (target : option (UserId * Ref)) (client : Ref) (userId : UserId) (ws : WsId)
  : Sync Task :=
  match target with
  | Some (targetId, targetClient) =>
      let action := if is_ban command then "banned" else "kicked" in
      let message := if is_ban command then "permanently banned" else "kicked" in
      c <- deref client ;;
      now <- Date_now ;;
      broadcast roomName
        (Event.channel_message
           (ServerNotice None
              (targetUsername +:+ " has been " +:+ message +:+ " by "
                 +:+ Client.username c +:+ ".") now)) None ;;
      t <- deref targetClient ;;
      sendToClient (Client.ws t)
        ((if is_ban command then Event.banned else Event.kicked)
           ("You were " +:+ action +:+ " from the server.")) ;;
      await_try ws
        (InsertAuditLog ("USER_" +:+ JS.toUpperCase (JS.substring_from 1 command))
                        userId (Some targetId)
                        (ModerationDetails targetUsername roomName))
        (fun _ =>
           t <- deref targetClient ;;
           ws_close (Client.ws t) 1000 action ;;
           clients_delete targetId ;;
           broadcastPresence roomName ;;
           done)
  | None =>
      if String.eqb command "/kick"
      then reject ws ("User " +:+ targetUsername +:+ " not found or already disconnected.")
      else done
  end.

(** [async function handleCommand(command, args, client, userId, ws)] *)
Definition handleCommand (command : string) (args : list string) (client : Ref)
    (userId : UserId) (ws : WsId) : Sync Task :=
  c <- deref client ;;
  let roomName := Client.channel c in
  let targetUsername := head args in
  let restArgs := tail args in
  if String.eqb command "/pin" then
    let messageIdToPin := head restArgs in
    if negb (hasPermission (Client.role c) Admin)
    then reject ws "Permission denied. Requires Admin role."
    else
      match JS.or_null messageIdToPin with
      | None => reject ws "Usage: /pin [messageId]"
      | Some mid =>
          await (SelectMessageInChannel mid roomName) (fun o =>
            match o with
            | Rejected _ => reject ws "DB Error pinning message."
            | Resolved [] => reject ws "Message not found in this channel."
            | Resolved (m0 :: _) =>
                await (UpdatePinnedMessage (Some mid) roomName) (fun o =>
                  match o with
                  | Rejected _ => reject ws "DB Error pinning message."
                  | Resolved _ =>
                      broadcast roomName
                        (Event.update_pinned_message (Some (pinned_summary m0))) None ;;
                      sendToClient ws (Event.notification "Message pinned successfully.") ;;
                      done
                  end)
            end)
      end
  else if String.eqb command "/unpin" then
    if negb (hasPermission (Client.role c) Admin)
    then reject ws "Permission denied. Requires Admin role."
    else
      await_try ws (UpdatePinnedMessage None roomName) (fun _ =>
        broadcast roomName (Event.update_pinned_message None) None ;;
        sendToClient ws (Event.notification "Message unpinned.") ;;
        done)
  else if String.eqb command "/kick" || String.eqb command "/ban" then
    match JS.or_null targetUsername with
    | None =>
        reject ws ("Permission denied or missing username. Usage: "
                     +:+ command +:+ " [username]")
    | Some targetUsername =>
        if negb (hasPermission (Client.role c) Admin)
        then reject ws ("Permission denied or missing username. Usage: "
                          +:+ command +:+ " [username]")
        else
          target <- find_target targetUsername ;;
          targetRole <- gets (fun m => (fun e : UserId * Ref =>
                                          Client.role (deref_in m (snd e))) <$> target) ;;
          if opt_eqb targetRole "Admin"
          then reject ws "Cannot moderate another Admin."
          else if is_ban command then
            modify (set_bannedUsers (fun s => {[targetUsername]} ∪ s)) ;;
            let reason := JS.or_else (Some (JS.join " " (tail restArgs)))
                                     "Banned by Admin command." in
            await_try ws (UpdateUserBanned reason targetUsername) (fun _ =>
              sendToClient ws
                (Event.notification ("User " +:+ targetUsername
                                       +:+ " is now permanently banned.")) ;;
              moderate command targetUsername roomName target client userId ws)
          else moderate command targetUsername roomName target client userId ws
    end
  else if String.eqb command "/status" then
    let newStatus := match JS.or_null (head args) with
                     | Some a => JS.toLowerCase a
                     | None => "online"
                     end in
    if negb (existsb (String.eqb newStatus) ["online"; "away"; "dnd"])
    then reject ws "Invalid status. Use: online, away, or dnd."
    else
      assign_status client newStatus ;;
      await_try ws (UpdateCurrentStatus newStatus userId) (fun _ =>
        broadcastPresence roomName ;;
        sendToClient ws
          (Event.notification ("Your status is now set to " +:+ newStatus +:+ ".")) ;;
        done)
  else reject ws ("Unknown command: " +:+ command +:+ ".").

(** ** Client events

    The decoded records the message listener receives.  A field is an
    [option] where the source tests it for presence. *)
Inductive ClientEvent : Type :=
| login (userId : UserId) (username : option string)
| send_message (content : option string) (attachment : option Json)
               (parent_message_id : option string)
| send_dm (channel : option string) (content : option string)
          (attachment : option Json) (parent_message_id : option string)
| create_channel (channel : string) (isPrivate : bool)
| delete_channel (channel : string)
| join_channel_by_code (code : string)
| typing_update (isTyping : bool)
| edit_message (id : string) (content : option string)
| delete_message (id : string)
| add_reaction (id emoji : string)
| remove_reaction (id emoji : string)
| join_channel (channel : string)
| start_dm (targetUserId : option string)
| unknown_type (type : string).

(** [data.content ? data.content.trim() : ''] *)
Definition trimmed (content : option string) : string :=
  match JS.or_null content with
  | Some s => JS.trim s
  | None => ""
  end.

(** ** Login *)

(** The tail of the login handler, from [getRoomData] on. *)
Definition login_finish (ws : WsId) (userId : UserId) (clientData : Ref)
    (authorizedChannels : list ChannelInfo.t) : Sync Task :=
  cd <- deref clientData ;;
  await_try ws (GetRoomData (Client.channel cd)) (fun room =>
    cd <- deref clientData ;;
    sendToClient ws (Event.initial_state (Client.channel cd) authorizedChannels) ;;
    sendToClient ws (Event.message_history (Client.channel cd)
                       (RoomData.messages room) (RoomData.pinnedMessage room)) ;;
    notice_unless_dm (Client.channel cd)
      (Client.username cd +:+ " has joined " +:+ Client.channel cd +:+ ".")
      (Some userId) ;;
    broadcastPresence (Client.channel cd) ;;
    sendToClient ws (Event.login_success (Client.username cd) (Client.role cd)) ;;
    done).

(** The segment that runs when the channel list has resolved: a session
    whose last-seen channel is not in the list is moved to the fallback
    channel, and the persisted record with it. *)
Definition login_settle (ws : WsId) (userId : UserId) (clientData : Ref)
    (authorizedChannels : list ChannelInfo.t) : Sync Task :=
  cd <- deref clientData ;;
  let isChannelAccessible :=
    existsb (fun c => String.eqb (ChannelInfo.name c) (Client.channel cd))
            authorizedChannels in
  if negb isChannelAccessible then
    assign_channel clientData FALLBACK_CHANNEL ;;
    await_try ws (UpdateLastSeenChannel FALLBACK_CHANNEL userId) (fun _ =>
      login_finish ws userId clientData authorizedChannels)
  else login_finish ws userId clientData authorizedChannels.

(** The segment of the login handler that runs when the user lookup has
    resolved: the three guards, the preemption of an existing session, and
    the installation of the new one, up to the next [await]. *)
Definition login_install (ws : WsId) (userId : UserId) (inputUsername : string)
    (users : list Users.row) : Sync Task :=
  match users with
  | [] =>
      sendToClient ws (Event.error "Invalid User ID. Please register.") ;;
      ws_close ws 1000 "Invalid Auth" ;;
      done
  | persistentUser :: _ =>
      inBanSet <- gets (fun m => bool_decide (Users.username persistentUser ∈ bannedUsers m)) ;;
      if inBanSet || Users.is_banned persistentUser then
        sendToClient ws
          (Event.banned (JS.or_else (Users.ban_reason persistentUser)
                                    "You are banned from this server.")) ;;
        ws_close ws 1000 "Banned" ;;
        done
      else
        existing <- clients_get userId ;;
        match existing with
        | Some old =>
            o <- deref old ;;
            sendToClient (Client.ws o)
              (Event.kicked "Another connection established with your user ID.") ;;
            ws_close (Client.ws o) 1000 "Duplicate Login" ;;
            clients_delete userId
        | None => ret tt
        end ;;
        clientData <- alloc (Client.mk ws inputUsername
                                       (Users.last_seen_channel persistentUser)
                                       (Users.user_role persistentUser)
                                       (Users.current_status persistentUser)) ;;
        clients_set userId clientData ;;
        await_try ws (GetAuthorizedChannels (js_string userId))
                  (login_settle ws userId clientData)
  end.

Definition handle_login (ws : WsId) (userId : UserId) (username : option string)
  : Sync Task :=
  match username with
  | None => internal_error ws
  | Some name =>
      let inputUsername := JS.substring_to 20 name in
      set_currentUserId ws (Some userId) ;;
      set_ws_currentUserId ws (js_string userId) ;;
      await_try ws (SelectUserById userId) (login_install ws userId inputUsername)
  end.

(** ** Messages *)

Definition handle_send (ws : WsId) (client : Ref) (userId : UserId)
    (targetRoom : option string) (content : option string)
    (attachment : option Json) (parent_message_id : option string) : Sync Task :=
  let content := trimmed content in
  match targetRoom with
  | None => internal_error ws
  | Some targetRoom =>
      let isDM := JS.startsWith targetRoom "DM:" in
      if JS.startsWith content "/" then
        let parts := JS.split " " (JS.substring_from 1 content) in
        handleCommand (JS.toLowerCase (default "" (head parts))) (tail parts)
                      client userId ws
      else if negb (String.eqb content "") || bool_decide (is_Some attachment) then
        let parentId := JS.or_null parent_message_id in
        let isThreadRoot := match parentId with Some _ => false | None => true end in
        id <- randomUUID ;;
        c <- deref client ;;
        now <- Date_now ;;
        let messageData :=
          MessageData.mk id (Client.username c) userId content now targetRoom
                         attachment parentId isThreadRoot in
        let deliver : Sync Task :=
          sendToClient ws (Event.channel_message (ChatMessage messageData)) ;;
          cur <- get_currentUserId ws ;;
          broadcast targetRoom (Event.channel_message (ChatMessage messageData)) cur ;;
          done in
        if negb isDM then
          await_try ws
            (InsertMessage id targetRoom userId (Client.username c) content now
                           attachment parentId isThreadRoot)
            (fun _ => deliver)
        else deliver
      else done
  end.

Definition handle_typing (ws : WsId) (client : Ref) (isTyping : bool) : Sync Task :=
  c <- deref client ;;
  ts <- gets typingUsers ;;
  let typingSet := default [] (JsMap.get (Client.channel c) ts) in
  let typingSet :=
    if isTyping && negb (JsSet.has (Client.username c) typingSet)
    then JsSet.add (Client.username c) typingSet
    else if negb isTyping then JsSet.delete (Client.username c) typingSet
    else typingSet in
  modify (set_typingUsers (JsMap.set (Client.channel c) typingSet)) ;;
  cur <- get_currentUserId ws ;;
  broadcast (Client.channel c) (Event.typing_status (Client.channel c) typingSet) cur ;;
  sendToClient ws (Event.typing_status (Client.channel c) typingSet) ;;
  done.

(** [a === currentUserId] for a column value [a]. *)
Definition is_current (a : string) (cur : option UserId) : bool :=
  match cur with
  | Some u => String.eqb a u
  | None => false
  end.

Definition handle_edit (ws : WsId) (client : Ref) (id : string)
    (content : option string) : Sync Task :=
  let newContent := trimmed content in
  c <- deref client ;;
  await_try ws (SelectMessageInChannel id (Client.channel c)) (fun rows =>
    cur <- get_currentUserId ws ;;
    c <- deref client ;;
    match rows with
    | messageToEdit :: _ =>
        let canEdit := is_current (Messages.author_id messageToEdit) cur
                       || hasPermission (Client.role c) Moderator in
        if canEdit && negb (String.eqb newContent "") then
          now <- Date_now ;;
          ttl <- gets (fun m => MESSAGE_EDIT_TTL_MS (env m)) ;;
          if is_current (Messages.author_id messageToEdit) cur
             && (Messages.timestamp messageToEdit + ttl <? now)
          then reject ws "Message is too old to edit (TTL exceeded)."
          else
            let newTimestamp := now in
            await_try ws (UpdateMessageContent newContent newTimestamp id) (fun _ =>
              let updatedMsg := UpdatedMsg.mk messageToEdit newContent newTimestamp in
              c <- deref client ;;
              broadcast (Client.channel c) (Event.message_edited updatedMsg) None ;;
              sendToClient ws (Event.message_edited updatedMsg) ;;
              done)
        else reject ws "Permission denied or content empty."
    | [] => reject ws "Permission denied or content empty."
    end).

Definition handle_delete (ws : WsId) (client : Ref) (id : string) : Sync Task :=
  c <- deref client ;;
  await_try ws (SelectMessageInChannel id (Client.channel c)) (fun rows =>
    cur <- get_currentUserId ws ;;
    c <- deref client ;;
    match rows with
    | messageToDelete :: _ =>
        if is_current (Messages.author_id messageToDelete) cur
           || hasPermission (Client.role c) Moderator
        then
          await_try ws (DeleteMessage id) (fun _ =>
            c <- deref client ;;
            await_try ws (ClearPinnedIfEquals (Client.channel c) id) (fun _ =>
              c <- deref client ;;
              broadcast (Client.channel c)
                        (Event.message_deleted id (Client.channel c)) None ;;
              c <- deref client ;;
              sendToClient ws (Event.message_deleted id (Client.channel c)) ;;
              cur <- get_currentUserId ws ;;
              c <- deref client ;;
              await_try ws
                (InsertAuditLog "MESSAGE_DELETE" (bound_id cur) (Some id)
                   (DeletionDetails (Client.channel c)
                      (JS.substring_to 50 (Messages.content messageToDelete) +:+ "...")))
                (fun _ => done)))
        else reject ws "Permission denied to delete this message."
    | [] => reject ws "Permission denied to delete this message."
    end).

Definition handle_reaction (ws : WsId) (client : Ref) (add : bool)
    (id emoji : string) : Sync Task :=
  cur <- get_currentUserId ws ;;
  await_try ws
    (if add then InsertIgnoreReaction id (bound_id cur) emoji
     else DeleteReaction id (bound_id cur) emoji)
    (fun _ =>
       await_try ws (SelectReactions id) (fun reactionResults =>
         match aggregate_reactions reactionResults with
         | None => internal_error ws
         | Some updatedReactions =>
             c <- deref client ;;
             broadcast (Client.channel c)
                       (Event.message_reacted id updatedReactions) None ;;
             sendToClient ws (Event.message_reacted id updatedReactions) ;;
             done
         end)).

(** ** Room change *)

(** From [if (!newRoom || newRoom === oldRoom) break;] to the end of the
    [join_channel] / [start_dm] case. *)
Definition change_room (ws : WsId) (client : Ref) (oldRoom newRoom : string)
  : Sync Task :=
  if negb (JS.truthy newRoom) || String.eqb newRoom oldRoom then done
  else
    c <- deref client ;;
    notice_unless_dm oldRoom (Client.username c +:+ " has left the chat.") None ;;
    c <- deref client ;;
    clear_typing oldRoom (Client.username c) ;;
    assign_channel client newRoom ;;
    cur <- get_currentUserId ws ;;
    clients_set (bound_id cur) client ;;
    await_try ws (UpdateLastSeenChannel newRoom (bound_id cur)) (fun _ =>
      await_try ws (GetRoomData newRoom) (fun newRoomData =>
        cur <- get_currentUserId ws ;;
        await_try ws (GetAuthorizedChannels (js_string (bound_id cur))) (fun channelList =>
          sendToClient ws (Event.channel_change newRoom
                             (RoomData.messages newRoomData)
                             (RoomData.pinnedMessage newRoomData) channelList) ;;
          c <- deref client ;;
          notice_unless_dm newRoom
            (Client.username c +:+ " has joined " +:+ newRoom +:+ ".") None ;;
          broadcastPresence oldRoom ;;
          broadcastPresence newRoom ;;
          done))).

Definition handle_join (ws : WsId) (client : Ref) (targetChannel : string) : Sync Task :=
  c <- deref client ;;
  let oldRoom := Client.channel c in
  cur <- get_currentUserId ws ;;
  await_try ws (GetAuthorizedChannels (js_string (bound_id cur))) (fun authorizedChannels =>
    if existsb (fun ch => String.eqb (ChannelInfo.name ch) targetChannel)
               authorizedChannels
    then change_room ws client oldRoom targetChannel
    else reject ws ("Channel " +:+ targetChannel +:+ " is private or does not exist.")).

Definition handle_start_dm (ws : WsId) (client : Ref) (targetUserId : option string)
  : Sync Task :=
  c <- deref client ;;
  let oldRoom := Client.channel c in
  match JS.or_null targetUserId with
  | Some target =>
      cur <- get_currentUserId ws ;;
      change_room ws client oldRoom (getDmRoomName (bound_id cur) target)
  | None => done
  end.

(** ** The listener prelude *)

(** [ws.currentUserId = currentUserId;] *)
Definition listener_prelude (ws : WsId) : Sync unit :=
  cur <- get_currentUserId ws ;;
  set_ws_currentUserId ws (field_of_var cur).

(** [if (!currentUserId || !clients.has(currentUserId)) { error; return; }
     const client = clients.get(currentUserId);] *)
Definition authenticated (ws : WsId) (k : Ref -> UserId -> Sync Task) : Sync Task :=
  cur <- get_currentUserId ws ;;
  match JS.or_null cur with
  | Some userId =>
      r <- clients_get userId ;;
      match r with
      | Some client => k client userId
      | None => reject ws "Authentication required."
      end
  | None => reject ws "Authentication required."
  end.

(** [ws.emit('message', JSON.stringify({ type: 'join_channel', channel }))]:
    the listener runs on the emitted event up to its first suspension. *)
Definition emit_join_channel (ws : WsId) (channel : string) : Sync Task :=
  listener_prelude ws ;;
  authenticated ws (fun client _ => handle_join ws client channel).

(** ** Channel administration *)

(** [wss.clients.forEach(c => { if (c.readyState === OPEN && c.currentUserId)
      getAuthorizedChannels(c.currentUserId).then(channels =>
        sendToClient(c, 'channel_list_update', { availableChannels: channels })) })] *)
Definition channel_list_updates (m : Mem) : list Task :=
  omap (fun p : nat * Socket.t =>
          match Socket.readyState (snd p), Socket.field_currentUserId (snd p) with
          | OPEN, js_string u =>
              if JS.truthy u then
                Some (Await (GetAuthorizedChannels (js_string u)) (fun o =>
                        match o with
                        | Resolved channels =>
                            sendToClient (fst p) (Event.channel_list_update channels) ;; done
                        | Rejected _ => done
                        end))
              else None
          | _, _ => None
          end)
       (imap (fun i s => (i, s)) (sockets m)).

Definition create_failed (ws : WsId) (newChannelName code : string) : Sync Task :=
  if String.eqb code ER_DUP_ENTRY
  then reject ws ("Channel " +:+ newChannelName +:+ " already exists.")
  else reject ws "Failed to create channel due to server error.".

Definition create_finish (ws : WsId) (newChannelName : string)
    (inviteCode : option string) : Sync Task :=
  match JS.or_null inviteCode with
  | Some code =>
      sendToClient ws (Event.notification
        ("Private Channel " +:+ newChannelName +:+ " created! Invite code: " +:+ code))
  | None =>
      sendToClient ws (Event.notification
        ("Public Channel " +:+ newChannelName +:+ " created!"))
  end ;;
  updates <- gets channel_list_updates ;;
  ret (fork_all updates
         (Await (SetTimeout 50) (fun _ => emit_join_channel ws newChannelName))).

Definition handle_create_channel (ws : WsId) (newChannelName : string)
    (isPrivate : bool) : Sync Task :=
  if Nat.ltb 50 (String.length newChannelName) || Nat.ltb (String.length newChannelName) 2
  then reject ws "Channel name is too short or too long."
  else
    inviteCode <- (if isPrivate then code <- generateInviteCode ;; ret (Some code)
                   else ret None) ;;
    cur <- get_currentUserId ws ;;
    await (InsertChannel newChannelName isPrivate inviteCode (bound_id cur)) (fun o =>
      match o with
      | Rejected code => create_failed ws newChannelName code
      | Resolved _ =>
          if isPrivate then
            cur <- get_currentUserId ws ;;
            await (InsertChannelMember newChannelName (bound_id cur)) (fun o =>
              match o with
              | Rejected code => create_failed ws newChannelName code
              | Resolved _ => create_finish ws newChannelName inviteCode
              end)
          else create_finish ws newChannelName inviteCode
      end).

(** [clients.forEach((c, id) => { if (c.channel === channelToDelete)
      { c.channel = FALLBACK_CHANNEL; clients.set(id, c); usersToMove.push(c); } })] *)
Fixpoint move_to_fallback (channelToDelete : string) (cs : list (UserId * Ref))
  : Sync (list Ref) :=
  match cs with
  | [] => ret []
  | entry :: rest =>
      c <- deref (snd entry) ;;
      if String.eqb (Client.channel c) channelToDelete then
        assign_channel (snd entry) FALLBACK_CHANNEL ;;
        clients_set (fst entry) (snd entry) ;;
        moved <- move_to_fallback channelToDelete rest ;;
        ret (snd entry :: moved)
      else move_to_fallback channelToDelete rest
  end.

(** [usersToMove.forEach(c => getAuthorizedChannels(c.ws.currentUserId)
      .then(channels => sendToClient(c.ws, 'channel_change', {...})))] *)
Definition channel_changes (room : RoomData.t) (usersToMove : list Ref) (m : Mem)
  : list Task :=
  map (fun r =>
         let c := deref_in m r in
         let uid := match socket (Client.ws c) m with
                    | Some s => Socket.field_currentUserId s
                    | None => js_undefined
                    end in
         Await (GetAuthorizedChannels uid) (fun o =>
           match o with
           | Resolved channels =>
               c <- deref r ;;
               sendToClient (Client.ws c)
                 (Event.channel_change FALLBACK_CHANNEL (RoomData.messages room)
                                       (RoomData.pinnedMessage room) channels) ;;
               done
           | Rejected _ => done
           end))
      usersToMove.

(** [channelInfo.created_by === currentUserId] *)
Definition is_creator (created_by : option string) (cur : option UserId) : bool :=
  match created_by, cur with
  | Some a, Some b => String.eqb a b
  | None, None => true
  | _, _ => false
  end.

Definition handle_delete_channel (ws : WsId) (client : Ref) (channelToDelete : string)
  : Sync Task :=
  await_try ws (SelectChannelByName channelToDelete) (fun rows =>
    match rows with
    | [] => reject ws "Cannot delete default or nonexistent channel."
    | channelInfo :: _ =>
        if String.eqb channelToDelete FALLBACK_CHANNEL
        then reject ws "Cannot delete default or nonexistent channel."
        else
          cur <- get_currentUserId ws ;;
          c <- deref client ;;
          if negb (hasPermission (Client.role c) Admin
                   || is_creator (Channels.created_by channelInfo) cur)
          then reject ws
                 "Permission denied. Only the creator or an Admin can delete this channel."
          else
            cs <- gets clients ;;
            usersToMove <- move_to_fallback channelToDelete cs ;;
            await (DeleteChannel channelToDelete) (fun o =>
              match o with
              | Rejected _ => reject ws "Failed to delete channel due to server error."
              | Resolved _ =>
                  await (GetRoomData FALLBACK_CHANNEL) (fun o =>
                    match o with
                    | Rejected _ =>
                        reject ws "Failed to delete channel due to server error."
                    | Resolved fallbackRoomData =>
                        changes <- gets (channel_changes fallbackRoomData usersToMove) ;;
                        updates <- gets channel_list_updates ;;
                        broadcastPresence channelToDelete ;;
                        broadcastPresence FALLBACK_CHANNEL ;;
                        sendToClient ws
                          (Event.notification
                             ("Channel " +:+ channelToDelete +:+ " deleted successfully.")) ;;
                        ret (fork_all (changes ++ updates) Done)
                    end)
              end)
    end).

Definition handle_join_by_code (ws : WsId) (code : string) : Sync Task :=
  await_try ws (SelectChannelByInviteCode code) (fun rows =>
    match rows with
    | [] => reject ws "Invalid or expired invite code."
    | channelResult :: _ =>
        if Channels.is_private channelResult then
          cur <- get_currentUserId ws ;;
          await_try ws
            (InsertIgnoreChannelMember (Channels.channel_name channelResult) (bound_id cur))
            (fun _ =>
               sendToClient ws
                 (Event.notification
                    ("Successfully joined private channel "
                       +:+ Channels.channel_name channelResult +:+ ".")) ;;
               cur <- get_currentUserId ws ;;
               await_try ws (GetAuthorizedChannels (js_string (bound_id cur)))
                 (fun channelList =>
                    sendToClient ws (Event.channel_list_update channelList) ;;
                    emit_join_channel ws (Channels.channel_name channelResult)))
        else reject ws "This code is for a public channel. Use the channel list."
    end).

(** ** The message listener: [ws.on('message', async (message) => {...})] *)
Definition on_message (ws : WsId) (data : ClientEvent) : Sync Task :=
  listener_prelude ws ;;
  match data with
  | login userId username => handle_login ws userId username
  | _ =>
      authenticated ws (fun client userId =>
        match data with
        | login _ _ => done
        | send_message content attachment parent =>
            c <- deref client ;;
            handle_send ws client userId (Some (Client.channel c)) content attachment parent
        | send_dm channel content attachment parent =>
            handle_send ws client userId channel content attachment parent
        | create_channel channel isPrivate => handle_create_channel ws channel isPrivate
        | delete_channel channel => handle_delete_channel ws client channel
        | join_channel_by_code code => handle_join_by_code ws code
        | typing_update isTyping => handle_typing ws client isTyping
        | edit_message id content => handle_edit ws client id content
        | delete_message id => handle_delete ws client id
        | add_reaction id emoji => handle_reaction ws client true id emoji
        | remove_reaction id emoji => handle_reaction ws client false id emoji
        | join_channel channel => handle_join ws client channel
        | start_dm targetUserId => handle_start_dm ws client targetUserId
        | unknown_type _ => done
        end)
  end.

(** ** The close listener: [ws.on('close', () => {...})] *)
Definition on_close (ws : WsId) : Sync unit :=
  modify (update_socket ws
            (fun s => Socket.mk CLOSED (Socket.var_currentUserId s)
                                (Socket.field_currentUserId s))) ;;
  f <- get_ws_currentUserId ws ;;
  match f with
  | js_string userId =>
      r <- clients_get userId ;;
      match r with
      | Some client =>
          c <- deref client ;;
          let disconnectedChannel := Client.channel c in
          notice_unless_dm disconnectedChannel
            (Client.username c +:+ " has disconnected.") None ;;
          clear_typing disconnectedChannel (Client.username c) ;;
          clients_delete userId ;;
          broadcastPresence disconnectedChannel
      | None => ret tt
      end
  | _ => ret tt
  end.

(** A new connection: [wss.on('connection', (ws) => { let currentUserId = null; ... })] *)
Definition on_connection : Sync WsId :=
  fun m => (length (sockets m), set_sockets (fun l => l ++ [Socket.fresh]) m).

(* ===================================================================== *)
(** * Running handlers                                                    *)
(* ===================================================================== *)

Record World : Type := mkWorld {
  mem : Mem;
  db : DB
}.

(** ** An uninterrupted run

    [run fails t w] settles the awaited calls of [t] one after the other
    against the tables, with no other event in between.  [fails] gives, for
    each awaited call in order, whether the environment makes it fail; calls
    beyond the end of the list succeed.  The two sides of a [Fork] are run
    left to right. *)
Fixpoint run (fails : list bool) (t : Task) (w : World) : World * list bool :=
  match t with
  | Done => (w, fails)
  | Await c k =>
      let (o, db') := exec (default false (head fails)) c (db w) in
      let (t', mem') := k o (mem w) in
      run (tail fails) t' (mkWorld mem' db')
  | Fork t1 t2 =>
      let (w1, fails1) := run fails t1 w in
      run fails1 t2 w1
  end.

(** A segment, then everything it leaves behind. *)
Definition run_segment (fails : list bool) (s : Sync Task) (w : World)
  : World * list bool :=
  let (t, mem') := s (mem w) in
  run fails t (mkWorld mem' (db w)).

(** The listener on one event, run to completion. *)
Definition handle (fails : list bool) (ws : WsId) (data : ClientEvent) (w : World)
  : World :=
  fst (run_segment fails (on_message ws data) w).

(** [handleCommand], run to completion. *)
Definition command (fails : list bool) (cmd : string) (args : list string)
    (client : Ref) (userId : UserId) (ws : WsId) (w : World) : World :=
  fst (run_segment fails (handleCommand cmd args client userId ws) w).

(** ** The event loop

    The process as a transition system: the in-process state, the tables,
    and the continuations that wait for a call to settle.  Between two
    transitions no handler code runs; each transition runs exactly one
    synchronous segment. *)
Record System : Type := mkSystem {
  world : World;
  pending : list Task
}.

Definition socket_alive (ws : WsId) (m : Mem) : bool :=
  match readyState_of ws m with
  | Some CLOSED | None => false
  | Some _ => true
  end.

Inductive step : System -> System -> Prop :=
| step_connection w p :
    step (mkSystem w p)
         (mkSystem (mkWorld (snd (on_connection (mem w))) (db w)) p)
| step_message w p ws data :
    socket_alive ws (mem w) = true ->
    step (mkSystem w p)
         (mkSystem (mkWorld (snd (on_message ws data (mem w))) (db w))
                   (p ++ [fst (on_message ws data (mem w))]))
| step_close w p ws :
    socket_alive ws (mem w) = true ->
    step (mkSystem w p)
         (mkSystem (mkWorld (snd (on_close ws (mem w))) (db w)) p)
| step_settle w p1 p2 (R : Type) (c : Call R) k (fail : bool) :
    step (mkSystem w (p1 ++ Await c k :: p2))
         (mkSystem (mkWorld (snd (k (fst (exec fail c (db w))) (mem w)))
                            (snd (exec fail c (db w))))
                   (p1 ++ fst (k (fst (exec fail c (db w))) (mem w)) :: p2))
| step_fork w p1 p2 t1 t2 :
    step (mkSystem w (p1 ++ Fork t1 t2 :: p2))
         (mkSystem w (p1 ++ t1 :: t2 :: p2))
| step_done w p1 p2 :
    step (mkSystem w (p1 ++ Done :: p2))
         (mkSystem w (p1 ++ p2))
| step_clock w p t :
    clock (mem w) <= t ->
    step (mkSystem w p)
         (mkSystem (mkWorld (set_clock t (mem w)) (db w)) p).

Inductive reachable (s0 : System) : System -> Prop :=
| reach_refl : reachable s0 s0
| reach_step s s' : reachable s0 s -> step s s' -> reachable s0 s'.

(** The process at start-up: empty registry, no socket, no pending
    continuation. *)
Definition boot (e : Env) (now : Z) (d : DB) : System :=
  mkSystem (mkWorld (mkMem [] ∅ 0%nat [] ∅ [] now e 0%nat []) d) [].

(** ** Invariants of continuations

    [task_ok I t]: every segment that [t] may still run preserves [I],
    whatever the awaited calls resolve to and whatever the memory is when
    they do. *)
Inductive task_ok (I : Mem -> Prop) : Task -> Prop :=
| ok_Done : task_ok I Done
| ok_Await (R : Type) (c : Call R) k :
    (forall o m, I m -> I (snd (k o m))) ->
    (forall o m, I m -> task_ok I (fst (k o m))) ->
    task_ok I (Await c k)
| ok_Fork t1 t2 : task_ok I t1 -> task_ok I t2 -> task_ok I (Fork t1 t2).

(** [sync_ok I P s]: the segment [s] preserves [I] and its result
    satisfies [P]. *)
Definition sync_ok {A : Type} (I : Mem -> Prop) (P : A -> Prop) (s : Sync A) : Prop :=
  forall m, I m -> I (snd (s m)) /\ P (fst (s m)).

(** The invariant [I] holds now and every pending continuation keeps it. *)
Definition system_ok (I : Mem -> Prop) (s : System) : Prop :=
  I (mem (world s)) /\ Forall (task_ok I) (pending s).

(** At most one session per identity: no key occurs twice in the registry. *)
Definition one_session_per_identity (m : Mem) : Prop :=
  NoDup (JsMap.keys (clients m)).

(** Append a list of outputs to the log. *)
Definition emit_all (os : list Output) (m : Mem) : Mem :=
  mkMem (clients m) (heap m) (next_ref m) (typingUsers m) (bannedUsers m)
        (sockets m) (clock m) (env m) (drawn m) (out m ++ os).

(** The sockets [broadcast] writes to, in registry order. *)
Definition broadcast_targets (roomName : string) (senderId : option UserId) (m : Mem)
  : list WsId :=
  omap (fun entry : UserId * Ref =>
          let client := deref_in m (snd entry) in
          if String.eqb (Client.channel client) roomName
             && sender_differs (fst entry) senderId
             && is_open (Client.ws client) m
          then Some (Client.ws client) else None)
       (clients m).

Definition presence_outputs (roomName : string) (m : Mem) : list Output :=
  map (fun w => Sent w (Event.user_presence roomName
                          (fst (getActiveUsersInRoom roomName m))))
      (broadcast_targets roomName None m).

(* ===================================================================== *)
(** * Vocabulary of the properties                                        *)
(* ===================================================================== *)

(** [ws] is an open connection that has logged in as [userId], and
    [client] is the session object the registry holds for that identity. *)
Definition session_of (m : Mem) (ws : WsId) (userId : UserId) (client : Ref) : Prop :=
  socket ws m = Some (Socket.mk OPEN (Some userId) (js_string userId))
  /\ JS.truthy userId = true
  /\ JsMap.get userId (clients m) = Some client.

(** The outputs a run has added to the log. *)
Definition new_outputs (w w' : World) : list Output :=
  skipn (length (out (mem w))) (out (mem w')).

(** A connection the listener treats as not logged in: its closure
    variable [currentUserId] is falsy, or the registry has no entry under
    it. *)
Definition unauthenticated (m : Mem) (ws : WsId) : Prop :=
  match JS.or_null (fst (get_currentUserId ws m)) with
  | Some userId => JsMap.has userId (clients m) = false
  | None => True
  end.

(** ** Properties that no handler ever undoes

    [task_keeps I t]: every segment that [t] may still run keeps [I] when it
    holds, whatever the awaited calls resolve to.  Unlike [task_ok], the
    continuation is required to be well behaved whether or not [I] holds
    when it is created, so the predicate can be established at start-up for
    a property that only becomes true later. *)
Inductive task_keeps (I : Mem -> Prop) : Task -> Prop :=
| keeps_Done : task_keeps I Done
| keeps_Await (R : Type) (c : Call R) k :
    (forall o m, I m -> I (snd (k o m))) ->
    (forall o m, task_keeps I (fst (k o m))) ->
    task_keeps I (Await c k)
| keeps_Fork t1 t2 : task_keeps I t1 -> task_keeps I t2 -> task_keeps I (Fork t1 t2).

(** [sync_keeps I P s]: the segment [s] keeps [I], and its result satisfies
    [P] in every memory. *)
Definition sync_keeps {A : Type} (I : Mem -> Prop) (P : A -> Prop) (s : Sync A) : Prop :=
  forall m, (I m -> I (snd (s m))) /\ P (fst (s m)).

(** The name is in the in-memory ban set. *)
Definition banned_in_memory (name : string) (m : Mem) : Prop :=
  name ∈ bannedUsers m.

(** ** A scheduler for the event loop

    One transition of [step], chosen by name, as a function: [Settle i fail]
    settles the awaited call of the [i]-th pending continuation. *)
Inductive Move : Type :=
| Connect
| Deliver (ws : WsId) (data : ClientEvent)
| Hangup (ws : WsId)
| Settle (i : nat) (fail : bool)
| Split (i : nat)
| Retire (i : nat)
| Tick (t : Z).

Definition move (mv : Move) (s : System) : option System :=
  let w := world s in
  let p := pending s in
  match mv with
  | Connect => Some (mkSystem (mkWorld (snd (on_connection (mem w))) (db w)) p)
  | Deliver ws data =>
      if socket_alive ws (mem w)
      then Some (mkSystem (mkWorld (snd (on_message ws data (mem w))) (db w))
                          (p ++ [fst (on_message ws data (mem w))]))
      else None
  | Hangup ws =>
      if socket_alive ws (mem w)
      then Some (mkSystem (mkWorld (snd (on_close ws (mem w))) (db w)) p)
      else None
  | Settle i fail =>
      match p !! i with
      | Some (Await c k) =>
          Some (mkSystem (mkWorld (snd (k (fst (exec fail c (db w))) (mem w)))
                                  (snd (exec fail c (db w))))
                         (take i p ++ fst (k (fst (exec fail c (db w))) (mem w))
                                   :: drop (S i) p))
      | _ => None
      end
  | Split i =>
      match p !! i with
      | Some (Fork t1 t2) => Some (mkSystem w (take i p ++ t1 :: t2 :: drop (S i) p))
      | _ => None
      end
  | Retire i =>
      match p !! i with
      | Some Done => Some (mkSystem w (take i p ++ drop (S i) p))
      | _ => None
      end
  | Tick t =>
      if clock (mem w) <=? t
      then Some (mkSystem (mkWorld (set_clock t (mem w)) (db w)) p)
      else None
  end.

Fixpoint play (moves : list Move) (s : System) : option System :=
  match moves with
  | [] => Some s
  | mv :: rest =>
      match move mv s with
      | Some s' => play rest s'
      | None => None
      end
  end.

(** The output is a frame written to a socket that is open in [m]. *)
Definition written_to_open (m : Mem) (o : Output) : Prop :=
  match o with
  | Sent s _ => is_open s m = true
  | CloseCalled _ _ _ => False
  end.

(** The rows are in non-decreasing order of timestamp. *)
Definition in_time_order (l : list Messages.row) : Prop :=
  forall i j a b, (i < j)%nat -> l !! i = Some a -> l !! j = Some b ->
                  Messages.timestamp a <= Messages.timestamp b.

(** A continuation that can only write frames: the calls it awaits leave
    the tables alone, and its segments append to the log of outputs and do
    nothing else. *)
Inductive sends_only : Task -> Prop :=
| sends_Done : sends_only Done
| sends_Await (R : Type) (c : Call R) k :
    (forall fail d, snd (exec fail c d) = d) ->
    (forall o m, exists os, snd (k o m) = emit_all os m) ->
    (forall o m, sends_only (fst (k o m))) ->
    sends_only (Await c k)
| sends_Fork t1 t2 : sends_only t1 -> sends_only t2 -> sends_only (Fork t1 t2).

(** What [delete_channel] does to a session object: a session in the
    deleted channel is moved to the fallback channel. *)
Definition moved_out_of (channelToDelete : string) (c : Client.t) : Client.t :=
  if String.eqb (Client.channel c) channelToDelete
  then Client.with_channel FALLBACK_CHANNEL c
  else c.

(** Two schedules of failures that agree on every call. *)
Definition same_fails (f1 f2 : list bool) : Prop :=
  forall i, nth i f1 false = nth i f2 false.


(** The persisted record a login looks up: the rows of [users] with the
    given user id. *)
Definition user_rows (d : DB) (userId : UserId) : list Users.row :=
  select_where (fun u => String.eqb (Users.user_id u) userId) (users d).

(** The role the persisted record of a user name holds, if there is one. *)
Definition persisted_role (d : DB) (name : string) : option string :=
  match select_where (fun u => String.eqb (Users.username u) name) (users d) with
  | u :: _ => Some (Users.user_role u)
  | [] => None
  end.

(** The message an [edit_message] or [delete_message] event refers to:
    the first row with that id in the given room. *)
Definition message_in_room (d : DB) (id room : string) : option Messages.row :=
  head (select_where (fun m => String.eqb (Messages.id m) id
                               && String.eqb (Messages.channel_name m) room)
                     (messages d)).


(** The delete rule: the message exists in the actor's room and the actor
    is its author or holds at least the Moderator role. *)
Definition delete_permitted (d : DB) (id room : string) (actor : UserId)
    (actorRole : string) : bool :=
  match message_in_room d id room with
  | Some msg =>
      String.eqb (Messages.author_id msg) actor || hasPermission actorRole Moderator
  | None => false
  end.

(** The key constraints of [INSERT INTO messages]. *)
Definition insert_message_accepted (d : DB) (id channel author : string)
    (parent : option string) : bool :=
  negb (message_exists d id) && channel_exists d channel
  && user_exists d author && parent_ok d parent.


(** The event is a message of the send path aimed at [room]: a
    [send_message] goes to the sender's current room, a [send_dm] to the
    room it names. *)
Definition send_event (ev : ClientEvent) (m : Mem) (client : Ref) (room : string)
    (content : option string) (attachment : option Json) (parent : option string)
  : Prop :=
  (ev = send_message content attachment parent
   /\ room = Client.channel (deref_in m client))
  \/ ev = send_dm (Some room) content attachment parent.

(* ===================================================================== *)
(** * A sample deployment                                                 *)
(* ===================================================================== *)

Module Sample.

Definition alice : Users.row :=
  Users.mk "u-alice" "admin-alice" "Admin" "online" "#general" false None.
Definition root : Users.row :=
  Users.mk "u-root" "admin-root" "Admin" "online" "#general" false None.
Definition carol : Users.row :=
  Users.mk "u-carol" "mod-carol" "Moderator" "online" "#general" false None.
Definition bob : Users.row :=
  Users.mk "u-bob" "bob" "User" "away" "#general" false None.
Definition dave : Users.row :=
  Users.mk "u-dave" "dave" "User" "online" "#secret" false None.

Definition general : Channels.row := Channels.mk "#general" false None None (Some "m1").
Definition dev_talk : Channels.row := Channels.mk "#dev-talk" false None None (Some "m1").
Definition random : Channels.row := Channels.mk "#random" false None None (Some "m3").

(** [m1] by bob and [m2] by carol, both posted long ago; [m3] recent. *)
Definition m1 : Messages.row :=
  Messages.mk "m1" "#general" "u-bob" "bob" "hello" 1000 false None None false None true.
Definition m2 : Messages.row :=
  Messages.mk "m2" "#general" "u-carol" "mod-carol" "rules" 2000 false None None false
              None true.
Definition m3 : Messages.row :=
  Messages.mk "m3" "#general" "u-bob" "bob" "re: hello" 199999000 false None None false
              (Some "m1") false.

Definition tables : DB :=
  mkDB [alice; root; carol; bob; dave] [general; dev_talk; random] []
       [m1; m2; m3] [] [].

Definition environment : Env :=
  mkEnv None
        (fun n => "uuid-" +:+ String (ascii_of_nat (48 + n)) "")
        (fun n => "c0de000" +:+ String (ascii_of_nat (48 + n)) "").

(** Three open connections: alice (Admin), bob (User), carol
    (Moderator), all in [#general]. *)
Definition memory : Mem :=
  mkMem [("u-alice", 0%nat); ("u-bob", 1%nat); ("u-carol", 2%nat)]
        (<[0%nat := Client.mk 0%nat "admin-alice" "#general" "Admin" "online"]>
           (<[1%nat := Client.mk 1%nat "bob" "#general" "User" "away"]>
              (<[2%nat := Client.mk 2%nat "mod-carol" "#general" "Moderator" "online"]> ∅)))
        3%nat [] ∅
        [ Socket.mk OPEN (Some "u-alice") (js_string "u-alice");
          Socket.mk OPEN (Some "u-bob") (js_string "u-bob");
          Socket.mk OPEN (Some "u-carol") (js_string "u-carol");
          Socket.fresh ]
        200000000 environment 0%nat [].

Definition world : World := mkWorld memory tables.

End Sample.

(* ===================================================================== *)
(** * Basic facts                                                         *)
(* ===================================================================== *)

(** ** The registry as a map *)

Section JsMapFacts.
Context {V : Type}.
Implicit Types (l : list (string * V)) (k : string) (v : V).

Lemma JsMap_keys_delete l k :
  JsMap.keys (JsMap.delete k l) = List.filter (fun x => negb (String.eqb x k)) (JsMap.keys l).
Proof.
  unfold JsMap.keys, JsMap.delete.
  induction l as [|[k' v'] l IH]; simpl; [reflexivity|].
  destruct (String.eqb k' k); simpl; rewrite IH; reflexivity.
Qed.

Lemma JsMap_not_in_keys_delete l k : ~ In k (JsMap.keys (JsMap.delete k l)).
Proof.
  rewrite JsMap_keys_delete, filter_In. intros [_ H].
  rewrite String.eqb_refl in H. discriminate.
Qed.

Lemma JsMap_in_keys_delete l k k' :
  In k' (JsMap.keys (JsMap.delete k l)) -> In k' (JsMap.keys l).
Proof. rewrite JsMap_keys_delete, filter_In. tauto. Qed.

Lemma JsMap_NoDup_delete l k :
  NoDup (JsMap.keys l) -> NoDup (JsMap.keys (JsMap.delete k l)).
Proof.
  rewrite JsMap_keys_delete. rewrite !NoDup_ListNoDup.
  apply List.NoDup_filter.
Qed.

Lemma JsMap_in_keys_set l k v k' :
  In k' (JsMap.keys (JsMap.set k v l)) <-> k' = k \/ In k' (JsMap.keys l).
Proof.
  unfold JsMap.keys.
  induction l as [|[k0 v0] l IH]; simpl.
  - intuition.
  - destruct (String.eqb k0 k) eqn:E; simpl.
    + apply String.eqb_eq in E. subst k0. intuition.
    + rewrite IH. intuition.
Qed.

Lemma JsMap_NoDup_set l k v :
  NoDup (JsMap.keys l) -> NoDup (JsMap.keys (JsMap.set k v l)).
Proof.
  rewrite !NoDup_ListNoDup. unfold JsMap.keys.
  induction l as [|[k0 v0] l IH]; simpl; intros H.
  - constructor; [intros []|constructor].
  - inversion H as [|? ? Hn Hd]; subst.
    destruct (String.eqb k0 k) eqn:E; simpl.
    + constructor; assumption.
    + constructor; [|auto].
      intros Hin. apply (JsMap_in_keys_set l k v k0) in Hin.
      destruct Hin as [->|Hin]; [|contradiction].
      rewrite String.eqb_refl in E. discriminate.
Qed.

Lemma JsMap_set_fresh l k v :
  JsMap.has k l = false -> JsMap.set k v l = l ++ [(k, v)].
Proof.
  unfold JsMap.has.
  induction l as [|[k0 v0] l IH]; simpl; [reflexivity|].
  destruct (String.eqb k0 k); simpl; [discriminate|].
  intros H. rewrite IH by assumption. reflexivity.
Qed.

Lemma JsMap_has_delete l k : JsMap.has k (JsMap.delete k l) = false.
Proof.
  unfold JsMap.has, JsMap.delete.
  induction l as [|[k0 v0] l IH]; simpl; [reflexivity|].
  destruct (String.eqb k0 k) eqn:E; simpl; [assumption|].
  rewrite E. assumption.
Qed.

Lemma JsMap_get_app_fresh l k v :
  JsMap.has k l = false -> JsMap.get k (l ++ [(k, v)]) = Some v.
Proof.
  unfold JsMap.has, JsMap.get.
  induction l as [|[k0 v0] l IH]; simpl.
  - rewrite String.eqb_refl. reflexivity.
  - destruct (String.eqb k0 k); simpl; [discriminate|]. assumption.
Qed.

Lemma JsMap_has_get l k : JsMap.has k l = bool_decide (is_Some (JsMap.get k l)).
Proof.
  unfold JsMap.has, JsMap.get.
  induction l as [|[k0 v0] l IH]; simpl; [reflexivity|].
  destruct (String.eqb k0 k); simpl; [reflexivity|]. assumption.
Qed.

Lemma JsMap_count_keys l k :
  NoDup (JsMap.keys l) -> (count_occ string_dec (JsMap.keys l) k <= 1)%nat.
Proof.
  rewrite NoDup_ListNoDup. intros H.
  apply (proj1 (List.NoDup_count_occ string_dec _) H).
Qed.
End JsMapFacts.

(** ** The role table *)

Lemma ROLE_HIERARCHY_rank (r : Role) : ROLE_HIERARCHY (role_name r) = Some (rank r).
Proof. destruct r; reflexivity. Qed.

Lemma hasPermission_rank (r required : Role) :
  hasPermission (role_name r) required = (rank required <=? rank r).
Proof. unfold hasPermission. rewrite !ROLE_HIERARCHY_rank. reflexivity. Qed.

(** A role string that is not a key of the table is denied everything. *)
Lemma hasPermission_unknown (s : string) (required : Role) :
  ROLE_HIERARCHY s = None -> hasPermission s required = false.
Proof. unfold hasPermission. intros ->. reflexivity. Qed.

Lemma hasPermission_Admin (s : string) :
  hasPermission s Admin = String.eqb s "Admin".
Proof.
  unfold hasPermission, ROLE_HIERARCHY. simpl.
  destruct (String.eqb s "Admin"); [reflexivity|].
  destruct (String.eqb s "Moderator"); [reflexivity|].
  destruct (String.eqb s "User"); [reflexivity|].
  destruct (String.eqb s "Guest"); reflexivity.
Qed.

(** ** Segments preserve the registry invariant *)

Section SyncRules.
Variable I : Mem -> Prop.
(** [I] only looks at the registry, and the two registry updates keep it. *)
Hypothesis I_clients : forall m m', clients m' = clients m -> I m -> I m'.
Hypothesis I_set : forall m k r, I m -> I (set_clients (JsMap.set k r) m).
Hypothesis I_delete : forall m k, I m -> I (set_clients (JsMap.delete k) m).

Lemma ok_ret {A} (P : A -> Prop) (a : A) : P a -> sync_ok I P (ret a).
Proof. intros H m Hm. split; assumption. Qed.

Lemma ok_bind {A B} (Q : A -> Prop) (P : B -> Prop) (c : Sync A) (f : A -> Sync B) :
  sync_ok I Q c -> (forall a, Q a -> sync_ok I P (f a)) -> sync_ok I P (bind c f).
Proof.
  intros Hc Hf m Hm. unfold bind.
  destruct (Hc m Hm) as [H1 H2]. destruct (c m) as [a m']. simpl in *.
  apply Hf; assumption.
Qed.

Lemma ok_seq {A B} (P : B -> Prop) (c : Sync A) (f : A -> Sync B) :
  sync_ok I (fun _ => True) c -> (forall a, sync_ok I P (f a)) -> sync_ok I P (bind c f).
Proof. intros Hc Hf. apply (ok_bind (fun _ => True)); auto. Qed.

(** A segment that leaves the registry alone. *)
Lemma ok_frame {A} (c : Sync A) :
  (forall m, clients (snd (c m)) = clients m) -> sync_ok I (fun _ => True) c.
Proof. intros H m Hm. split; [|exact Logic.I]. eapply I_clients; eauto. Qed.

Lemma ok_gets {A} (P : A -> Prop) (f : Mem -> A) :
  (forall m, P (f m)) -> sync_ok I P (gets f).
Proof. intros H m Hm. split; [assumption|apply H]. Qed.

Lemma ok_weaken {A} (P : A -> Prop) (c : Sync A) :
  (forall a, P a) -> sync_ok I (fun _ => True) c -> sync_ok I P c.
Proof. intros HP Hc m Hm. destruct (Hc m Hm). split; auto. Qed.

Lemma clients_sendToClient ws e m : clients (snd (sendToClient ws e m)) = clients m.
Proof. unfold sendToClient. destruct (is_open ws m); reflexivity. Qed.

Lemma clients_update_socket ws f m : clients (update_socket ws f m) = clients m.
Proof. unfold update_socket. destruct (sockets m !! ws); reflexivity. Qed.

Lemma clients_ws_close ws code reason m :
  clients (snd (ws_close ws code reason m)) = clients m.
Proof.
  unfold ws_close. destruct (is_open ws m); simpl; [|reflexivity].
  apply clients_update_socket.
Qed.

Lemma clients_forEach {A} (l : list A) (body : A -> Sync unit) :
  (forall x m, clients (snd (body x m)) = clients m) ->
  forall m, clients (snd (forEach l body m)) = clients m.
Proof.
  intros Hb. induction l as [|x l IH]; intros m; simpl; [reflexivity|].
  unfold bind. specialize (Hb x m). destruct (body x m) as [u m']. simpl in Hb.
  rewrite IH. assumption.
Qed.

Lemma clients_broadcast room e sid m :
  clients (snd (broadcast room e sid m)) = clients m.
Proof.
  unfold broadcast, bind, gets. simpl.
  apply clients_forEach. intros [k r] m0. unfold deref, gets, bind. simpl.
  destruct (_ && _); [apply clients_sendToClient|reflexivity].
Qed.

Lemma clients_broadcastPresence room m :
  clients (snd (broadcastPresence room m)) = clients m.
Proof.
  unfold broadcastPresence, getActiveUsersInRoom, bind, gets. simpl.
  apply clients_forEach. intros [k r] m0. unfold deref, gets, bind. simpl.
  destruct (String.eqb _ _); [apply clients_sendToClient|reflexivity].
Qed.

Lemma clients_notice_unless_dm room content sid m :
  clients (snd (notice_unless_dm room content sid m)) = clients m.
Proof.
  unfold notice_unless_dm. destruct (JS.startsWith room "DM:"); [reflexivity|].
  unfold bind, randomUUID, Date_now, gets. simpl.
  rewrite clients_broadcast. reflexivity.
Qed.

Lemma clients_clear_typing room name m :
  clients (snd (clear_typing room name m)) = clients m.
Proof.
  unfold clear_typing, bind, gets. simpl.
  destruct (JsMap.get room (typingUsers m)); [|reflexivity].
  destruct (JsSet.has name l); [|reflexivity].
  unfold modify. simpl. rewrite clients_broadcast. reflexivity.
Qed.

Lemma ok_clients_set k r : sync_ok I (fun _ => True) (clients_set k r).
Proof. intros m Hm. split; [apply I_set; assumption|exact Logic.I]. Qed.

Lemma ok_clients_delete k : sync_ok I (fun _ => True) (clients_delete k).
Proof. intros m Hm. split; [apply I_delete; assumption|exact Logic.I]. Qed.

Lemma task_ok_Await {R} (c : Call R) (k : Outcome R -> Sync Task) :
  (forall o, sync_ok I (task_ok I) (k o)) -> task_ok I (Await c k).
Proof. intros Hk. constructor; intros o m Hm; apply (Hk o m Hm). Qed.

Lemma ok_await {R} (c : Call R) (k : Outcome R -> Sync Task) :
  (forall o, sync_ok I (task_ok I) (k o)) -> sync_ok I (task_ok I) (await c k).
Proof.
  intros Hk m Hm. split; [assumption|]. simpl. apply task_ok_Await, Hk.
Qed.

Lemma ok_await_try {R} ws (c : Call R) (k : R -> Sync Task) :
  (forall r, sync_ok I (task_ok I) (k r)) -> sync_ok I (task_ok I) (await_try ws c k).
Proof.
  intros Hk. apply ok_await. intros [code|r]; [|apply Hk].
  unfold internal_error. apply ok_seq.
  - apply ok_frame. intros m. apply clients_sendToClient.
  - intros _. apply ok_ret. constructor.
Qed.

Lemma ok_reject ws msg : sync_ok I (task_ok I) (reject ws msg).
Proof.
  unfold reject. apply ok_seq.
  - apply ok_frame. intros m. apply clients_sendToClient.
  - intros _. apply ok_ret. constructor.
Qed.

Lemma ok_internal_error ws : sync_ok I (task_ok I) (internal_error ws).
Proof. apply (ok_reject ws). Qed.

Lemma ok_done : sync_ok I (task_ok I) done.
Proof. apply ok_ret. constructor. Qed.

(** One step of the structural decomposition of a segment. *)
Ltac ok_frame_tac :=
  apply ok_frame; intros ?;
  first [ apply clients_sendToClient | apply clients_ws_close
        | apply clients_broadcast | apply clients_broadcastPresence
        | apply clients_notice_unless_dm | apply clients_clear_typing
        | apply clients_update_socket | reflexivity ].

Ltac ok_step :=
  lazymatch goal with
  | |- sync_ok _ _ (bind _ _) => apply ok_seq; [|intros ?]
  | |- sync_ok _ _ (await_try _ _ _) => apply ok_await_try; intros ?
  | |- sync_ok _ _ (await _ _) => apply ok_await; intros ?
  | |- sync_ok _ _ (reject _ _) => apply ok_reject
  | |- sync_ok _ _ (internal_error _) => apply ok_internal_error
  | |- sync_ok _ _ done => apply ok_done
  | |- sync_ok _ _ (clients_set _ _) => apply ok_clients_set
  | |- sync_ok _ _ (clients_delete _) => apply ok_clients_delete
  | |- sync_ok _ _ (ret _) => apply ok_ret; try exact Logic.I
  | |- sync_ok _ _ (if ?b then _ else _) => destruct b
  | |- sync_ok _ _ (match ?x with _ => _ end) => destruct x
  | |- sync_ok _ (fun _ => True) _ => ok_frame_tac
  end.

Ltac ok_auto := cbv zeta; repeat ok_step.

Lemma ok_moderate command targetUsername roomName target client userId ws :
  sync_ok I (task_ok I)
          (moderate command targetUsername roomName target client userId ws).
Proof. unfold moderate. ok_auto. Qed.

Lemma ok_handleCommand command args client userId ws :
  sync_ok I (task_ok I) (handleCommand command args client userId ws).
Proof.
  unfold handleCommand. ok_auto; try apply ok_moderate.
Qed.

Lemma ok_login_finish ws userId clientData channels :
  sync_ok I (task_ok I) (login_finish ws userId clientData channels).
Proof. unfold login_finish. ok_auto. Qed.

Lemma ok_login_settle ws userId clientData channels :
  sync_ok I (task_ok I) (login_settle ws userId clientData channels).
Proof. unfold login_settle. ok_auto; apply ok_login_finish. Qed.

Lemma ok_login_install ws userId inputUsername users :
  sync_ok I (task_ok I) (login_install ws userId inputUsername users).
Proof. unfold login_install. ok_auto; try apply ok_login_settle. Qed.

Lemma ok_handle_login ws userId username :
  sync_ok I (task_ok I) (handle_login ws userId username).
Proof. unfold handle_login. ok_auto. apply ok_login_install. Qed.

Lemma ok_handle_send ws client userId targetRoom content attachment parent :
  sync_ok I (task_ok I)
          (handle_send ws client userId targetRoom content attachment parent).
Proof. unfold handle_send. ok_auto; try apply ok_handleCommand. Qed.

Lemma ok_handle_typing ws client isTyping :
  sync_ok I (task_ok I) (handle_typing ws client isTyping).
Proof. unfold handle_typing. ok_auto. Qed.

Lemma ok_handle_edit ws client id content :
  sync_ok I (task_ok I) (handle_edit ws client id content).
Proof. unfold handle_edit. ok_auto. Qed.

Lemma ok_handle_delete ws client id :
  sync_ok I (task_ok I) (handle_delete ws client id).
Proof. unfold handle_delete. ok_auto. Qed.

Lemma ok_handle_reaction ws client add id emoji :
  sync_ok I (task_ok I) (handle_reaction ws client add id emoji).
Proof. unfold handle_reaction. ok_auto. Qed.

Lemma ok_change_room ws client oldRoom newRoom :
  sync_ok I (task_ok I) (change_room ws client oldRoom newRoom).
Proof. unfold change_room. ok_auto. Qed.

Lemma ok_handle_join ws client targetChannel :
  sync_ok I (task_ok I) (handle_join ws client targetChannel).
Proof. unfold handle_join. ok_auto. apply ok_change_room. Qed.

Lemma ok_handle_start_dm ws client targetUserId :
  sync_ok I (task_ok I) (handle_start_dm ws client targetUserId).
Proof. unfold handle_start_dm. ok_auto. apply ok_change_room. Qed.

Lemma ok_authenticated ws k :
  (forall client userId, sync_ok I (task_ok I) (k client userId)) ->
  sync_ok I (task_ok I) (authenticated ws k).
Proof. intros Hk. unfold authenticated. ok_auto. apply Hk. Qed.

Lemma ok_emit_join_channel ws channel :
  sync_ok I (task_ok I) (emit_join_channel ws channel).
Proof.
  unfold emit_join_channel. apply ok_seq.
  - unfold listener_prelude. ok_auto.
  - intros _. apply ok_authenticated. intros. apply ok_handle_join.
Qed.

Lemma ok_fork_all ts t :
  Forall (task_ok I) ts -> task_ok I t -> task_ok I (fork_all ts t).
Proof.
  intros Hts Ht. induction Hts; simpl; [assumption|].
  constructor; assumption.
Qed.

Lemma ok_channel_list_updates m : Forall (task_ok I) (channel_list_updates m).
Proof.
  unfold channel_list_updates.
  generalize (imap (fun i s => (i, s)) (sockets m)). intros l.
  induction l as [|[i s] l IH]; simpl; [constructor|].
  destruct (Socket.readyState s); try assumption.
  destruct (Socket.field_currentUserId s); try assumption.
  destruct (JS.truthy s0); [|assumption].
  constructor; [|assumption].
  apply task_ok_Await. intros [code|chs]; ok_auto.
Qed.

Lemma ok_channel_changes room moved m : Forall (task_ok I) (channel_changes room moved m).
Proof.
  unfold channel_changes. induction moved as [|r l IH]; simpl; constructor; [|assumption].
  apply task_ok_Await. intros [code|chs]; ok_auto.
Qed.

Lemma ok_create_finish ws name inviteCode :
  sync_ok I (task_ok I) (create_finish ws name inviteCode).
Proof.
  unfold create_finish. apply ok_seq; [ok_auto|]. intros _.
  intros m Hm. split; [assumption|]. simpl.
  apply ok_fork_all; [apply ok_channel_list_updates|].
  apply task_ok_Await. intros o. apply ok_emit_join_channel.
Qed.

Lemma ok_handle_create_channel ws name isPrivate :
  sync_ok I (task_ok I) (handle_create_channel ws name isPrivate).
Proof.
  unfold handle_create_channel, create_failed.
  ok_auto; apply ok_create_finish.
Qed.

Lemma ok_move_to_fallback channelToDelete cs :
  sync_ok I (fun _ => True) (move_to_fallback channelToDelete cs).
Proof.
  induction cs as [|entry rest IH]; simpl; ok_auto; apply IH.
Qed.

Lemma ok_handle_delete_channel ws client channelToDelete :
  sync_ok I (task_ok I) (handle_delete_channel ws client channelToDelete).
Proof.
  unfold handle_delete_channel.
  repeat lazymatch goal with
         | |- sync_ok _ _ (bind (gets (channel_changes _ _)) _) =>
             apply (ok_bind (Forall (task_ok I)));
             [apply ok_gets; intros ?; apply ok_channel_changes|intros ? ?]
         | |- sync_ok _ _ (bind (gets channel_list_updates) _) =>
             apply (ok_bind (Forall (task_ok I)));
             [apply ok_gets; intros ?; apply ok_channel_list_updates|intros ? ?]
         | |- sync_ok _ _ (bind (move_to_fallback _ _) _) =>
             apply ok_seq; [apply ok_move_to_fallback|intros ?]
         | |- sync_ok _ _ (ret (fork_all _ _)) =>
             apply ok_ret, ok_fork_all; [apply Forall_app; split; assumption|constructor]
         | |- _ => ok_step
         end.
Qed.

Lemma ok_handle_join_by_code ws code :
  sync_ok I (task_ok I) (handle_join_by_code ws code).
Proof. unfold handle_join_by_code. ok_auto. apply ok_emit_join_channel. Qed.

Lemma ok_on_message ws data : sync_ok I (task_ok I) (on_message ws data).
Proof.
  unfold on_message. apply ok_seq; [unfold listener_prelude; ok_auto|]. intros _.
  destruct data;
    first [ apply ok_handle_login
          | apply ok_authenticated; intros client userId ].
  - ok_auto. apply ok_handle_send.
  - apply ok_handle_send.
  - apply ok_handle_create_channel.
  - apply ok_handle_delete_channel.
  - apply ok_handle_join_by_code.
  - apply ok_handle_typing.
  - apply ok_handle_edit.
  - apply ok_handle_delete.
  - apply ok_handle_reaction.
  - apply ok_handle_reaction.
  - apply ok_handle_join.
  - apply ok_handle_start_dm.
  - apply ok_done.
Qed.

Lemma ok_on_close ws : sync_ok I (fun _ => True) (on_close ws).
Proof. unfold on_close. ok_auto. Qed.

(** ** The invariant along the event loop *)

Lemma task_ok_inversion t :
  task_ok I t ->
  match t with
  | Done => True
  | Await c k =>
      (forall o m, I m -> I (snd (k o m))) /\
      (forall o m, I m -> task_ok I (fst (k o m)))
  | Fork t1 t2 => task_ok I t1 /\ task_ok I t2
  end.
Proof. destruct 1; auto. Qed.

Lemma step_preserves s s' : step s s' -> system_ok I s -> system_ok I s'.
Proof.
  intros Hstep [Hm Hp]. destruct Hstep; simpl in *.
  - split; [|assumption]. eapply I_clients; [|eassumption]. reflexivity.
  - destruct (ok_on_message ws data (mem w) Hm) as [H1 H2].
    split; [assumption|]. apply Forall_app. split; [assumption|].
    constructor; [assumption|constructor].
  - destruct (ok_on_close ws (mem w) Hm) as [H1 _]. split; assumption.
  - apply Forall_app in Hp. destruct Hp as [Hp1 Hp2].
    inversion Hp2 as [|? ? Hk Hp2']; subst.
    apply task_ok_inversion in Hk. destruct Hk as [Hk1 Hk2].
    split; [apply Hk1; assumption|].
    apply Forall_app. split; [assumption|].
    constructor; [apply Hk2; assumption|assumption].
  - apply Forall_app in Hp. destruct Hp as [Hp1 Hp2].
    inversion Hp2 as [|? ? Hk Hp2']; subst.
    apply task_ok_inversion in Hk. destruct Hk as [Hk1 Hk2].
    split; [assumption|]. apply Forall_app. split; [assumption|].
    repeat constructor; assumption.
  - apply Forall_app in Hp. destruct Hp as [Hp1 Hp2].
    inversion Hp2; subst.
    split; [assumption|]. apply Forall_app. split; assumption.
  - split; [|assumption]. eapply I_clients; [|eassumption]. reflexivity.
Qed.

Lemma reachable_ok s0 s : system_ok I s0 -> reachable s0 s -> system_ok I s.
Proof.
  intros H0 Hr. induction Hr; [assumption|].
  eapply step_preserves; eassumption.
Qed.
End SyncRules.

(** ** What the router writes *)

Lemma emit_all_nil m : emit_all [] m = m.
Proof. destruct m. unfold emit_all. simpl. rewrite app_nil_r. reflexivity. Qed.

Lemma emit_all_app os1 os2 m : emit_all os2 (emit_all os1 m) = emit_all (os1 ++ os2) m.
Proof. unfold emit_all. simpl. rewrite app_assoc. reflexivity. Qed.

Lemma emit_emit_all o m : emit o m = emit_all [o] m.
Proof. reflexivity. Qed.

Lemma sendToClient_run ws e m :
  sendToClient ws e m = (tt, emit_all (if is_open ws m then [Sent ws e] else []) m).
Proof.
  unfold sendToClient. destruct (is_open ws m); [reflexivity|].
  rewrite emit_all_nil. reflexivity.
Qed.


Lemma is_open_emit_all ws os m : is_open ws (emit_all os m) = is_open ws m.
Proof. reflexivity. Qed.

(** A loop whose body only writes frames, decided by the heap and the
    sockets, writes the frames of the entries it selects. *)
Lemma forEach_emits {A} (l : list A) (sel : Mem -> A -> option Output)
    (body : A -> Sync unit) :
  (forall x os m, body x (emit_all os m)
                  = (tt, emit_all (os ++ match sel m x with Some o => [o] | None => [] end) m)) ->
  forall os m, forEach l body (emit_all os m)
               = (tt, emit_all (os ++ omap (sel m) l) m).
Proof.
  intros Hb. induction l as [|x l IH]; intros os m; simpl.
  - rewrite app_nil_r. reflexivity.
  - unfold bind. rewrite Hb. rewrite IH. rewrite <- app_assoc.
    destruct (sel m x); reflexivity.
Qed.

Lemma forEach_emits_from {A} (l : list A) (sel : Mem -> A -> option Output)
    (body : A -> Sync unit) m :
  (forall x os m, body x (emit_all os m)
                  = (tt, emit_all (os ++ match sel m x with Some o => [o] | None => [] end) m)) ->
  forEach l body m = (tt, emit_all (omap (sel m) l) m).
Proof.
  intros Hb. pose proof (forEach_emits l sel body Hb [] m) as H.
  rewrite emit_all_nil in H. exact H.
Qed.

Lemma broadcast_run room e sid m :
  broadcast room e sid m
  = (tt, emit_all (map (fun w => Sent w e) (broadcast_targets room sid m)) m).
Proof.
  unfold broadcast, bind, gets. simpl.
  rewrite (forEach_emits_from _
             (fun m0 (entry : UserId * Ref) =>
                let client := deref_in m0 entry.2 in
                if String.eqb (Client.channel client) room
                   && sender_differs entry.1 sid && is_open (Client.ws client) m0
                then Some (Sent (Client.ws client) e) else None)).
  - f_equal. f_equal. unfold broadcast_targets.
    induction (clients m) as [|entry l IH]; [reflexivity|].
    cbn [omap list_omap map]. cbv zeta in *.
    destruct (_ && _ && _); cbn [map]; rewrite IH; reflexivity.
  - intros [k r] os m0. unfold deref, gets, bind. simpl.
    change (deref_in (emit_all os m0) r) with (deref_in m0 r).
    destruct (String.eqb _ _ && sender_differs k sid); simpl.
    + rewrite sendToClient_run, emit_all_app, is_open_emit_all.
      destruct (is_open _ m0); reflexivity.
    + rewrite app_nil_r. reflexivity.
Qed.

Lemma broadcastPresence_run room m :
  broadcastPresence room m = (tt, emit_all (presence_outputs room m) m).
Proof.
  unfold broadcastPresence, bind. simpl.
  set (users := fst (getActiveUsersInRoom room m)).
  rewrite (forEach_emits_from _
             (fun m0 (entry : UserId * Ref) =>
                let client := deref_in m0 entry.2 in
                if String.eqb (Client.channel client) room
                   && is_open (Client.ws client) m0
                then Some (Sent (Client.ws client) (Event.user_presence room users))
                else None)).
  - f_equal. f_equal. unfold presence_outputs, broadcast_targets. fold users.
    induction (clients m) as [|entry l IH]; [reflexivity|].
    cbn [omap list_omap map sender_differs]. cbv zeta in *.
    rewrite andb_true_r.
    destruct (_ && _); cbn [map]; rewrite IH; reflexivity.
  - intros [k r] os m0. unfold deref, gets, bind. simpl.
    change (deref_in (emit_all os m0) r) with (deref_in m0 r).
    destruct (String.eqb _ _); simpl.
    + rewrite sendToClient_run, emit_all_app, is_open_emit_all.
      destruct (is_open _ m0); reflexivity.
    + rewrite app_nil_r. reflexivity.
Qed.

(** ** Authenticated connections *)

Lemma world_eta w : mkWorld (mem w) (db w) = w.
Proof. destruct w. reflexivity. Qed.

Lemma set_sockets_id m : set_sockets (fun l => l) m = m.
Proof. destruct m. reflexivity. Qed.

Lemma update_socket_id ws f s m :
  sockets m !! ws = Some s -> f s = s -> update_socket ws f m = m.
Proof.
  intros H Hf. unfold update_socket. rewrite H, Hf.
  destruct m. unfold set_sockets. simpl in *.
  rewrite list_insert_id by assumption. reflexivity.
Qed.

Section Session.
Variables (m : Mem) (ws : WsId) (userId : UserId) (client : Ref).
Hypothesis Hs : session_of m ws userId client.

Lemma session_socket :
  sockets m !! ws = Some (Socket.mk OPEN (Some userId) (js_string userId)).
Proof. exact (proj1 Hs). Qed.

Lemma session_open : is_open ws m = true.
Proof. unfold is_open, readyState_of, socket. rewrite session_socket. reflexivity. Qed.

Lemma session_var : get_currentUserId ws m = (Some userId, m).
Proof. unfold get_currentUserId, gets, socket. rewrite session_socket. reflexivity. Qed.

Lemma session_prelude : listener_prelude ws m = (tt, m).
Proof.
  unfold listener_prelude, bind. rewrite session_var.
  unfold set_ws_currentUserId, modify. f_equal.
  apply (update_socket_id _ _ _ _ session_socket). reflexivity.
Qed.

Lemma session_authenticated k : authenticated ws k m = k client userId m.
Proof.
  unfold authenticated, bind. rewrite session_var.
  unfold JS.or_null. rewrite (proj1 (proj2 Hs)).
  unfold clients_get, gets. rewrite (proj2 (proj2 Hs)). reflexivity.
Qed.

Lemma session_emit_all os : session_of (emit_all os m) ws userId client.
Proof. exact Hs. Qed.
End Session.

(** The listener of an authenticated connection goes straight to the
    handler of the event. *)
Lemma on_message_session m ws userId client data :
  session_of m ws userId client ->
  on_message ws data m =
  match data with
  | login u n => handle_login ws u n m
  | send_message content attachment parent =>
      handle_send ws client userId (Some (Client.channel (deref_in m client)))
                  content attachment parent m
  | send_dm channel content attachment parent =>
      handle_send ws client userId channel content attachment parent m
  | create_channel channel isPrivate => handle_create_channel ws channel isPrivate m
  | delete_channel channel => handle_delete_channel ws client channel m
  | join_channel_by_code code => handle_join_by_code ws code m
  | typing_update isTyping => handle_typing ws client isTyping m
  | edit_message id content => handle_edit ws client id content m
  | delete_message id => handle_delete ws client id m
  | add_reaction id emoji => handle_reaction ws client true id emoji m
  | remove_reaction id emoji => handle_reaction ws client false id emoji m
  | join_channel channel => handle_join ws client channel m
  | start_dm targetUserId => handle_start_dm ws client targetUserId m
  | unknown_type _ => (Done, m)
  end.
Proof.
  intros Hs. unfold on_message, bind at 1.
  rewrite (session_prelude _ _ _ _ Hs).
  destruct data; try reflexivity;
    rewrite (session_authenticated _ _ _ _ Hs); reflexivity.
Qed.

Lemma sample_session_alice : session_of Sample.memory 0%nat "u-alice" 0%nat.
Proof. repeat split. Qed.

Lemma sample_session_bob : session_of Sample.memory 1%nat "u-bob" 1%nat.
Proof. repeat split. Qed.

Lemma sample_session_carol : session_of Sample.memory 2%nat "u-carol" 2%nat.
Proof. repeat split. Qed.

(** ** Symbolic execution of segments *)

Lemma run_segment_bind {A} fails (c : Sync A) (f : A -> Sync Task) w a m' :
  c (mem w) = (a, m') ->
  run_segment fails (bind c f) w = run_segment fails (f a) (mkWorld m' (db w)).
Proof. intros H. unfold run_segment, bind. rewrite H. reflexivity. Qed.

Lemma run_segment_gets {A} fails (g : Mem -> A) (f : A -> Sync Task) w :
  run_segment fails (bind (gets g) f) w = run_segment fails (f (g (mem w))) w.
Proof. unfold run_segment, bind, gets. reflexivity. Qed.

Lemma run_segment_deref fails r (f : Client.t -> Sync Task) w :
  run_segment fails (bind (deref r) f) w = run_segment fails (f (deref_in (mem w) r)) w.
Proof. apply run_segment_gets. Qed.

Lemma run_segment_now fails (f : Z -> Sync Task) w :
  run_segment fails (bind Date_now f) w = run_segment fails (f (clock (mem w))) w.
Proof. apply run_segment_gets. Qed.

Lemma run_segment_modify fails (g : Mem -> Mem) (f : unit -> Sync Task) w :
  run_segment fails (bind (modify g) f) w
  = run_segment fails (f tt) (mkWorld (g (mem w)) (db w)).
Proof. reflexivity. Qed.

Lemma run_segment_send fails ws e (f : unit -> Sync Task) w :
  run_segment fails (bind (sendToClient ws e) f) w
  = run_segment fails (f tt)
      (mkWorld (emit_all (if is_open ws (mem w) then [Sent ws e] else []) (mem w)) (db w)).
Proof. apply run_segment_bind, sendToClient_run. Qed.

Lemma run_segment_broadcast fails room e sid (f : unit -> Sync Task) w :
  run_segment fails (bind (broadcast room e sid) f) w
  = run_segment fails (f tt)
      (mkWorld (emit_all (map (fun s => Sent s e) (broadcast_targets room sid (mem w)))
                         (mem w)) (db w)).
Proof. apply run_segment_bind, broadcast_run. Qed.

Lemma run_segment_presence fails room (f : unit -> Sync Task) w :
  run_segment fails (bind (broadcastPresence room) f) w
  = run_segment fails (f tt)
      (mkWorld (emit_all (presence_outputs room (mem w)) (mem w)) (db w)).
Proof. apply run_segment_bind, broadcastPresence_run. Qed.

Lemma run_segment_var fails ws userId client (f : option UserId -> Sync Task) w :
  session_of (mem w) ws userId client ->
  run_segment fails (bind (get_currentUserId ws) f) w
  = run_segment fails (f (Some userId)) w.
Proof.
  intros Hs. rewrite (run_segment_bind _ _ _ _ _ _ (session_var _ _ _ _ Hs)).
  rewrite world_eta. reflexivity.
Qed.

Lemma run_segment_done fails w : run_segment fails done w = (w, fails).
Proof. unfold run_segment, done, ret. cbn [run]. rewrite world_eta. reflexivity. Qed.

Lemma run_segment_reject fails ws reason w :
  run_segment fails (reject ws reason) w
  = (mkWorld (emit_all (if is_open ws (mem w) then [Sent ws (Event.error reason)] else [])
                       (mem w)) (db w), fails).
Proof. unfold reject. rewrite run_segment_send. apply run_segment_done. Qed.

Lemma run_segment_internal_error fails ws w :
  run_segment fails (internal_error ws) w
  = (mkWorld (emit_all (if is_open ws (mem w)
                        then [Sent ws (Event.error "Internal error processing request.")]
                        else []) (mem w)) (db w), fails).
Proof. apply (run_segment_reject fails ws). Qed.

Lemma run_segment_await {R} fails (c : Call R) (k : Outcome R -> Sync Task) w :
  run_segment fails (await c k) w
  = run_segment (tail fails)
      (k (fst (exec (default false (head fails)) c (db w))))
      (mkWorld (mem w) (snd (exec (default false (head fails)) c (db w)))).
Proof.
  unfold run_segment, await, ret. cbn [run mem db].
  destruct (exec _ c (db w)) as [o d']. reflexivity.
Qed.

Lemma run_segment_await_try {R} fails ws (c : Call R) (k : R -> Sync Task) w :
  run_segment fails (await_try ws c k) w
  = match fst (exec (default false (head fails)) c (db w)) with
    | Rejected _ =>
        run_segment (tail fails) (internal_error ws)
          (mkWorld (mem w) (snd (exec (default false (head fails)) c (db w))))
    | Resolved r =>
        run_segment (tail fails) (k r)
          (mkWorld (mem w) (snd (exec (default false (head fails)) c (db w))))
    end.
Proof.
  unfold await_try. rewrite run_segment_await.
  destruct (fst (exec _ c (db w))); reflexivity.
Qed.

(** The listener of an authenticated connection, run to completion. *)
Lemma handle_session fails w ws userId client data :
  session_of (mem w) ws userId client ->
  handle fails ws data w
  = fst (run_segment fails
      (match data with
       | login u n => handle_login ws u n
       | send_message content attachment parent =>
           handle_send ws client userId
             (Some (Client.channel (deref_in (mem w) client))) content attachment parent
       | send_dm channel content attachment parent =>
           handle_send ws client userId channel content attachment parent
       | create_channel channel isPrivate => handle_create_channel ws channel isPrivate
       | delete_channel channel => handle_delete_channel ws client channel
       | join_channel_by_code code => handle_join_by_code ws code
       | typing_update isTyping => handle_typing ws client isTyping
       | edit_message id content => handle_edit ws client id content
       | delete_message id => handle_delete ws client id
       | add_reaction id emoji => handle_reaction ws client true id emoji
       | remove_reaction id emoji => handle_reaction ws client false id emoji
       | join_channel channel => handle_join ws client channel
       | start_dm targetUserId => handle_start_dm ws client targetUserId
       | unknown_type _ => done
       end) w).
Proof.
  intros Hs. unfold handle, run_segment.
  rewrite (on_message_session _ _ _ _ _ Hs). destruct data; reflexivity.
Qed.

(* ===================================================================== *)
(** * Role policy: the permission check is monotone                       *)
(* ===================================================================== *)

(** C8.  In the order Admin > Moderator > User > Guest, for every required
    minimum role [M]: a role [R] that is denied drags every role ranked
    below it into denial, and every role ranked at or above [M] is
    permitted. *)
Theorem hasPermission_monotone (R R' M : Role) :
  (hasPermission (role_name R) M = false ->
   rank R' < rank R ->
   hasPermission (role_name R') M = false)
  /\ (rank M <= rank R -> hasPermission (role_name R) M = true).
Proof.
  rewrite !hasPermission_rank. split.
  - intros Hden Hlt. apply Z.leb_gt in Hden. apply Z.leb_gt. lia.
  - intros Hle. apply Z.leb_le. exact Hle.
Qed.

Lemma hasPermission_monotone_witness :
  hasPermission (role_name User) Moderator = false
  /\ rank Guest < rank User
  /\ hasPermission (role_name Guest) Moderator = false
  /\ rank Moderator <= rank Admin
  /\ hasPermission (role_name Admin) Moderator = true.
Proof.
  split; [reflexivity|]. split; [simpl; lia|]. split.
  - apply (proj1 (hasPermission_monotone User Guest Moderator));
      [reflexivity|simpl; lia].
  - split; [simpl; lia|].
    apply (proj2 (hasPermission_monotone Admin Guest Moderator)). simpl; lia.
Defined.

(* ===================================================================== *)
(** * The send path                                                       *)
(* ===================================================================== *)

Lemma broadcast_targets_ext room sid m m' :
  clients m' = clients m -> heap m' = heap m -> sockets m' = sockets m ->
  broadcast_targets room sid m' = broadcast_targets room sid m.
Proof.
  intros Hc Hh Hs. unfold broadcast_targets, deref_in, is_open, readyState_of, socket.
  rewrite Hc, Hh, Hs. reflexivity.
Qed.

Lemma trimmed_empty_not_command content :
  trimmed content = "" -> JS.startsWith (trimmed content) "/" = false.
Proof. intros ->. reflexivity. Qed.

(** C9, as the code has it.  A [send_message] event from an authenticated
    connection whose trimmed content is empty and which carries no
    attachment is dropped without a trace: no event of any kind is sent to
    the sender or to anyone else, the connection stays open, and nothing is
    persisted.  The whole state is what it was. *)
Theorem empty_message_dropped_silently
    (fails : list bool) (w : World) (ws : WsId) (userId : UserId) (client : Ref)
    (content parent : option string) :
  session_of (mem w) ws userId client ->
  trimmed content = "" ->
  let w' := handle fails ws (send_message content None parent) w in
  out (mem w') = out (mem w)
  /\ db w' = db w
  /\ is_open ws (mem w') = true
  /\ w' = w.
Proof.
  intros Hs Hc w'.
  assert (Hw : w' = w).
  { subst w'. rewrite (handle_session _ _ _ _ _ _ Hs).
    unfold handle_send. rewrite Hc. cbn -[run_segment].
    rewrite run_segment_done. reflexivity. }
  rewrite Hw. repeat split. apply (session_open _ _ _ _ Hs).
Qed.

Lemma empty_message_dropped_silently_witness :
  let w' := handle [] 1%nat (send_message (Some "   ") None None) Sample.world in
  out (mem w') = out (mem Sample.world)
  /\ db w' = db Sample.world
  /\ is_open 1%nat (mem w') = true
  /\ w' = Sample.world.
Proof.
  apply (empty_message_dropped_silently [] Sample.world 1%nat "u-bob" 1%nat).
  - exact sample_session_bob.
  - reflexivity.
Defined.

(** C9, as stated, fails: bob sends a blank message from an authenticated
    open connection, and the log of outputs stays empty, so no error event
    reaches him. *)
Lemma empty_message_no_error_event :
  session_of (mem Sample.world) 1%nat "u-bob" 1%nat
  /\ trimmed (Some "   ") = ""
  /\ out (mem (handle [] 1%nat (send_message (Some "   ") None None) Sample.world)) = []
  /\ ~ (exists message,
          In (Sent 1%nat (Event.error message))
             (out (mem (handle [] 1%nat (send_message (Some "   ") None None)
                               Sample.world)))).
Proof.
  split; [exact sample_session_bob|]. split; [reflexivity|].
  assert (H : out (mem (handle [] 1%nat (send_message (Some "   ") None None)
                               Sample.world)) = []) by (vm_compute; reflexivity).
  split; [exact H|]. rewrite H. intros [message []].
Qed.

Lemma new_outputs_app (w w' : World) (os : list Output) :
  out (mem w') = out (mem w) ++ os -> new_outputs w w' = os.
Proof.
  intros H. unfold new_outputs. rewrite H.
  rewrite skipn_app, skipn_all, Nat.sub_diag. reflexivity.
Qed.




(** A reply and a root message, run on the sample deployment. *)
Example reply_is_not_thread_root :
  messages (db (handle [] 1%nat (send_message (Some "re: hello") None (Some "m1"))
                       Sample.world))
  = messages Sample.tables
    ++ [Messages.mk "uuid-0" "#general" "u-bob" "bob" "re: hello" 200000000
                    false None None false (Some "m1") false].
Proof. vm_compute. reflexivity. Qed.

Example root_message_is_thread_root :
  messages (db (handle [] 1%nat (send_message (Some " hello ") None (Some ""))
                       Sample.world))
  = messages Sample.tables
    ++ [Messages.mk "uuid-0" "#general" "u-bob" "bob" "hello" 200000000
                    false None None false None true].
Proof. vm_compute. reflexivity. Qed.

(* ===================================================================== *)
(** * Editing and deleting messages                                       *)
(* ===================================================================== *)

Lemma is_current_Some a u : is_current a (Some u) = String.eqb a u.
Proof. reflexivity. Qed.

Lemma exec_select_message d id room :
  exec false (SelectMessageInChannel id room) d
  = (Resolved (select_where (fun m => String.eqb (Messages.id m) id
                                      && String.eqb (Messages.channel_name m) room)
                            (messages d)), d).
Proof. reflexivity. Qed.




(** The same moderator edits bob's equally old message [m1]: applied. *)
Example moderator_edits_old_message_of_another :
  messages (db (handle [] 2%nat (edit_message "m1" (Some "hello!")) Sample.world))
  = [set_edited "hello!" 200000000 Sample.m1; Sample.m2; Sample.m3].
Proof. vm_compute. reflexivity. Qed.

(** Bob, a plain user, edits his own old message [m1]: rejected. *)
Example author_edit_after_window_rejected :
  out (mem (handle [] 1%nat (edit_message "m1" (Some "hello!")) Sample.world))
  = [Sent 1%nat (Event.error "Message is too old to edit (TTL exceeded).")].
Proof. vm_compute. reflexivity. Qed.

(** ** Deletion and the pinned reference *)

Lemma channels_delete_message_cascade id d :
  channels (delete_message_cascade id d) = channels d.
Proof. reflexivity. Qed.





(** Deleting the pinned message of [#general] clears that room's reference
    and no other, although [#dev-talk] carries the same id. *)
Example delete_pinned_message :
  channels (db (handle [] 2%nat (delete_message "m1") Sample.world))
  = [set_pinned None Sample.general; Sample.dev_talk; Sample.random].
Proof. vm_compute. reflexivity. Qed.

(** Deleting a message that is not pinned leaves every reference alone. *)
Example delete_unpinned_message :
  channels (db (handle [] 2%nat (delete_message "m2") Sample.world))
  = [Sample.general; Sample.dev_talk; Sample.random].
Proof. vm_compute. reflexivity. Qed.

(* ===================================================================== *)
(** * Reactions                                                           *)
(* ===================================================================== *)

Lemma reaction_exists_after_insert d mid uid e :
  reaction_exists (with_reactions (fun t => t ++ [Reactions.mk mid uid e]) d) mid uid e
  = true.
Proof.
  unfold reaction_exists, with_reactions. cbn [reactions].
  rewrite existsb_app. cbn [existsb]. unfold reaction_key_eqb. cbn.
  rewrite !String.eqb_refl. cbn. apply orb_true_r.
Qed.

(** [INSERT IGNORE INTO reactions] applied twice is the same as once. *)
Lemma insert_ignore_reaction_idempotent d mid uid e :
  snd (exec false (InsertIgnoreReaction mid uid e)
         (snd (exec false (InsertIgnoreReaction mid uid e) d)))
  = snd (exec false (InsertIgnoreReaction mid uid e) d).
Proof.
  cbn [exec].
  destruct (reaction_exists d mid uid e || negb (message_exists d mid)
            || negb (user_exists d uid)) eqn:E; cbn [snd].
  - rewrite E. reflexivity.
  - rewrite reaction_exists_after_insert. reflexivity.
Qed.

Lemma delete_where_idempotent {A} (p : A -> bool) (t : list A) :
  delete_where p (delete_where p t) = delete_where p t.
Proof.
  unfold delete_where. induction t as [|x t IH]; simpl; [reflexivity|].
  destruct (p x) eqn:E; simpl; [assumption|]. rewrite E. simpl. rewrite IH. reflexivity.
Qed.

(** [DELETE FROM reactions WHERE ...] applied twice is the same as once. *)
Lemma delete_reaction_idempotent d mid uid e :
  snd (exec false (DeleteReaction mid uid e)
         (snd (exec false (DeleteReaction mid uid e) d)))
  = snd (exec false (DeleteReaction mid uid e) d).
Proof.
  cbn [exec snd]. unfold with_reactions. cbn [reactions users channels
    channel_members messages audit_logs].
  rewrite delete_where_idempotent. reflexivity.
Qed.

(** The aggregate only fails on a name inherited from [Object.prototype]. *)
Lemma aggregate_reactions_defined rows :
  Forall (fun r => JS.inherited (Reactions.emoji r) = false) rows ->
  is_Some (aggregate_reactions rows).
Proof.
  unfold aggregate_reactions. generalize (∅ : ReactionMap).
  induction rows as [|r rows IH]; intros acc H; simpl.
  - eexists. reflexivity.
  - inversion H as [|? ? Hr Hrest]; subst. rewrite Hr.
    destruct (acc !! Reactions.emoji r); apply IH; assumption.
Qed.

Lemma aggregate_reactions_None_stays rows :
  fold_left reaction_step rows None = None.
Proof. induction rows; simpl; auto. Qed.

(** What an [add_reaction] or [remove_reaction] event does, in a run where
    the persistence calls succeed: the statement runs, the rows of the
    message are read back, and either their aggregate goes to the room and
    to the actor, or the aggregate throws and the actor gets the generic
    error. *)
Lemma reaction_run (w : World) (ws : WsId) (userId : UserId) (client : Ref)
    (add : bool) (id emoji : string) :
  session_of (mem w) ws userId client ->
  let d' := snd (exec false (if add then InsertIgnoreReaction id userId emoji
                             else DeleteReaction id userId emoji) (db w)) in
  handle [] ws (if add then add_reaction id emoji else remove_reaction id emoji) w
  = mkWorld
      (emit_all
         (match aggregate_reactions (reactions_of d' id) with
          | Some updated =>
              map (fun s => Sent s (Event.message_reacted id updated))
                  (broadcast_targets (Client.channel (deref_in (mem w) client)) None
                                     (mem w))
              ++ [Sent ws (Event.message_reacted id updated)]
          | None => [Sent ws (Event.error "Internal error processing request.")]
          end) (mem w))
      d'.
Proof.
  intros Hs d'.
  assert (Hopen : is_open ws (mem w) = true) by apply (session_open _ _ _ _ Hs).
  rewrite (handle_session _ _ _ _ _ _ Hs).
  assert (Hbody : fst (run_segment [] (handle_reaction ws client add id emoji) w) = 
                  mkWorld
      (emit_all
         (match aggregate_reactions (reactions_of d' id) with
          | Some updated =>
              map (fun s => Sent s (Event.message_reacted id updated))
                  (broadcast_targets (Client.channel (deref_in (mem w) client)) None
                                     (mem w))
              ++ [Sent ws (Event.message_reacted id updated)]
          | None => [Sent ws (Event.error "Internal error processing request.")]
          end) (mem w))
      d').
  { unfold handle_reaction.
    rewrite (run_segment_var _ ws userId client) by exact Hs.
    cbn [bound_id default from_option Datatypes.id].
    rewrite run_segment_await_try. cbn [head default from_option tail].
    assert (Hex : fst (exec false (if add then InsertIgnoreReaction id userId emoji
                                   else DeleteReaction id userId emoji) (db w))
                  = Resolved tt).
    { destruct add; cbn [exec]; [|reflexivity].
      destruct (_ || _ || _); reflexivity. }
    rewrite Hex. fold d'.
    rewrite run_segment_await_try. cbn [head default from_option tail exec fst snd mem db].
    destruct (aggregate_reactions (reactions_of d' id)) as [updated|].
    - rewrite run_segment_deref, run_segment_broadcast, run_segment_send.
      cbn [mem db]. rewrite run_segment_done. cbn [fst].
      rewrite is_open_emit_all, Hopen, emit_all_app. reflexivity.
    - rewrite run_segment_internal_error. cbn [fst mem db].
      rewrite Hopen. reflexivity. }
  destruct add; exact Hbody.
Qed.

(** Adding the same reaction twice leaves the reactions table, and hence the
    aggregate of every message, as adding it once; likewise for removing. *)
Lemma reaction_events_idempotent (w : World) (ws : WsId) (userId : UserId)
    (client : Ref) (add : bool) (id emoji : string) :
  session_of (mem w) ws userId client ->
  let ev := if add then add_reaction id emoji else remove_reaction id emoji in
  let once := handle [] ws ev w in
  let twice := handle [] ws ev once in
  db twice = db once
  /\ forall mid, aggregate_reactions (reactions_of (db twice) mid)
                 = aggregate_reactions (reactions_of (db once) mid).
Proof.
  intros Hs ev once twice.
  assert (Hd : db twice = db once).
  { subst twice once ev.
    rewrite (reaction_run w ws userId client add id emoji Hs).
    rewrite (reaction_run _ ws userId client add id emoji) by exact Hs.
    cbn [db]. destruct add.
    - apply insert_ignore_reaction_idempotent.
    - apply delete_reaction_idempotent. }
  split; [exact Hd|]. intros mid. rewrite Hd. reflexivity.
Qed.


(** C6: the defect.  Bob reacts to the existing message [m1] with the
    emoji string ["toString"].  The row is stored, the aggregate of the
    message throws on the inherited name, the listener's catch answers bob
    with the generic error, and no [message_reacted] event is sent to
    anyone. *)
Theorem reaction_with_inherited_name_not_broadcast :
  let w' := handle [] 1%nat (add_reaction "m1" "toString") Sample.world in
  session_of (mem Sample.world) 1%nat "u-bob" 1%nat
  /\ reactions (db w') = [Reactions.mk "m1" "u-bob" "toString"]
  /\ aggregate_reactions (reactions_of (db w') "m1") = None
  /\ out (mem w') = [Sent 1%nat (Event.error "Internal error processing request.")]
  /\ ~ (exists s updated, In (Sent s (Event.message_reacted "m1" updated)) (out (mem w'))).
Proof.
  intros w'. split; [exact sample_session_bob|].
  assert (Ho : out (mem w')
               = [Sent 1%nat (Event.error "Internal error processing request.")])
    by (vm_compute; reflexivity).
  split; [vm_compute; reflexivity|]. split; [vm_compute; reflexivity|].
  split; [exact Ho|]. rewrite Ho. intros (s & updated & [H|[]]). discriminate.
Qed.

(** Every later reaction to that message, by anyone and with any emoji,
    meets the same fate while the row is there. *)
Example later_reactions_not_broadcast :
  out (mem (handle [] 2%nat (add_reaction "m1" "+1")
                   (handle [] 1%nat (add_reaction "m1" "toString") Sample.world)))
  = [Sent 1%nat (Event.error "Internal error processing request.");
     Sent 2%nat (Event.error "Internal error processing request.")].
Proof. vm_compute. reflexivity. Qed.

(** An ordinary emoji is aggregated and broadcast. *)
Example ordinary_reaction_broadcast :
  new_outputs Sample.world (handle [] 1%nat (add_reaction "m1" "+1") Sample.world)
  = [Sent 0%nat (Event.message_reacted "m1" {["+1" := ["u-bob"]]});
     Sent 1%nat (Event.message_reacted "m1" {["+1" := ["u-bob"]]});
     Sent 2%nat (Event.message_reacted "m1" {["+1" := ["u-bob"]]});
     Sent 1%nat (Event.message_reacted "m1" {["+1" := ["u-bob"]]})].
Proof. vm_compute. reflexivity. Qed.

(* ===================================================================== *)
(** * Moderation commands                                                 *)
(* ===================================================================== *)

Lemma run_segment_step {A} fails (c : Sync A) (f : A -> Sync Task) w :
  run_segment fails (bind c f) w
  = run_segment fails (f (fst (c (mem w)))) (mkWorld (snd (c (mem w))) (db w)).
Proof. unfold run_segment, bind. destruct (c (mem w)). reflexivity. Qed.

Lemma presence_outputs_ext room m m' :
  clients m' = clients m -> heap m' = heap m -> sockets m' = sockets m ->
  presence_outputs room m' = presence_outputs room m.
Proof.
  intros Hc Hh Hs. unfold presence_outputs.
  rewrite (broadcast_targets_ext room None m m' Hc Hh Hs).
  unfold getActiveUsersInRoom, gets, deref_in. cbn [fst]. rewrite Hc, Hh. reflexivity.
Qed.

Lemma clients_ws_close_eq ws code reason m :
  clients (snd (ws_close ws code reason m)) = clients m.
Proof.
  unfold ws_close. destruct (is_open ws m); [|reflexivity].
  cbn [snd emit clients]. unfold update_socket. destruct (sockets m !! ws); reflexivity.
Qed.

Lemma heap_ws_close_eq ws code reason m :
  heap (snd (ws_close ws code reason m)) = heap m.
Proof.
  unfold ws_close. destruct (is_open ws m); [|reflexivity].
  cbn [snd emit heap]. unfold update_socket. destruct (sockets m !! ws); reflexivity.
Qed.

Lemma bannedUsers_ws_close_eq ws code reason m :
  bannedUsers (snd (ws_close ws code reason m)) = bannedUsers m.
Proof.
  unfold ws_close. destruct (is_open ws m); [|reflexivity].
  cbn [snd emit bannedUsers]. unfold update_socket. destruct (sockets m !! ws); reflexivity.
Qed.

Lemma is_open_after_ws_close ws code reason m :
  is_open ws (snd (ws_close ws code reason m)) = false.
Proof.
  unfold ws_close. destruct (is_open ws m) eqn:E; cbn [snd]; [|exact E].
  unfold is_open, readyState_of, socket in *. cbn [emit sockets].
  unfold update_socket. destruct (sockets m !! ws) as [s|] eqn:El; [|rewrite El; reflexivity].
  cbn [set_sockets sockets].
  rewrite list_lookup_insert_eq; [reflexivity|].
  apply lookup_lt_Some in El. exact El.
Qed.

Lemma out_ws_close ws code reason m :
  out (snd (ws_close ws code reason m))
  = out m ++ (if is_open ws m then [CloseCalled ws code reason] else []).
Proof.
  unfold ws_close. destruct (is_open ws m); cbn [snd].
  - cbn [emit out]. unfold update_socket. destruct (sockets m !! ws); reflexivity.
  - rewrite app_nil_r. reflexivity.
Qed.


Lemma out_emit_all os m : out (emit_all os m) = out m ++ os.
Proof. reflexivity. Qed.




Lemma command_names_differ :
  String.eqb "/kick" "/pin" = false /\ String.eqb "/kick" "/unpin" = false
  /\ String.eqb "/ban" "/pin" = false /\ String.eqb "/ban" "/unpin" = false.
Proof. repeat split. Qed.

(** [handleCommand] on [/kick] or [/ban], up to the point where the two
    commands part. *)
Lemma kick_or_ban_unfold (cmd : string) (args : list string) (client : Ref)
    (userId : UserId) (ws : WsId) :
  cmd = "/kick" \/ cmd = "/ban" ->
  handleCommand cmd args client userId ws
  = (c <- deref client ;;
     match JS.or_null (head args) with
     | None =>
         reject ws ("Permission denied or missing username. Usage: "
                      +:+ cmd +:+ " [username]")
     | Some targetUsername =>
         if negb (hasPermission (Client.role c) Admin)
         then reject ws ("Permission denied or missing username. Usage: "
                           +:+ cmd +:+ " [username]")
         else
           target <- find_target targetUsername ;;
           targetRole <- gets (fun m => (fun e : UserId * Ref =>
                                           Client.role (deref_in m (snd e))) <$> target) ;;
           if opt_eqb targetRole "Admin"
           then reject ws "Cannot moderate another Admin."
           else if is_ban cmd then
             modify (set_bannedUsers (fun s => {[targetUsername]} ∪ s)) ;;
             await_try ws
               (UpdateUserBanned
                  (JS.or_else (Some (JS.join " " (tail (tail args))))
                              "Banned by Admin command.") targetUsername)
               (fun _ =>
                  sendToClient ws
                    (Event.notification ("User " +:+ targetUsername
                                           +:+ " is now permanently banned.")) ;;
                  moderate cmd targetUsername (Client.channel c) target client userId ws)
           else moderate cmd targetUsername (Client.channel c) target client userId ws
     end).
Proof. intros [-> | ->]; reflexivity. Qed.

(** C3, as the code has it.  When the session the command names (the last
    one in registry order that displays the given name) holds the Admin
    role, [/kick] and [/ban] are rejected whatever the actor's role is: the
    actor gets an error event, and the registry, the ban set, the sockets
    and the tables are what they were. *)
Theorem admin_session_is_never_moderated
    (fails : list bool) (w : World) (cmd : string) (args : list string)
    (client : Ref) (userId : UserId) (ws : WsId)
    (targetUsername : string) (targetId : UserId) (targetClient : Ref) :
  cmd = "/kick" \/ cmd = "/ban" ->
  head args = Some targetUsername ->
  fst (find_target targetUsername (mem w)) = Some (targetId, targetClient) ->
  Client.role (deref_in (mem w) targetClient) = "Admin" ->
  let w' := command fails cmd args client userId ws w in
  db w' = db w
  /\ clients (mem w') = clients (mem w)
  /\ bannedUsers (mem w') = bannedUsers (mem w)
  /\ sockets (mem w') = sockets (mem w)
  /\ exists reason,
       new_outputs w w'
       = if is_open ws (mem w) then [Sent ws (Event.error reason)] else [].
Proof.
  intros Hcmd Hargs Hfind Hrole w'.
  assert (Hrun : exists reason,
            w' = mkWorld (emit_all (if is_open ws (mem w)
                                    then [Sent ws (Event.error reason)] else [])
                                   (mem w)) (db w)).
  { subst w'. unfold command. rewrite (kick_or_ban_unfold _ _ _ _ _ Hcmd).
    rewrite run_segment_deref, Hargs. unfold JS.or_null.
    destruct (JS.truthy targetUsername); cbv beta iota;
      [|eexists; rewrite run_segment_reject; reflexivity].
    destruct (negb (hasPermission _ Admin)); cbv beta iota;
      [eexists; rewrite run_segment_reject; reflexivity|].
    rewrite run_segment_step, Hfind. cbn [mem db snd find_target gets].
    rewrite world_eta, run_segment_gets. cbn [fmap option_fmap option_map snd].
    rewrite Hrole. cbn [opt_eqb String.eqb Ascii.eqb Bool.eqb]. cbv beta iota.
    eexists. rewrite run_segment_reject. reflexivity. }
  destruct Hrun as [reason ->]. cbn [mem db].
  repeat (split; [reflexivity|]).
  exists reason. apply new_outputs_app. reflexivity.
Qed.




(* ===================================================================== *)
(** * Login                                                               *)
(* ===================================================================== *)

Lemma one_session_frame m m' :
  clients m' = clients m -> one_session_per_identity m -> one_session_per_identity m'.
Proof. unfold one_session_per_identity. intros ->. auto. Qed.

Lemma one_session_set m k r :
  one_session_per_identity m -> one_session_per_identity (set_clients (JsMap.set k r) m).
Proof. unfold one_session_per_identity. cbn [set_clients clients]. apply JsMap_NoDup_set. Qed.

Lemma one_session_delete m k :
  one_session_per_identity m -> one_session_per_identity (set_clients (JsMap.delete k) m).
Proof.
  unfold one_session_per_identity. cbn [set_clients clients]. apply JsMap_NoDup_delete.
Qed.

(** Along every execution of the event loop from start-up, whatever the
    interleaving of events and settled calls, no identity has two sessions
    in the registry. *)
Lemma registry_invariant e now d s :
  reachable (boot e now d) s -> one_session_per_identity (mem (world s)).
Proof.
  intros Hr.
  apply (reachable_ok one_session_per_identity one_session_frame one_session_set
           one_session_delete (boot e now d) s); [|exact Hr].
  split; [constructor|constructor].
Qed.

(** The installation segment on a valid, unbanned user.  [preempt] is what
    it does about an existing session. *)
Lemma login_install_run ws userId inputUsername persistentUser rest m :
  bool_decide (Users.username persistentUser ∈ bannedUsers m)
  || Users.is_banned persistentUser = false ->
  let preempted :=
    match JsMap.get userId (clients m) with
    | Some old =>
        set_clients (JsMap.delete userId)
          (snd (ws_close (Client.ws (deref_in m old)) 1000 "Duplicate Login"
                  (emit_all (if is_open (Client.ws (deref_in m old)) m
                             then [Sent (Client.ws (deref_in m old))
                                     (Event.kicked
                                        "Another connection established with your user ID.")]
                             else []) m)))
    | None => m
    end in
  let session := Client.mk ws inputUsername (Users.last_seen_channel persistentUser)
                           (Users.user_role persistentUser)
                           (Users.current_status persistentUser) in
  login_install ws userId inputUsername (persistentUser :: rest) m
    = (Await (GetAuthorizedChannels (js_string userId))
             (fun o => match o with
                       | Rejected _ => internal_error ws
                       | Resolved channels => login_settle ws userId (next_ref m) channels
                       end),
       set_clients (JsMap.set userId (next_ref m))
         (set_next_ref (S (next_ref m))
            (set_heap (fun h => <[next_ref m := session]> h) preempted))).
Proof.
  intros Hban preempted session. unfold login_install.
  unfold bind at 1, gets at 1. rewrite Hban.
  unfold bind at 1, clients_get at 1, gets at 1.
  assert (Hpre : match JsMap.get userId (clients m) with
                 | Some old =>
                     o <- deref old ;;
                     sendToClient (Client.ws o)
                       (Event.kicked "Another connection established with your user ID.") ;;
                     ws_close (Client.ws o) 1000 "Duplicate Login" ;;
                     clients_delete userId
                 | None => ret tt
                 end m = (tt, preempted)).
  { subst preempted.
    destruct (JsMap.get userId (clients m)) as [old|]; [|reflexivity].
    unfold bind at 1, deref, gets. unfold bind at 1. rewrite sendToClient_run.
    unfold bind at 1.
    destruct (ws_close _ 1000 "Duplicate Login" _) as [u m'] eqn:E.
    cbn [snd]. destruct u. reflexivity. }
  unfold bind at 1.
  rewrite Hpre. unfold bind at 1, alloc at 1. unfold bind at 1, clients_set, modify.
  assert (Hnext : next_ref preempted = next_ref m).
  { subst preempted. destruct (JsMap.get userId (clients m)); [|reflexivity].
    cbn [set_clients next_ref]. unfold ws_close.
    destruct (is_open _ _); cbn [snd]; [|reflexivity].
    cbn [emit next_ref]. unfold update_socket. destruct (sockets _ !! _); reflexivity. }
  rewrite Hnext. reflexivity.
Qed.

Lemma count_occ_keys_after_install {V} (l : list (string * V)) k v :
  count_occ string_dec (JsMap.keys (JsMap.delete k l ++ [(k, v)])) k = 1%nat.
Proof.
  unfold JsMap.keys. rewrite map_app, count_occ_app. cbn [map fst count_occ].
  destruct (string_dec k k) as [_|Hne]; [|congruence].
  rewrite (proj1 (count_occ_not_In string_dec _ k)); [reflexivity|].
  apply JsMap_not_in_keys_delete.
Qed.

(** C1.  (a) Along every execution of the event loop, no identity has two
    sessions in the registry.  (b) The login handler has one suspension
    point before the registry is consulted (the user lookup); the segment
    that runs when the lookup resolves is [login_install].  (c) When that
    segment finds a session registered for the identity, it sends the old
    connection the [kicked] notice, closes it, deletes its entry and
    installs the new session as the last entry of the registry, and only
    then reaches the next suspension point (the channel lookup): detection,
    removal and installation happen in one segment. *)
Theorem duplicate_login_preempts :
  (forall e now d s,
     reachable (boot e now d) s -> one_session_per_identity (mem (world s)))
  /\ (forall ws userId name m,
        fst (handle_login ws userId (Some name) m)
        = Await (SelectUserById userId)
                (fun o => match o with
                          | Rejected _ => internal_error ws
                          | Resolved users =>
                              login_install ws userId (JS.substring_to 20 name) users
                          end))
  /\ (forall ws userId inputUsername persistentUser rest m old,
        bool_decide (Users.username persistentUser ∈ bannedUsers m)
        || Users.is_banned persistentUser = false ->
        JsMap.get userId (clients m) = Some old ->
        let oldWs := Client.ws (deref_in m old) in
        let r := login_install ws userId inputUsername (persistentUser :: rest) m in
        (exists k, fst r = Await (GetAuthorizedChannels (js_string userId)) k)
        /\ out (snd r)
           = out m ++ (if is_open oldWs m
                       then [Sent oldWs (Event.kicked
                                           "Another connection established with your user ID.");
                             CloseCalled oldWs 1000 "Duplicate Login"]
                       else [])
        /\ is_open oldWs (snd r) = false
        /\ clients (snd r) = JsMap.delete userId (clients m) ++ [(userId, next_ref m)]
        /\ heap (snd r) !! next_ref m
           = Some (Client.mk ws inputUsername (Users.last_seen_channel persistentUser)
                             (Users.user_role persistentUser)
                             (Users.current_status persistentUser))
        /\ count_occ string_dec (JsMap.keys (clients (snd r))) userId = 1%nat).
Proof.
  split; [exact registry_invariant|]. split; [reflexivity|].
  intros ws userId inputUsername persistentUser rest m old Hban Hold oldWs r.
  subst r. rewrite (login_install_run _ _ _ _ _ _ Hban). rewrite Hold. fold oldWs.
  cbn [fst snd].
  set (m1 := emit_all (if is_open oldWs m then _ else []) m).
  set (closed := snd (ws_close oldWs 1000 "Duplicate Login" m1)).
  assert (Hclients : JsMap.set userId (next_ref m) (JsMap.delete userId (clients closed))
                     = JsMap.delete userId (clients m) ++ [(userId, next_ref m)]).
  { unfold closed. rewrite clients_ws_close_eq. unfold m1. cbn [emit_all clients].
    apply JsMap_set_fresh, JsMap_has_delete. }
  split; [eexists; reflexivity|].
  split.
  { cbn [set_clients set_next_ref set_heap out]. unfold closed. rewrite out_ws_close.
    unfold m1. rewrite out_emit_all, is_open_emit_all.
    destruct (is_open oldWs m); rewrite <- app_assoc; reflexivity. }
  split.
  { change (is_open oldWs closed = false). apply is_open_after_ws_close. }
  cbn [set_clients set_next_ref set_heap clients heap].
  split; [exact Hclients|].
  split; [apply lookup_insert_eq|].
  rewrite Hclients. apply count_occ_keys_after_install.
Qed.

Lemma duplicate_login_preempts_witness :
  one_session_per_identity (mem (world (boot Sample.environment 0 Sample.tables)))
  /\ (let oldWs := Client.ws (deref_in Sample.memory 1%nat) in
      let r := login_install 3%nat "u-bob" "bob" [Sample.bob] Sample.memory in
      (exists k, fst r = Await (GetAuthorizedChannels (js_string "u-bob")) k)
      /\ out (snd r)
         = out Sample.memory
           ++ (if is_open oldWs Sample.memory
               then [Sent oldWs (Event.kicked
                                   "Another connection established with your user ID.");
                     CloseCalled oldWs 1000 "Duplicate Login"]
               else [])
      /\ is_open oldWs (snd r) = false
      /\ clients (snd r)
         = JsMap.delete "u-bob" (clients Sample.memory) ++ [("u-bob", next_ref Sample.memory)]
      /\ heap (snd r) !! next_ref Sample.memory
         = Some (Client.mk 3%nat "bob" (Users.last_seen_channel Sample.bob)
                           (Users.user_role Sample.bob)
                           (Users.current_status Sample.bob))
      /\ count_occ string_dec (JsMap.keys (clients (snd r))) "u-bob" = 1%nat).
Proof.
  split.
  - apply (proj1 duplicate_login_preempts Sample.environment 0 Sample.tables).
    apply reach_refl.
  - apply (proj2 (proj2 duplicate_login_preempts)
             3%nat "u-bob" "bob" Sample.bob [] Sample.memory 1%nat); reflexivity.
Defined.

(** A second login for bob from a new connection: the old connection is
    told and closed, and the registry ends with bob's new session alone. *)
Example duplicate_login_run :
  let w' := handle [] 3%nat (login "u-bob" (Some "bob")) Sample.world in
  clients (mem w') = [("u-alice", 0%nat); ("u-carol", 2%nat); ("u-bob", 3%nat)]
  /\ firstn 2 (out (mem w'))
     = [Sent 1%nat (Event.kicked "Another connection established with your user ID.");
        CloseCalled 1%nat 1000 "Duplicate Login"]
  /\ readyState_of 1%nat (mem w') = Some CLOSING.
Proof. vm_compute. repeat split. Qed.

(** What the preempted connection's own close event does afterwards: its
    [ws.currentUserId] is still bob's id, so the close listener removes the
    entry it finds under that id, which by then is the new session. *)
Example close_of_preempted_connection :
  let w1 := handle [] 3%nat (login "u-bob" (Some "bob")) Sample.world in
  let m2 := snd (on_close 1%nat (mem w1)) in
  clients (mem w1) = [("u-alice", 0%nat); ("u-carol", 2%nat); ("u-bob", 3%nat)]
  /\ clients m2 = [("u-alice", 0%nat); ("u-carol", 2%nat)]
  /\ readyState_of 3%nat m2 = Some OPEN.
Proof. vm_compute. repeat split. Qed.

(** ** The fields of a new session *)




(** ** The outputs of a login *)



Lemma is_open_ext ws m m' : sockets m' = sockets m -> is_open ws m' = is_open ws m.
Proof. intros H. unfold is_open, readyState_of, socket. rewrite H. reflexivity. Qed.


Lemma JsMap_get_set {V} (l : list (string * V)) k v :
  JsMap.get k (JsMap.set k v l) = Some v.
Proof.
  unfold JsMap.get.
  induction l as [|[k0 v0] l IH]; simpl.
  - rewrite String.eqb_refl. reflexivity.
  - destruct (String.eqb k0 k) eqn:E; simpl; rewrite E; [reflexivity|exact IH].
Qed.










(** dave's record names a channel that does not exist: the session starts
    in the fallback channel, and the record is updated to it. *)
Example login_moves_to_fallback :
  let w' := handle [] 3%nat (login "u-dave" (Some "dave")) Sample.world in
  (Client.channel <$> (JsMap.get "u-dave" (clients (mem w')) ≫= fun r => heap (mem w') !! r))
  = Some FALLBACK_CHANNEL
  /\ (Users.last_seen_channel <$> head (user_rows (db w') "u-dave")) = Some FALLBACK_CHANNEL.
Proof. vm_compute. split; reflexivity. Qed.

(** The display name is whatever the event supplies: dave logs in under
    the name of alice's account, and the registry then holds two sessions
    that display that name, dave's with the role of dave's record. *)
Example login_under_another_name :
  let w' := handle [] 3%nat (login "u-dave" (Some "admin-alice")) Sample.world in
  map (fun entry => let s := deref_in (mem w') (snd entry) in
                    (fst entry, Client.username s, Client.role s))
      (clients (mem w'))
  = [("u-alice", "admin-alice", "Admin"); ("u-bob", "bob", "User");
     ("u-carol", "mod-carol", "Moderator"); ("u-dave", "admin-alice", "User")].
Proof. vm_compute. reflexivity. Qed.

(* ===================================================================== *)
(** * Moderation on the sample world                                      *)
(* ===================================================================== *)

Lemma admin_session_is_never_moderated_witness :
  let w := Sample.world in
  let w' := command [] "/ban" ["admin-alice"; "now"] 0%nat "u-alice" 0%nat w in
  ("/ban" = "/kick" \/ "/ban" = "/ban")
  /\ fst (find_target "admin-alice" (mem w)) = Some ("u-alice", 0%nat)
  /\ Client.role (deref_in (mem w) 0%nat) = "Admin"
  /\ db w' = db w
  /\ clients (mem w') = clients (mem w)
  /\ bannedUsers (mem w') = bannedUsers (mem w)
  /\ sockets (mem w') = sockets (mem w)
  /\ exists reason,
       new_outputs w w'
       = if is_open 0%nat (mem w) then [Sent 0%nat (Event.error reason)] else [].
Proof.
  cbv zeta.
  split; [right; reflexivity|].
  split; [reflexivity|].
  split; [reflexivity|].
  apply (admin_session_is_never_moderated [] Sample.world "/ban" ["admin-alice"; "now"]
           0%nat "u-alice" 0%nat "admin-alice" "u-alice" 0%nat).
  - right. reflexivity.
  - reflexivity.
  - reflexivity.
  - reflexivity.
Defined.

(** The error the Admin check answers with. *)
Example admin_session_named_by_admin :
  new_outputs Sample.world
    (command [] "/ban" ["admin-alice"; "now"] 0%nat "u-alice" 0%nat Sample.world)
  = [Sent 0%nat (Event.error "Cannot moderate another Admin.")].
Proof. vm_compute. reflexivity. Qed.

(** C3, as stated, fails for a target that is not connected.  The record
    of [admin-root] holds the Admin role and no session displays that name.
    alice's [/ban admin-root] is not rejected: she gets the confirmation,
    the name enters the ban set and the record is flagged. *)
Lemma offline_admin_is_banned :
  let w := Sample.world in
  let w' := command [] "/ban" ["admin-root"] 0%nat "u-alice" 0%nat w in
  persisted_role (db w) "admin-root" = Some "Admin"
  /\ fst (find_target "admin-root" (mem w)) = None
  /\ new_outputs w w'
     = [Sent 0%nat (Event.notification "User admin-root is now permanently banned.")]
  /\ bool_decide ("admin-root" ∈ bannedUsers (mem w)) = false
  /\ bool_decide ("admin-root" ∈ bannedUsers (mem w')) = true
  /\ map Users.is_banned
         (select_where (fun u => String.eqb (Users.username u) "admin-root") (users (db w)))
     = [false]
  /\ map Users.is_banned
         (select_where (fun u => String.eqb (Users.username u) "admin-root") (users (db w')))
     = [true].
Proof. vm_compute. repeat split. Qed.



(** The kick that goes through, for comparison. *)
Example kick_with_audit :
  let w' := command [] "/kick" ["bob"] 0%nat "u-alice" 0%nat Sample.world in
  audit_logs (db w')
  = [AuditLogs.mk "USER_KICK" "u-alice" (Some "u-bob") (ModerationDetails "bob" "#general")]
  /\ clients (mem w') = [("u-alice", 0%nat); ("u-carol", 2%nat)]
  /\ readyState_of 1%nat (mem w') = Some CLOSING.
Proof. vm_compute. repeat split. Qed.

(** ** The dispatcher

    The send path strips the leading slash before it calls
    [handleCommand], whose cases are spelled with the slash: a message
    [/kick bob] is answered with the unknown-command error, and the
    moderation case is reached by a message that starts with two slashes. *)
Example single_slash_is_unknown :
  new_outputs Sample.world
    (handle [] 0%nat (send_message (Some "/kick bob") None None) Sample.world)
  = [Sent 0%nat (Event.error "Unknown command: kick.")].
Proof. vm_compute. reflexivity. Qed.

Example double_slash_reaches_handleCommand :
  handle [] 0%nat (send_message (Some "//kick bob") None None) Sample.world
  = command [] "/kick" ["bob"] 0%nat "u-alice" 0%nat Sample.world
  /\ handle [] 0%nat (send_message (Some "//ban admin-root") None None) Sample.world
     = command [] "/ban" ["admin-root"] 0%nat "u-alice" 0%nat Sample.world.
Proof. vm_compute. split; reflexivity. Qed.

(* ===================================================================== *)
(** * The command dispatcher                                              *)
(* ===================================================================== *)








Lemma reaction_events_idempotent_witness :
  let once := handle [] 1%nat (add_reaction "m1" "+1") Sample.world in
  let twice := handle [] 1%nat (add_reaction "m1" "+1") once in
  db twice = db once
  /\ forall mid, aggregate_reactions (reactions_of (db twice) mid)
                 = aggregate_reactions (reactions_of (db once) mid).
Proof.
  exact (reaction_events_idempotent Sample.world 1%nat "u-bob" 1%nat true "m1" "+1"
           sample_session_bob).
Defined.


(* ===================================================================== *)
(** * The authentication guard and the login guards                      *)
(* ===================================================================== *)

Lemma update_socket_frame ws f m :
  clients (update_socket ws f m) = clients m
  /\ heap (update_socket ws f m) = heap m
  /\ bannedUsers (update_socket ws f m) = bannedUsers m
  /\ typingUsers (update_socket ws f m) = typingUsers m
  /\ out (update_socket ws f m) = out m
  /\ next_ref (update_socket ws f m) = next_ref m.
Proof. unfold update_socket. destruct (sockets m !! ws); repeat split. Qed.

(** The first statement of the listener, [ws.currentUserId = currentUserId],
    leaves the closure variable and the ready state of every socket alone. *)
Lemma prelude_sockets ws m ws' :
  fst (get_currentUserId ws' (snd (listener_prelude ws m)))
  = fst (get_currentUserId ws' m)
  /\ is_open ws' (snd (listener_prelude ws m)) = is_open ws' m.
Proof.
  unfold listener_prelude, bind, get_currentUserId, gets, set_ws_currentUserId, modify.
  cbn [fst snd]. unfold update_socket, socket, is_open, readyState_of, socket.
  destruct (sockets m !! ws) as [s|] eqn:E; [|split; reflexivity].
  cbn [set_sockets sockets].
  destruct (decide (ws' = ws)) as [->|Hne].
  - rewrite list_lookup_insert_eq by (apply lookup_lt_Some in E; exact E).
    rewrite E. split; reflexivity.
  - rewrite list_lookup_insert_ne by congruence. split; reflexivity.
Qed.

Lemma prelude_frame ws m :
  let m0 := snd (listener_prelude ws m) in
  clients m0 = clients m /\ heap m0 = heap m /\ bannedUsers m0 = bannedUsers m
  /\ typingUsers m0 = typingUsers m /\ out m0 = out m /\ next_ref m0 = next_ref m.
Proof.
  unfold listener_prelude, bind, get_currentUserId, gets, set_ws_currentUserId, modify.
  cbn [fst snd]. apply update_socket_frame.
Qed.

Lemma authenticated_refuses ws k m :
  unauthenticated m ws ->
  authenticated ws k m = reject ws "Authentication required." m.
Proof.
  unfold unauthenticated, authenticated. intros H.
  unfold bind at 1. unfold get_currentUserId at 1, gets at 1.
  unfold get_currentUserId, gets in H. cbn [fst] in H.
  destruct (JS.or_null _) as [userId|]; [|reflexivity].
  unfold bind, clients_get, gets. rewrite JsMap_has_get in H.
  destruct (JsMap.get userId (clients m)); [|reflexivity].
  apply bool_decide_eq_false in H. exfalso. apply H. eexists. reflexivity.
Qed.

(** A connection that has not logged in, or whose session is no longer in
    the registry, gets one answer to every event other than [login]:
    the error [Authentication required.]  The registry, the session
    objects, the ban set, the typing sets and the tables are untouched. *)
Theorem unauthenticated_event_is_refused
    (fails : list bool) (w : World) (ws : WsId) (data : ClientEvent) :
  unauthenticated (mem w) ws ->
  (forall userId username, data <> login userId username) ->
  let w' := handle fails ws data w in
  db w' = db w
  /\ clients (mem w') = clients (mem w)
  /\ heap (mem w') = heap (mem w)
  /\ bannedUsers (mem w') = bannedUsers (mem w)
  /\ typingUsers (mem w') = typingUsers (mem w)
  /\ new_outputs w w'
     = if is_open ws (mem w) then [Sent ws (Event.error "Authentication required.")]
       else [].
Proof.
  intros Hun Hdata w'.
  assert (Hrun : w' = mkWorld
            (emit_all (if is_open ws (mem w)
                       then [Sent ws (Event.error "Authentication required.")] else [])
                      (snd (listener_prelude ws (mem w)))) (db w)).
  { subst w'. unfold handle, on_message. rewrite run_segment_step. cbn [mem db].
    set (m0 := snd (listener_prelude ws (mem w))).
    assert (Hun0 : unauthenticated m0 ws).
    { unfold unauthenticated, m0.
      rewrite (proj1 (prelude_sockets ws (mem w) ws)).
      rewrite (proj1 (prelude_frame ws (mem w))). exact Hun. }
    assert (Hk : forall k, fst (run_segment fails (authenticated ws k) (mkWorld m0 (db w)))
                           = mkWorld (emit_all (if is_open ws (mem w)
                                                then [Sent ws (Event.error
                                                                 "Authentication required.")]
                                                else []) m0) (db w)).
    { intros k. unfold run_segment at 1. cbn [mem db].
      rewrite (authenticated_refuses ws k m0 Hun0).
      change (fst (run_segment fails (reject ws "Authentication required.")
                     (mkWorld m0 (db w))) = mkWorld (emit_all
                       (if is_open ws (mem w)
                        then [Sent ws (Event.error "Authentication required.")] else [])
                       m0) (db w)).
      rewrite run_segment_reject. cbn [fst mem db].
      unfold m0. rewrite (proj2 (prelude_sockets ws (mem w) ws)). reflexivity. }
    destruct data; try apply Hk.
    exfalso. eapply Hdata. reflexivity. }
  rewrite Hrun. cbn [mem db emit_all clients heap bannedUsers typingUsers].
  pose proof (prelude_frame ws (mem w)) as (Hc & Hh & Hb & Ht & Ho & _).
  cbv zeta in Hc, Hh, Hb, Ht, Ho.
  repeat (split; [assumption || reflexivity|]).
  apply new_outputs_app. cbn [mem]. rewrite out_emit_all, Ho. reflexivity.
Qed.

Lemma unauthenticated_event_is_refused_witness :
  let w := Sample.world in
  let w' := handle [] 3%nat (send_message (Some "hello") None None) w in
  db w' = db w
  /\ clients (mem w') = clients (mem w)
  /\ heap (mem w') = heap (mem w)
  /\ bannedUsers (mem w') = bannedUsers (mem w)
  /\ typingUsers (mem w') = typingUsers (mem w)
  /\ new_outputs w w'
     = if is_open 3%nat (mem w) then [Sent 3%nat (Event.error "Authentication required.")]
       else [].
Proof.
  apply (unauthenticated_event_is_refused [] Sample.world 3%nat
           (send_message (Some "hello") None None)).
  - vm_compute. exact I.
  - intros userId username. discriminate.
Defined.

Lemma is_open_update_socket ws f m ws' :
  (forall s, Socket.readyState (f s) = Socket.readyState s) ->
  is_open ws' (update_socket ws f m) = is_open ws' m.
Proof.
  intros Hf. unfold update_socket, is_open, readyState_of, socket.
  destruct (sockets m !! ws) as [s|] eqn:E; [|reflexivity].
  cbn [set_sockets sockets].
  destruct (decide (ws' = ws)) as [->|Hne].
  - rewrite list_lookup_insert_eq by (apply lookup_lt_Some in E; exact E).
    rewrite E. cbn. rewrite Hf. reflexivity.
  - rewrite list_lookup_insert_ne by congruence. reflexivity.
Qed.

(** The state in which the login handler awaits the user lookup: the
    connection has taken the identity of the event, and nothing else has
    changed. *)
Lemma login_entry_state fails ws userId name w :
  exists m1,
    run_segment fails (on_message ws (login userId (Some name))) w
    = run_segment fails
        (await_try ws (SelectUserById userId)
                   (login_install ws userId (JS.substring_to 20 name)))
        (mkWorld m1 (db w))
    /\ clients m1 = clients (mem w) /\ heap m1 = heap (mem w)
    /\ bannedUsers m1 = bannedUsers (mem w) /\ typingUsers m1 = typingUsers (mem w)
    /\ out m1 = out (mem w)
    /\ forall ws', is_open ws' m1 = is_open ws' (mem w).
Proof.
  unfold on_message, handle_login.
  rewrite run_segment_step. cbn [mem db].
  unfold set_currentUserId, set_ws_currentUserId.
  rewrite !run_segment_modify. cbn [mem db].
  eexists. split; [reflexivity|].
  pose proof (prelude_frame ws (mem w)) as (Hc & Hh & Hb & Ht & Ho & _).
  cbv zeta in Hc, Hh, Hb, Ht, Ho.
  set (m0 := snd (listener_prelude ws (mem w))) in *.
  set (f1 := fun s => Socket.mk (Socket.readyState s) (Some userId)
                                (Socket.field_currentUserId s)).
  set (f2 := fun s => Socket.mk (Socket.readyState s) (Socket.var_currentUserId s)
                                (js_string userId)).
  destruct (update_socket_frame ws f1 m0) as (Hc1 & Hh1 & Hb1 & Ht1 & Ho1 & _).
  destruct (update_socket_frame ws f2 (update_socket ws f1 m0))
    as (Hc2 & Hh2 & Hb2 & Ht2 & Ho2 & _).
  split; [congruence|]. split; [congruence|]. split; [congruence|].
  split; [congruence|]. split; [congruence|].
  intros ws'.
  rewrite (is_open_update_socket ws f2 _ ws') by reflexivity.
  rewrite (is_open_update_socket ws f1 _ ws') by reflexivity.
  apply (proj2 (prelude_sockets ws (mem w) ws')).
Qed.

(** A login is refused when the user id is unknown, and when the record it
    names is banned, in the table or in the in-memory ban set: the
    connection is told why and closed, and no session is installed.  The
    registry, the session objects and the tables are what they were. *)
Theorem login_refused
    (fails : list bool) (w : World) (ws : WsId) (userId : UserId) (name : string) :
  default false (head fails) = false ->
  match user_rows (db w) userId with
  | [] => True
  | persistentUser :: _ =>
      bool_decide (Users.username persistentUser ∈ bannedUsers (mem w))
      || Users.is_banned persistentUser = true
  end ->
  let w' := handle fails ws (login userId (Some name)) w in
  let answer :=
    match user_rows (db w) userId with
    | [] => (Event.error "Invalid User ID. Please register.", "Invalid Auth")
    | persistentUser :: _ =>
        (Event.banned (JS.or_else (Users.ban_reason persistentUser)
                                  "You are banned from this server."), "Banned")
    end in
  db w' = db w
  /\ clients (mem w') = clients (mem w)
  /\ heap (mem w') = heap (mem w)
  /\ is_open ws (mem w') = false
  /\ new_outputs w w'
     = if is_open ws (mem w)
       then [Sent ws (fst answer); CloseCalled ws 1000 (snd answer)]
       else [].
Proof.
  intros Hf Hguard w' answer. subst w'. unfold handle.
  destruct (login_entry_state fails ws userId name w)
    as (m1 & -> & Hc1 & Hh1 & Hb1 & _ & Ho1 & Hopen1).
  rewrite run_segment_await_try. cbn [exec db mem]. rewrite Hf. cbn [fst snd].
  fold (user_rows (db w) userId) in *.
  assert (Hfin : forall e reason,
            let w' := fst (run_segment (tail fails)
                             (sendToClient ws e ;; ws_close ws 1000 reason ;; done)
                             (mkWorld m1 (db w))) in
            db w' = db w /\ clients (mem w') = clients (mem w)
            /\ heap (mem w') = heap (mem w) /\ is_open ws (mem w') = false
            /\ new_outputs w w'
               = if is_open ws (mem w) then [Sent ws e; CloseCalled ws 1000 reason]
                 else []).
  { intros e reason. cbv zeta.
    rewrite run_segment_send, run_segment_step, run_segment_done. cbn [fst mem db].
    split; [reflexivity|].
    split; [rewrite clients_ws_close_eq; exact Hc1|].
    split; [rewrite heap_ws_close_eq; exact Hh1|].
    split; [apply is_open_after_ws_close|].
    apply new_outputs_app. cbn [mem].
    rewrite out_ws_close, out_emit_all, is_open_emit_all, Hopen1, Ho1.
    destruct (is_open ws (mem w)); rewrite <- app_assoc; reflexivity. }
  subst answer.
  destruct (user_rows (db w) userId) as [|persistentUser rest].
  - unfold login_install. apply Hfin.
  - unfold login_install. rewrite run_segment_gets. cbn [mem].
    rewrite Hb1, Hguard. apply Hfin.
Qed.

Lemma login_refused_witness :
  let w := Sample.world in
  let w' := handle [] 3%nat (login "u-nobody" (Some "nobody")) w in
  db w' = db w
  /\ clients (mem w') = clients (mem w)
  /\ heap (mem w') = heap (mem w)
  /\ is_open 3%nat (mem w') = false
  /\ new_outputs w w'
     = if is_open 3%nat (mem w)
       then [Sent 3%nat (Event.error "Invalid User ID. Please register.");
             CloseCalled 3%nat 1000 "Invalid Auth"]
       else [].
Proof.
  apply (login_refused [] Sample.world 3%nat "u-nobody" "nobody").
  - reflexivity.
  - vm_compute. exact I.
Defined.

(* ===================================================================== *)
(** * What the handlers never undo                                        *)
(* ===================================================================== *)

Section KeepRules.
Variable I : Mem -> Prop.
(** [I] only looks at the ban set, and adding a name keeps it. *)
Hypothesis I_frame : forall m m', bannedUsers m' = bannedUsers m -> I m -> I m'.
Hypothesis I_add :
  forall m n, I m -> I (set_bannedUsers (fun s => {[n]} ∪ s) m).

Lemma keeps_ret {A} (P : A -> Prop) (a : A) : P a -> sync_keeps I P (ret a).
Proof. intros H m. split; [auto|assumption]. Qed.

Lemma keeps_bind {A B} (Q : A -> Prop) (P : B -> Prop) (c : Sync A) (f : A -> Sync B) :
  sync_keeps I Q c -> (forall a, Q a -> sync_keeps I P (f a)) ->
  sync_keeps I P (bind c f).
Proof.
  intros Hc Hf m. unfold bind.
  destruct (Hc m) as [H1 H2]. destruct (c m) as [a m']. simpl in *.
  destruct (Hf a H2 m') as [H3 H4]. split; auto.
Qed.

Lemma keeps_seq {A B} (P : B -> Prop) (c : Sync A) (f : A -> Sync B) :
  sync_keeps I (fun _ => True) c -> (forall a, sync_keeps I P (f a)) ->
  sync_keeps I P (bind c f).
Proof. intros Hc Hf. apply (keeps_bind (fun _ => True)); auto. Qed.

(** A segment that leaves the ban set alone. *)
Lemma keeps_frame {A} (c : Sync A) :
  (forall m, bannedUsers (snd (c m)) = bannedUsers m) ->
  sync_keeps I (fun _ => True) c.
Proof. intros H m. split; [|exact Logic.I]. apply I_frame, H. Qed.

Lemma keeps_gets {A} (P : A -> Prop) (f : Mem -> A) :
  (forall m, P (f m)) -> sync_keeps I P (gets f).
Proof. intros H m. split; [auto|apply H]. Qed.

Lemma bans_sendToClient ws e m :
  bannedUsers (snd (sendToClient ws e m)) = bannedUsers m.
Proof. unfold sendToClient. destruct (is_open ws m); reflexivity. Qed.

Lemma bans_update_socket ws f m : bannedUsers (update_socket ws f m) = bannedUsers m.
Proof. unfold update_socket. destruct (sockets m !! ws); reflexivity. Qed.

Lemma bans_ws_close ws code reason m :
  bannedUsers (snd (ws_close ws code reason m)) = bannedUsers m.
Proof. apply bannedUsers_ws_close_eq. Qed.

Lemma bans_forEach {A} (l : list A) (body : A -> Sync unit) :
  (forall x m, bannedUsers (snd (body x m)) = bannedUsers m) ->
  forall m, bannedUsers (snd (forEach l body m)) = bannedUsers m.
Proof.
  intros Hb. induction l as [|x l IH]; intros m; simpl; [reflexivity|].
  unfold bind. specialize (Hb x m). destruct (body x m) as [u m']. simpl in Hb.
  rewrite IH. assumption.
Qed.

Lemma bans_broadcast room e sid m :
  bannedUsers (snd (broadcast room e sid m)) = bannedUsers m.
Proof. rewrite broadcast_run. reflexivity. Qed.

Lemma bans_broadcastPresence room m :
  bannedUsers (snd (broadcastPresence room m)) = bannedUsers m.
Proof. rewrite broadcastPresence_run. reflexivity. Qed.

Lemma bans_notice_unless_dm room content sid m :
  bannedUsers (snd (notice_unless_dm room content sid m)) = bannedUsers m.
Proof.
  unfold notice_unless_dm. destruct (JS.startsWith room "DM:"); [reflexivity|].
  unfold bind, randomUUID, Date_now, gets. rewrite broadcast_run. reflexivity.
Qed.

Lemma bans_clear_typing room name m :
  bannedUsers (snd (clear_typing room name m)) = bannedUsers m.
Proof.
  unfold clear_typing, bind, gets. simpl.
  destruct (JsMap.get room (typingUsers m)); [|reflexivity].
  destruct (JsSet.has name l); [|reflexivity].
  unfold modify. simpl. rewrite bans_broadcast. reflexivity.
Qed.

Lemma task_keeps_Await {R} (c : Call R) (k : Outcome R -> Sync Task) :
  (forall o, sync_keeps I (task_keeps I) (k o)) -> task_keeps I (Await c k).
Proof. intros Hk. constructor; intros o m; apply (Hk o m). Qed.

Lemma keeps_await {R} (c : Call R) (k : Outcome R -> Sync Task) :
  (forall o, sync_keeps I (task_keeps I) (k o)) ->
  sync_keeps I (task_keeps I) (await c k).
Proof. intros Hk m. split; [auto|]. simpl. apply task_keeps_Await, Hk. Qed.

Lemma keeps_reject ws msg : sync_keeps I (task_keeps I) (reject ws msg).
Proof.
  unfold reject. apply keeps_seq.
  - apply keeps_frame. intros m. apply bans_sendToClient.
  - intros _. apply keeps_ret. constructor.
Qed.

Lemma keeps_await_try {R} ws (c : Call R) (k : R -> Sync Task) :
  (forall r, sync_keeps I (task_keeps I) (k r)) ->
  sync_keeps I (task_keeps I) (await_try ws c k).
Proof.
  intros Hk. apply keeps_await. intros [code|r]; [|apply Hk].
  apply (keeps_reject ws).
Qed.

Lemma keeps_done : sync_keeps I (task_keeps I) done.
Proof. apply keeps_ret. constructor. Qed.

Lemma keeps_ban n :
  sync_keeps I (fun _ => True) (modify (set_bannedUsers (fun s => {[n]} ∪ s))).
Proof. intros m. split; [apply I_add|exact Logic.I]. Qed.

Ltac keeps_frame_tac :=
  apply keeps_frame; intros ?;
  first [ apply bans_sendToClient | apply bans_ws_close
        | apply bans_broadcast | apply bans_broadcastPresence
        | apply bans_notice_unless_dm | apply bans_clear_typing
        | apply bans_update_socket | reflexivity ].

Ltac keeps_step :=
  lazymatch goal with
  | |- sync_keeps _ _ (bind _ _) => apply keeps_seq; [|intros ?]
  | |- sync_keeps _ _ (await_try _ _ _) => apply keeps_await_try; intros ?
  | |- sync_keeps _ _ (await _ _) => apply keeps_await; intros ?
  | |- sync_keeps _ _ (reject _ _) => apply keeps_reject
  | |- sync_keeps _ _ (internal_error _) => apply (keeps_reject _)
  | |- sync_keeps _ _ done => apply keeps_done
  | |- sync_keeps _ _ (modify (set_bannedUsers _)) => apply keeps_ban
  | |- sync_keeps _ _ (ret _) => apply keeps_ret; try exact Logic.I
  | |- sync_keeps _ _ (if ?b then _ else _) => destruct b
  | |- sync_keeps _ _ (match ?x with _ => _ end) => destruct x
  | |- sync_keeps _ (fun _ => True) _ => keeps_frame_tac
  end.

Ltac keeps_auto := cbv zeta; repeat keeps_step.

Lemma keeps_moderate command targetUsername roomName target client userId ws :
  sync_keeps I (task_keeps I)
             (moderate command targetUsername roomName target client userId ws).
Proof. unfold moderate. keeps_auto. Qed.

Lemma keeps_handleCommand command args client userId ws :
  sync_keeps I (task_keeps I) (handleCommand command args client userId ws).
Proof. unfold handleCommand. keeps_auto; try apply keeps_moderate. Qed.

Lemma keeps_login_finish ws userId clientData channels :
  sync_keeps I (task_keeps I) (login_finish ws userId clientData channels).
Proof. unfold login_finish. keeps_auto. Qed.

Lemma keeps_login_settle ws userId clientData channels :
  sync_keeps I (task_keeps I) (login_settle ws userId clientData channels).
Proof. unfold login_settle. keeps_auto; apply keeps_login_finish. Qed.

Lemma keeps_login_install ws userId inputUsername users :
  sync_keeps I (task_keeps I) (login_install ws userId inputUsername users).
Proof. unfold login_install. keeps_auto; try apply keeps_login_settle. Qed.

Lemma keeps_handle_login ws userId username :
  sync_keeps I (task_keeps I) (handle_login ws userId username).
Proof. unfold handle_login. keeps_auto. apply keeps_login_install. Qed.

Lemma keeps_handle_send ws client userId targetRoom content attachment parent :
  sync_keeps I (task_keeps I)
             (handle_send ws client userId targetRoom content attachment parent).
Proof. unfold handle_send. keeps_auto; try apply keeps_handleCommand. Qed.

Lemma keeps_handle_typing ws client isTyping :
  sync_keeps I (task_keeps I) (handle_typing ws client isTyping).
Proof. unfold handle_typing. keeps_auto. Qed.

Lemma keeps_handle_edit ws client id content :
  sync_keeps I (task_keeps I) (handle_edit ws client id content).
Proof. unfold handle_edit. keeps_auto. Qed.

Lemma keeps_handle_delete ws client id :
  sync_keeps I (task_keeps I) (handle_delete ws client id).
Proof. unfold handle_delete. keeps_auto. Qed.

Lemma keeps_handle_reaction ws client add id emoji :
  sync_keeps I (task_keeps I) (handle_reaction ws client add id emoji).
Proof. unfold handle_reaction. keeps_auto. Qed.

Lemma keeps_change_room ws client oldRoom newRoom :
  sync_keeps I (task_keeps I) (change_room ws client oldRoom newRoom).
Proof. unfold change_room. keeps_auto. Qed.

Lemma keeps_handle_join ws client targetChannel :
  sync_keeps I (task_keeps I) (handle_join ws client targetChannel).
Proof. unfold handle_join. keeps_auto. apply keeps_change_room. Qed.

Lemma keeps_handle_start_dm ws client targetUserId :
  sync_keeps I (task_keeps I) (handle_start_dm ws client targetUserId).
Proof. unfold handle_start_dm. keeps_auto. apply keeps_change_room. Qed.

Lemma keeps_authenticated ws k :
  (forall client userId, sync_keeps I (task_keeps I) (k client userId)) ->
  sync_keeps I (task_keeps I) (authenticated ws k).
Proof. intros Hk. unfold authenticated. keeps_auto. apply Hk. Qed.

Lemma keeps_emit_join_channel ws channel :
  sync_keeps I (task_keeps I) (emit_join_channel ws channel).
Proof.
  unfold emit_join_channel. apply keeps_seq.
  - unfold listener_prelude. keeps_auto.
  - intros _. apply keeps_authenticated. intros. apply keeps_handle_join.
Qed.

Lemma keeps_fork_all ts t :
  Forall (task_keeps I) ts -> task_keeps I t -> task_keeps I (fork_all ts t).
Proof.
  intros Hts Ht. induction Hts; simpl; [assumption|].
  constructor; assumption.
Qed.

Lemma keeps_channel_list_updates m : Forall (task_keeps I) (channel_list_updates m).
Proof.
  unfold channel_list_updates.
  generalize (imap (fun i s => (i, s)) (sockets m)). intros l.
  induction l as [|[i s] l IH]; simpl; [constructor|].
  destruct (Socket.readyState s); try assumption.
  destruct (Socket.field_currentUserId s); try assumption.
  destruct (JS.truthy s0); [|assumption].
  constructor; [|assumption].
  apply task_keeps_Await. intros [code|chs]; keeps_auto.
Qed.

Lemma keeps_channel_changes room moved m :
  Forall (task_keeps I) (channel_changes room moved m).
Proof.
  unfold channel_changes. induction moved as [|r l IH]; simpl; constructor; [|assumption].
  apply task_keeps_Await. intros [code|chs]; keeps_auto.
Qed.

Lemma keeps_create_finish ws name inviteCode :
  sync_keeps I (task_keeps I) (create_finish ws name inviteCode).
Proof.
  unfold create_finish. apply keeps_seq; [keeps_auto|]. intros _.
  intros m. split; [auto|]. simpl.
  apply keeps_fork_all; [apply keeps_channel_list_updates|].
  apply task_keeps_Await. intros o. apply keeps_emit_join_channel.
Qed.

Lemma keeps_handle_create_channel ws name isPrivate :
  sync_keeps I (task_keeps I) (handle_create_channel ws name isPrivate).
Proof.
  unfold handle_create_channel, create_failed.
  keeps_auto; apply keeps_create_finish.
Qed.

Lemma keeps_move_to_fallback channelToDelete cs :
  sync_keeps I (fun _ => True) (move_to_fallback channelToDelete cs).
Proof.
  induction cs as [|entry rest IH]; simpl; keeps_auto; apply IH.
Qed.

Lemma keeps_handle_delete_channel ws client channelToDelete :
  sync_keeps I (task_keeps I) (handle_delete_channel ws client channelToDelete).
Proof.
  unfold handle_delete_channel.
  repeat lazymatch goal with
         | |- sync_keeps _ _ (bind (gets (channel_changes _ _)) _) =>
             apply (keeps_bind (Forall (task_keeps I)));
             [apply keeps_gets; intros ?; apply keeps_channel_changes|intros ? ?]
         | |- sync_keeps _ _ (bind (gets channel_list_updates) _) =>
             apply (keeps_bind (Forall (task_keeps I)));
             [apply keeps_gets; intros ?; apply keeps_channel_list_updates|intros ? ?]
         | |- sync_keeps _ _ (bind (move_to_fallback _ _) _) =>
             apply keeps_seq; [apply keeps_move_to_fallback|intros ?]
         | |- sync_keeps _ _ (ret (fork_all _ _)) =>
             apply keeps_ret, keeps_fork_all;
             [apply Forall_app; split; assumption|constructor]
         | |- _ => keeps_step
         end.
Qed.

Lemma keeps_handle_join_by_code ws code :
  sync_keeps I (task_keeps I) (handle_join_by_code ws code).
Proof. unfold handle_join_by_code. keeps_auto. apply keeps_emit_join_channel. Qed.

Lemma keeps_on_message ws data : sync_keeps I (task_keeps I) (on_message ws data).
Proof.
  unfold on_message. apply keeps_seq; [unfold listener_prelude; keeps_auto|]. intros _.
  destruct data;
    first [ apply keeps_handle_login
          | apply keeps_authenticated; intros client userId ].
  - keeps_auto. apply keeps_handle_send.
  - apply keeps_handle_send.
  - apply keeps_handle_create_channel.
  - apply keeps_handle_delete_channel.
  - apply keeps_handle_join_by_code.
  - apply keeps_handle_typing.
  - apply keeps_handle_edit.
  - apply keeps_handle_delete.
  - apply keeps_handle_reaction.
  - apply keeps_handle_reaction.
  - apply keeps_handle_join.
  - apply keeps_handle_start_dm.
  - apply keeps_done.
Qed.

Lemma keeps_on_close ws : sync_keeps I (fun _ => True) (on_close ws).
Proof. unfold on_close. keeps_auto. Qed.

Lemma task_keeps_inversion t :
  task_keeps I t ->
  match t with
  | Done => True
  | Await c k =>
      (forall o m, I m -> I (snd (k o m))) /\
      (forall o m, task_keeps I (fst (k o m)))
  | Fork t1 t2 => task_keeps I t1 /\ task_keeps I t2
  end.
Proof. destruct 1; auto. Qed.

(** Every continuation the event loop ever holds keeps [I]. *)
Lemma step_pending_keeps s s' :
  step s s' -> Forall (task_keeps I) (pending s) -> Forall (task_keeps I) (pending s').
Proof.
  intros Hstep Hp. destruct Hstep; simpl in *.
  - assumption.
  - apply Forall_app. split; [assumption|].
    constructor; [apply (keeps_on_message ws data (mem w))|constructor].
  - assumption.
  - apply Forall_app in Hp. destruct Hp as [Hp1 Hp2].
    inversion Hp2 as [|? ? Hk Hp2']; subst.
    apply task_keeps_inversion in Hk. destruct Hk as [Hk1 Hk2].
    apply Forall_app. split; [assumption|].
    constructor; [apply Hk2|assumption].
  - apply Forall_app in Hp. destruct Hp as [Hp1 Hp2].
    inversion Hp2 as [|? ? Hk Hp2']; subst.
    apply task_keeps_inversion in Hk. destruct Hk as [Hk1 Hk2].
    apply Forall_app. split; [assumption|].
    repeat constructor; assumption.
  - apply Forall_app in Hp. destruct Hp as [Hp1 Hp2].
    inversion Hp2; subst.
    apply Forall_app. split; assumption.
  - assumption.
Qed.

Lemma step_keeps s s' :
  step s s' -> Forall (task_keeps I) (pending s) ->
  I (mem (world s)) -> I (mem (world s')).
Proof.
  intros Hstep Hp Hm. destruct Hstep; simpl in *.
  - eapply I_frame; [|eassumption]. reflexivity.
  - apply (keeps_on_message ws data (mem w)). assumption.
  - apply (keeps_on_close ws (mem w)). assumption.
  - apply Forall_app in Hp. destruct Hp as [Hp1 Hp2].
    inversion Hp2 as [|? ? Hk Hp2']; subst.
    apply task_keeps_inversion in Hk. destruct Hk as [Hk1 Hk2].
    apply Hk1. assumption.
  - assumption.
  - assumption.
  - eapply I_frame; [|eassumption]. reflexivity.
Qed.

Lemma reachable_pending_keeps s0 s :
  Forall (task_keeps I) (pending s0) -> reachable s0 s ->
  Forall (task_keeps I) (pending s).
Proof.
  intros H0 Hr. induction Hr; [assumption|].
  eapply step_pending_keeps; eassumption.
Qed.

Lemma reachable_keeps s s' :
  Forall (task_keeps I) (pending s) -> reachable s s' ->
  I (mem (world s)) -> I (mem (world s')).
Proof.
  intros Hp Hr Hm. induction Hr; [assumption|].
  eapply step_keeps; [eassumption| |assumption].
  eapply reachable_pending_keeps; eassumption.
Qed.
End KeepRules.

(** Once a name is in the ban set it stays there: along every execution of
    the event loop from start-up, whatever events arrive and however the
    awaited calls settle, no handler removes a name from [bannedUsers]. *)
Theorem ban_is_never_lifted (e : Env) (now : Z) (d : DB) (s s' : System) (name : string) :
  reachable (boot e now d) s ->
  reachable s s' ->
  banned_in_memory name (mem (world s)) ->
  banned_in_memory name (mem (world s')).
Proof.
  intros Hs Hs' Hb.
  assert (Hframe : forall m m', bannedUsers m' = bannedUsers m ->
                                banned_in_memory name m -> banned_in_memory name m').
  { unfold banned_in_memory. intros m m' ->. auto. }
  assert (Hadd : forall m n, banned_in_memory name m ->
                   banned_in_memory name (set_bannedUsers (fun s => {[n]} ∪ s) m)).
  { unfold banned_in_memory. intros m n H. cbn [set_bannedUsers bannedUsers].
    set_solver. }
  apply (reachable_keeps (banned_in_memory name) Hframe Hadd s s'); [|assumption..].
  apply (reachable_pending_keeps (banned_in_memory name) Hframe Hadd (boot e now d) s);
    [constructor|assumption].
Qed.

(* ===================================================================== *)
(** * Scheduled executions                                                *)
(* ===================================================================== *)

Lemma pending_split (p : list Task) i t :
  p !! i = Some t -> p = take i p ++ t :: drop (S i) p.
Proof. intros H. symmetry. apply take_drop_middle. exact H. Qed.

Lemma move_step mv s s' : move mv s = Some s' -> step s s'.
Proof.
  destruct s as [w p]. unfold move. cbn [world pending].
  destruct mv as [|ws data|ws|i fail|i|i|t].
  - intros [= <-]. constructor.
  - destruct (socket_alive ws (mem w)) eqn:E; [|discriminate].
    intros [= <-]. constructor. exact E.
  - destruct (socket_alive ws (mem w)) eqn:E; [|discriminate].
    intros [= <-]. constructor. exact E.
  - destruct (p !! i) as [[|R c k|]|] eqn:E; try discriminate.
    intros [= <-]. rewrite (pending_split p i _ E) at 1. constructor.
  - destruct (p !! i) as [[|R c k|t1 t2]|] eqn:E; try discriminate.
    intros [= <-]. rewrite (pending_split p i _ E) at 1. constructor.
  - destruct (p !! i) as [[|R c k|]|] eqn:E; try discriminate.
    intros [= <-]. rewrite (pending_split p i _ E) at 1. constructor.
  - destruct (clock (mem w) <=? t) eqn:E; [|discriminate].
    intros [= <-]. constructor. apply Z.leb_le. exact E.
Qed.

Lemma reachable_trans s0 s s' : reachable s0 s -> reachable s s' -> reachable s0 s'.
Proof.
  intros H0 H. induction H; [assumption|].
  eapply reach_step; eassumption.
Qed.

(** Every scheduled execution is an execution of the event loop. *)
Lemma play_reachable moves s s' : play moves s = Some s' -> reachable s s'.
Proof.
  revert s. induction moves as [|mv rest IH]; intros s; simpl.
  - intros [= <-]. constructor.
  - destruct (move mv s) as [s1|] eqn:E; [|discriminate].
    intros H. apply (reachable_trans s s1).
    + eapply reach_step; [constructor|]. apply (move_step mv). exact E.
    + apply IH. exact H.
Qed.

Lemma ban_is_never_lifted_witness :
  let boot0 := boot Sample.environment 0 Sample.tables in
  let ban := [Connect; Deliver 0%nat (login "u-alice" (Some "admin-alice"));
              Settle 0 false; Settle 0 false; Settle 0 false; Retire 0;
              Deliver 0%nat (send_message (Some "//ban bob") None None)] in
  let later := [Settle 0 true; Retire 0; Hangup 0%nat; Connect; Tick 5] in
  let s := default boot0 (play ban boot0) in
  let s' := default s (play later s) in
  banned_in_memory "bob" (mem (world s))
  /\ banned_in_memory "bob" (mem (world s')).
Proof.
  cbv zeta.
  set (boot0 := boot Sample.environment 0 Sample.tables).
  set (ban := [Connect; Deliver 0%nat (login "u-alice" (Some "admin-alice"));
               Settle 0 false; Settle 0 false; Settle 0 false; Retire 0;
               Deliver 0%nat (send_message (Some "//ban bob") None None)]).
  set (later := [Settle 0 true; Retire 0; Hangup 0%nat; Connect; Tick 5]).
  set (s := default boot0 (play ban boot0)).
  set (s' := default s (play later s)).
  assert (Hs : play ban boot0 = Some s) by (vm_compute; reflexivity).
  assert (Hs' : play later s = Some s') by (vm_compute; reflexivity).
  assert (Hb : banned_in_memory "bob" (mem (world s))).
  { unfold banned_in_memory.
    assert (H : bool_decide ("bob" ∈ bannedUsers (mem (world s))) = true)
      by (vm_compute; reflexivity).
    apply bool_decide_eq_true in H. exact H. }
  split; [exact Hb|].
  exact (ban_is_never_lifted Sample.environment 0 Sample.tables s s' "bob"
           (play_reachable ban boot0 s Hs) (play_reachable later s s' Hs') Hb).
Defined.

(** The ban at work.  alice bans the name [bob] while bob is offline and
    the UPDATE fails; bob's next login is refused from the ban set alone. *)
Example banned_name_cannot_log_in :
  let boot0 := boot Sample.environment 0 Sample.tables in
  let moves := [Connect; Deliver 0%nat (login "u-alice" (Some "admin-alice"));
                Settle 0 false; Settle 0 false; Settle 0 false; Retire 0;
                Deliver 0%nat (send_message (Some "//ban bob") None None);
                Settle 0 true; Retire 0;
                Connect; Deliver 1%nat (login "u-bob" (Some "bob")); Settle 0 false] in
  (fun s => (clients (mem (world s)), skipn 5 (out (mem (world s))),
             readyState_of 1%nat (mem (world s))))
    <$> play moves boot0
  = Some ([("u-alice", 0%nat)],
          [Sent 1%nat (Event.banned "You are banned from this server.");
           CloseCalled 1%nat 1000 "Banned"],
          Some CLOSING).
Proof. vm_compute. reflexivity. Qed.

(* ===================================================================== *)
(** * Deleting a message                                                  *)
(* ===================================================================== *)

(** A delete the rule does not permit (the message is not in the actor's
    room, or the actor is neither its author nor at least a Moderator) is
    answered with one error; nothing else happens. *)
Theorem delete_refused
    (fails : list bool) (w : World) (ws : WsId) (userId : UserId) (client : Ref)
    (id : string) :
  session_of (mem w) ws userId client ->
  default false (head fails) = false ->
  delete_permitted (db w) id (Client.channel (deref_in (mem w) client)) userId
                   (Client.role (deref_in (mem w) client)) = false ->
  handle fails ws (delete_message id) w
  = mkWorld (emit_all [Sent ws (Event.error "Permission denied to delete this message.")]
                      (mem w))
            (db w).
Proof.
  intros Hs Hf Hperm.
  assert (Hopen : is_open ws (mem w) = true) by apply (session_open _ _ _ _ Hs).
  rewrite (handle_session _ _ _ _ _ _ Hs). unfold handle_delete.
  rewrite run_segment_deref, run_segment_await_try. rewrite Hf.
  cbn [exec fst snd]. rewrite world_eta.
  rewrite (run_segment_var _ ws userId client) by exact Hs.
  rewrite run_segment_deref.
  unfold delete_permitted, message_in_room in Hperm.
  destruct (select_where _ (messages (db w))) as [|msg more]; cbn [head] in Hperm.
  - rewrite run_segment_reject, Hopen. reflexivity.
  - rewrite is_current_Some, Hperm. rewrite run_segment_reject, Hopen. reflexivity.
Qed.

Lemma delete_refused_witness :
  handle [] 1%nat (delete_message "m2") Sample.world
  = mkWorld (emit_all [Sent 1%nat (Event.error "Permission denied to delete this message.")]
                      (mem Sample.world))
            (db Sample.world).
Proof.
  apply (delete_refused [] Sample.world 1%nat "u-bob" 1%nat "m2").
  - exact sample_session_bob.
  - reflexivity.
  - reflexivity.
Defined.

Lemma in_update_where {A} (p : A -> bool) (f : A -> A) (t : list A) x :
  In x t -> In (if p x then f x else x) (update_where p f t).
Proof. intros H. unfold update_where. apply (in_map (fun r => if p r then f r else r) _ _ H). Qed.

Lemma in_delete_where {A} (p : A -> bool) (t : list A) x :
  In x (delete_where p t) <-> In x t /\ p x = false.
Proof.
  unfold delete_where. rewrite filter_In. rewrite negb_true_iff. reflexivity.
Qed.

(** What a delete that goes through does to the tables.  Every other
    message stays; a reply to the deleted message stays too, with its
    parent reference cleared and its thread-root flag as it was (false).
    No message is left pointing at the deleted one.  The reactions to the
    deleted message are gone and all others stay.  One audit row is
    appended, with the first 50 characters of the deleted content. *)
Theorem delete_message_effects
    (rest : list bool) (w : World) (ws : WsId) (userId : UserId) (client : Ref)
    (id : string) (msg : Messages.row) :
  session_of (mem w) ws userId client ->
  let room := Client.channel (deref_in (mem w) client) in
  message_in_room (db w) id room = Some msg ->
  delete_permitted (db w) id room userId (Client.role (deref_in (mem w) client)) = true ->
  user_exists (db w) userId = true ->
  let w' := handle (false :: false :: false :: false :: rest) ws (delete_message id) w in
  (forall r, In r (messages (db w)) -> Messages.id r <> id ->
             In (if opt_eqb (Messages.parent_message_id r) id then set_parent_null r else r)
                (messages (db w')))
  /\ (forall r, Messages.is_thread_root (set_parent_null r) = Messages.is_thread_root r
                /\ Messages.parent_message_id (set_parent_null r) = None)
  /\ (forall r, In r (messages (db w')) ->
                Messages.id r <> id /\ Messages.parent_message_id r <> Some id)
  /\ (forall x, In x (reactions (db w'))
                <-> In x (reactions (db w)) /\ Reactions.message_id x <> id)
  /\ audit_logs (db w')
     = audit_logs (db w)
       ++ [AuditLogs.mk "MESSAGE_DELETE" userId (Some id)
             (DeletionDetails room (JS.substring_to 50 (Messages.content msg) +:+ "..."))].
Proof.
  intros Hs room Hmsg Hperm Hactor w'.
  assert (Hopen : is_open ws (mem w) = true) by apply (session_open _ _ _ _ Hs).
  assert (Hrun : db w'
            = with_audit_logs
                (fun t => t ++ [AuditLogs.mk "MESSAGE_DELETE" userId (Some id)
                                  (DeletionDetails room
                                     (JS.substring_to 50 (Messages.content msg) +:+ "..."))])
                (with_channels
                   (update_where (fun c => String.eqb (Channels.channel_name c) room
                                           && opt_eqb (Channels.pinned_message_id c) id)
                                 (set_pinned None))
                   (delete_message_cascade id (db w)))).
  { subst w'. rewrite (handle_session _ _ _ _ _ _ Hs).
    unfold handle_delete.
    rewrite run_segment_deref, run_segment_await_try.
    cbn [head default from_option Datatypes.id tail exec fst snd]. rewrite world_eta.
    rewrite (run_segment_var _ ws userId client) by exact Hs.
    rewrite run_segment_deref. fold room.
    unfold delete_permitted in Hperm. rewrite Hmsg in Hperm.
    unfold message_in_room in Hmsg.
    destruct (select_where _ (messages (db w))) as [|msg0 more]; cbn [head] in Hmsg;
      [discriminate|].
    injection Hmsg as ->.
    rewrite is_current_Some, Hperm.
    rewrite run_segment_await_try.
    cbn [head default from_option Datatypes.id tail exec fst snd mem db].
    rewrite run_segment_deref. cbn [mem db]. fold room.
    rewrite run_segment_await_try.
    cbn [head default from_option Datatypes.id tail exec fst snd mem db].
    rewrite run_segment_deref, run_segment_broadcast. cbn [mem db].
    rewrite run_segment_deref, run_segment_send. cbn [mem db].
    rewrite is_open_emit_all, Hopen, emit_all_app.
    rewrite (run_segment_var _ ws userId client) by exact Hs.
    rewrite run_segment_deref. cbn [mem db].
    rewrite run_segment_await_try.
    cbn [head default from_option Datatypes.id tail exec fst snd mem db].
    change (deref_in (emit_all _ (mem w)) client) with (deref_in (mem w) client).
    fold room.
    change (user_exists (with_channels _ (delete_message_cascade id (db w))) (bound_id (Some userId)))
      with (user_exists (db w) userId).
    rewrite Hactor. cbn [fst snd]. rewrite run_segment_done. reflexivity. }
  rewrite Hrun.
  cbn [with_audit_logs with_channels delete_message_cascade with_reactions with_messages
       messages reactions audit_logs].
  split.
  { intros r Hin Hne.
    apply (in_update_where (fun m => opt_eqb (Messages.parent_message_id m) id)
                           set_parent_null).
    apply in_delete_where. split; [exact Hin|].
    apply String.eqb_neq. exact Hne. }
  split; [intros r; destruct r; split; reflexivity|].
  split.
  { intros r Hin. unfold update_where in Hin. apply in_map_iff in Hin.
    destruct Hin as (r0 & Hr & Hin0). apply in_delete_where in Hin0.
    destruct Hin0 as [_ Hne0]. apply String.eqb_neq in Hne0.
    destruct (opt_eqb (Messages.parent_message_id r0) id) eqn:Ep; subst r.
    - destruct r0; cbn in *. split; [exact Hne0|discriminate].
    - split; [exact Hne0|]. intros Hp. rewrite Hp in Ep. cbn in Ep.
      rewrite String.eqb_refl in Ep. discriminate. }
  split; [|reflexivity].
  intros x. rewrite in_delete_where. rewrite String.eqb_neq. reflexivity.
Qed.

Lemma delete_message_effects_witness :
  let w := Sample.world in
  let w' := handle [false; false; false; false] 2%nat (delete_message "m1") w in
  (forall r, In r (messages (db w)) -> Messages.id r <> "m1" ->
             In (if opt_eqb (Messages.parent_message_id r) "m1"
                 then set_parent_null r else r)
                (messages (db w')))
  /\ (forall r, Messages.is_thread_root (set_parent_null r) = Messages.is_thread_root r
                /\ Messages.parent_message_id (set_parent_null r) = None)
  /\ (forall r, In r (messages (db w')) ->
                Messages.id r <> "m1" /\ Messages.parent_message_id r <> Some "m1")
  /\ (forall x, In x (reactions (db w'))
                <-> In x (reactions (db w)) /\ Reactions.message_id x <> "m1")
  /\ audit_logs (db w')
     = audit_logs (db w)
       ++ [AuditLogs.mk "MESSAGE_DELETE" "u-carol" (Some "m1")
             (DeletionDetails (Client.channel (deref_in (mem w) 2%nat))
                (JS.substring_to 50 (Messages.content Sample.m1) +:+ "..."))].
Proof.
  apply (delete_message_effects [] Sample.world 2%nat "u-carol" 2%nat "m1" Sample.m1).
  - exact sample_session_carol.
  - reflexivity.
  - reflexivity.
  - reflexivity.
Defined.

(** The reply [m3] after its parent [m1] is deleted: still there, no
    parent, and not flagged as a thread root. *)
Example orphaned_reply :
  messages (db (handle [] 2%nat (delete_message "m1") Sample.world))
  = [Sample.m2; set_parent_null Sample.m3]
  /\ Messages.parent_message_id (set_parent_null Sample.m3) = None
  /\ Messages.is_thread_root (set_parent_null Sample.m3) = false.
Proof. vm_compute. repeat split. Qed.

(* ===================================================================== *)
(** * Channel access                                                      *)
(* ===================================================================== *)

Lemma authorized_names (d : DB) (userId : UserId) (name : string) :
  In name (map ChannelInfo.name (getAuthorizedChannels false d (js_string userId)))
  <-> exists c, In c (channels d) /\ Channels.channel_name c = name
                /\ (Channels.is_private c = false \/ is_member d userId c = true).
Proof.
  unfold getAuthorizedChannels. rewrite map_app, !map_map, in_app_iff, !in_map_iff.
  unfold select_where. split.
  - intros [(c & Hn & Hin)|(c & Hn & Hin)]; apply filter_In in Hin;
      destruct Hin as [Hin Hp]; exists c; cbn in Hn.
    + apply negb_true_iff in Hp. auto.
    + apply andb_true_iff in Hp. destruct Hp as [_ Hm]. auto.
  - intros (c & Hin & Hn & Hacc).
    destruct (Channels.is_private c) eqn:Ep.
    + right. exists c. split; [exact Hn|]. apply filter_In. split; [exact Hin|].
      destruct Hacc as [Hf|Hm]; [discriminate|]. rewrite Ep, Hm. reflexivity.
    + left. exists c. split; [exact Hn|]. apply filter_In. split; [exact Hin|].
      rewrite Ep. reflexivity.
Qed.

(** What [getAuthorizedChannels] lists for a user: exactly the public
    channels and the private channels the user has a membership row for.
    When a query fails the list is the fallback channel alone. *)
Theorem authorized_channels_are_public_or_joined (d : DB) (userId : UserId) (name : string) :
  (In name (map ChannelInfo.name (getAuthorizedChannels false d (js_string userId)))
   <-> exists c, In c (channels d) /\ Channels.channel_name c = name
                 /\ (Channels.is_private c = false \/ is_member d userId c = true))
  /\ map ChannelInfo.name (getAuthorizedChannels true d (js_string userId))
     = [FALLBACK_CHANNEL].
Proof. split; [apply authorized_names|reflexivity]. Qed.

Lemma existsb_name_In (name : string) (l : list ChannelInfo.t) :
  existsb (fun ch => String.eqb (ChannelInfo.name ch) name) l = true
  <-> In name (map ChannelInfo.name l).
Proof.
  rewrite existsb_exists, in_map_iff. split.
  - intros (c & Hin & He). apply String.eqb_eq in He. eauto.
  - intros (c & He & Hin). exists c. split; [exact Hin|]. apply String.eqb_eq. exact He.
Qed.

(** A [join_channel] for a channel that is not in the table, or that is
    private without a membership row for the user, is refused: the user
    gets one error and stays where they were. *)
Theorem join_needs_access
    (fails : list bool) (w : World) (ws : WsId) (userId : UserId) (client : Ref)
    (targetChannel : string) :
  session_of (mem w) ws userId client ->
  default false (head fails) = false ->
  (forall c, In c (channels (db w)) -> Channels.channel_name c = targetChannel ->
             Channels.is_private c = true /\ is_member (db w) userId c = false) ->
  handle fails ws (join_channel targetChannel) w
  = mkWorld (emit_all [Sent ws (Event.error ("Channel " +:+ targetChannel
                                               +:+ " is private or does not exist."))]
                      (mem w))
            (db w).
Proof.
  intros Hs Hf Hacc.
  assert (Hopen : is_open ws (mem w) = true) by apply (session_open _ _ _ _ Hs).
  rewrite (handle_session _ _ _ _ _ _ Hs). unfold handle_join.
  rewrite run_segment_deref.
  rewrite (run_segment_var _ ws userId client) by exact Hs.
  rewrite run_segment_await_try. rewrite Hf. cbn [exec fst snd bound_id default from_option Datatypes.id].
  rewrite world_eta.
  assert (Hno : existsb (fun ch => String.eqb (ChannelInfo.name ch) targetChannel)
                        (getAuthorizedChannels false (db w) (js_string userId)) = false).
  { apply not_true_iff_false. rewrite existsb_name_In.
    rewrite (authorized_names (db w) userId targetChannel).
    intros (c & Hin & Hn & Hc). destruct (Hacc c Hin Hn) as [Hp Hm].
    destruct Hc; congruence. }
  rewrite Hno. rewrite run_segment_reject, Hopen. reflexivity.
Qed.

Lemma join_needs_access_witness :
  handle [] 1%nat (join_channel "#nowhere") Sample.world
  = mkWorld (emit_all [Sent 1%nat (Event.error ("Channel " +:+ "#nowhere"
                                                 +:+ " is private or does not exist."))]
                      (mem Sample.world))
            (db Sample.world).
Proof.
  apply (join_needs_access [] Sample.world 1%nat "u-bob" 1%nat "#nowhere").
  - exact sample_session_bob.
  - reflexivity.
  - intros c Hin Hn. vm_compute in Hin.
    destruct Hin as [<-|[<-|[<-|[]]]]; discriminate Hn.
Defined.

(** ** Changing rooms *)

Lemma JsMap_set_same {V} (l : list (string * V)) k v :
  JsMap.get k l = Some v -> JsMap.set k v l = l.
Proof.
  unfold JsMap.get.
  induction l as [|[k0 v0] l IH]; simpl; [discriminate|].
  destruct (String.eqb k0 k) eqn:E; simpl.
  - intros [= ->]. reflexivity.
  - intros H. rewrite IH by exact H. reflexivity.
Qed.

Lemma JsSet_has_delete x s : JsSet.has x (JsSet.delete x s) = false.
Proof.
  unfold JsSet.has, JsSet.delete. induction s as [|y s IH]; simpl; [reflexivity|].
  destruct (String.eqb y x) eqn:E; simpl; [exact IH|].
  rewrite String.eqb_sym, E. exact IH.
Qed.

(** A server notice only writes frames (and draws an id). *)
Lemma notice_unless_dm_frame room content sid m :
  let m' := snd (notice_unless_dm room content sid m) in
  clients m' = clients m /\ heap m' = heap m /\ sockets m' = sockets m
  /\ bannedUsers m' = bannedUsers m /\ typingUsers m' = typingUsers m
  /\ exists os, out m' = out m ++ os.
Proof.
  cbv zeta. unfold notice_unless_dm. destruct (JS.startsWith room "DM:").
  - repeat (split; [reflexivity|]). exists []. rewrite app_nil_r. reflexivity.
  - unfold bind, randomUUID, Date_now, gets. rewrite broadcast_run.
    repeat (split; [reflexivity|]). eexists. reflexivity.
Qed.

(** Clearing the typing mark of a name in a room: afterwards the name is
    not in the room's typing set. *)
Lemma clear_typing_frame room name m :
  let m' := snd (clear_typing room name m) in
  clients m' = clients m /\ heap m' = heap m /\ sockets m' = sockets m
  /\ bannedUsers m' = bannedUsers m
  /\ (exists os, out m' = out m ++ os)
  /\ (forall s, JsMap.get room (typingUsers m') = Some s -> JsSet.has name s = false).
Proof.
  cbv zeta. unfold clear_typing, bind, gets.
  destruct (JsMap.get room (typingUsers m)) as [s0|] eqn:E.
  - destruct (JsSet.has name s0) eqn:Eh.
    + unfold modify. rewrite broadcast_run. cbn [snd emit_all set_typingUsers clients heap
        sockets bannedUsers out typingUsers].
      repeat (split; [reflexivity|]). split; [eexists; reflexivity|].
      intros s. rewrite JsMap_get_set. intros [= <-]. apply JsSet_has_delete.
    + cbn [snd ret]. repeat (split; [reflexivity|]).
      split; [exists []; rewrite app_nil_r; reflexivity|].
      intros s. rewrite E. intros [= <-]. exact Eh.
  - cbn [snd ret]. repeat (split; [reflexivity|]).
    split; [exists []; rewrite app_nil_r; reflexivity|].
    intros s. rewrite E. discriminate.
Qed.

Lemma session_of_ext m m' ws userId client :
  sockets m' = sockets m -> clients m' = clients m ->
  session_of m ws userId client -> session_of m' ws userId client.
Proof.
  intros Hs Hc (H1 & H2 & H3). unfold session_of, socket in *.
  rewrite Hs, Hc. auto.
Qed.

(** The room change of [join_channel] and [start_dm], when the three
    awaited calls are not made to fail by the environment: the session
    object takes the new room and keeps its other fields, the registry is
    as it was, the record's last-seen channel is the new room, the name no
    longer types in the old room, and the actor is sent the history of the
    new room. *)
Lemma change_room_run rest w ws userId client newRoom :
  session_of (mem w) ws userId client ->
  let oldRoom := Client.channel (deref_in (mem w) client) in
  JS.truthy newRoom = true ->
  String.eqb newRoom oldRoom = false ->
  let w' := fst (run_segment (false :: rest) (change_room ws client oldRoom newRoom) w) in
  let d' := with_users (update_where (fun u => String.eqb (Users.user_id u) userId)
                                     (set_last_seen_channel newRoom)) (db w) in
  db w' = d'
  /\ clients (mem w') = clients (mem w)
  /\ sockets (mem w') = sockets (mem w)
  /\ bannedUsers (mem w') = bannedUsers (mem w)
  /\ heap (mem w')
     = <[client := Client.with_channel newRoom (deref_in (mem w) client)]> (heap (mem w))
  /\ (forall s, JsMap.get oldRoom (typingUsers (mem w')) = Some s ->
                JsSet.has (Client.username (deref_in (mem w) client)) s = false)
  /\ In (Sent ws (Event.channel_change newRoom
                    (RoomData.messages
                       (getRoomData (default false (head rest)) d' newRoom))
                    (RoomData.pinnedMessage
                       (getRoomData (default false (head rest)) d' newRoom))
                    (getAuthorizedChannels (default false (head (tail rest))) d'
                                           (js_string userId))))
        (new_outputs w w')
  /\ exists os, out (mem w') = out (mem w) ++ os.
Proof.
  intros Hs oldRoom Htruthy Hne w' d'. subst w'.
  unfold change_room. rewrite Htruthy, Hne. cbn [negb orb].
  rewrite run_segment_deref, run_segment_step. cbn [mem db fst].
  set (c0 := deref_in (mem w) client).
  destruct (notice_unless_dm_frame oldRoom (Client.username c0 +:+ " has left the chat.")
              None (mem w)) as (Hc1 & Hh1 & Hs1 & Hb1 & Ht1 & os1 & Ho1).
  set (m1 := snd (notice_unless_dm oldRoom _ None (mem w))) in *.
  rewrite run_segment_deref. cbn [mem].
  assert (Hd1 : deref_in m1 client = c0) by (unfold deref_in; rewrite Hh1; reflexivity).
  rewrite Hd1. rewrite run_segment_step. cbn [mem db fst].
  destruct (clear_typing_frame oldRoom (Client.username c0) m1)
    as (Hc2 & Hh2 & Hs2 & Hb2 & (os2 & Ho2) & Hty2).
  set (m2 := snd (clear_typing oldRoom (Client.username c0) m1)) in *.
  unfold assign_channel. rewrite run_segment_modify. cbn [mem db].
  assert (Hd2 : deref_in m2 client = c0) by (unfold deref_in; rewrite Hh2, Hh1; reflexivity).
  rewrite Hd2.
  set (m3 := set_heap _ m2).
  assert (Hs3 : session_of m3 ws userId client).
  { apply (session_of_ext (mem w)); [|  |exact Hs].
    - unfold m3. cbn [set_heap sockets]. congruence.
    - unfold m3. cbn [set_heap clients]. congruence. }
  rewrite (run_segment_var _ ws userId client) by exact Hs3.
  unfold clients_set. rewrite run_segment_modify. cbn [mem db bound_id default from_option
                                                      Datatypes.id].
  assert (Hset : set_clients (JsMap.set userId client) m3 = m3).
  { unfold set_clients. rewrite (JsMap_set_same _ _ _ (proj2 (proj2 Hs3))).
    destruct m3. reflexivity. }
  rewrite Hset.
  rewrite run_segment_await_try.
  cbn [head default from_option Datatypes.id tail exec fst snd mem db].
  fold d'.
  rewrite run_segment_await_try. cbn [exec fst snd mem db].
  assert (Hs3' : session_of (mem (mkWorld m3 d')) ws userId client) by exact Hs3.
  rewrite (run_segment_var _ ws userId client) by exact Hs3'.
  rewrite run_segment_await_try.
  cbn [exec fst snd mem db bound_id default from_option Datatypes.id].
  rewrite run_segment_send. cbn [mem db].
  assert (Hopen3 : is_open ws m3 = true) by apply (session_open _ _ _ _ Hs3).
  rewrite Hopen3.
  set (frame := Sent ws (Event.channel_change newRoom _ _ _)).
  rewrite run_segment_deref, run_segment_step. cbn [mem db fst].
  set (m4 := emit_all [frame] m3).
  set (c4 := deref_in m4 client).
  destruct (notice_unless_dm_frame newRoom
              (Client.username c4 +:+ " has joined " +:+ newRoom +:+ ".") None m4)
    as (Hc5 & Hh5 & Hs5 & Hb5 & Ht5 & os5 & Ho5).
  set (m5 := snd (notice_unless_dm newRoom _ None m4)) in *.
  rewrite !run_segment_presence. cbn [mem db]. rewrite run_segment_done. cbn [fst mem db].
  cbn [emit_all clients sockets bannedUsers heap typingUsers].
  split; [reflexivity|].
  split; [rewrite Hc5; unfold m4, m3; cbn [emit_all set_heap clients]; congruence|].
  split; [rewrite Hs5; unfold m4, m3; cbn [emit_all set_heap sockets]; congruence|].
  split; [rewrite Hb5; unfold m4, m3; cbn [emit_all set_heap bannedUsers]; congruence|].
  split; [rewrite Hh5; unfold m4, m3; cbn [emit_all set_heap heap]; rewrite Hh2, Hh1;
          reflexivity|].
  split.
  { intros s. rewrite Ht5. unfold m4, m3. cbn [emit_all set_heap typingUsers].
    apply Hty2. }
  unfold new_outputs. cbn [mem]. rewrite !out_emit_all.
  rewrite Ho5. unfold m4. rewrite out_emit_all. unfold m3. cbn [set_heap out].
  rewrite Ho2, Ho1. rewrite <- !app_assoc. split.
  - rewrite skipn_app, skipn_all, Nat.sub_diag. cbn [app]. rewrite skipn_O.
    apply in_or_app. right. apply in_or_app. right. left. reflexivity.
  - eexists. reflexivity.
Qed.

(** A [join_channel] for a channel the user may see.  Joining the room the
    session is already in does nothing at all, not even an answer.
    Otherwise the session moves: its room becomes the target and its other
    fields stay, the registry is as it was, the record's last-seen channel
    is the target, the user's name no longer types in the old room, and the
    user is sent a [channel_change] with the history of the target. *)
Theorem join_channel_effects
    (listing_fails : bool) (rest : list bool)
    (w : World) (ws : WsId) (userId : UserId) (client : Ref) (targetChannel : string) :
  session_of (mem w) ws userId client ->
  JS.truthy targetChannel = true ->
  In targetChannel
     (map ChannelInfo.name (getAuthorizedChannels listing_fails (db w) (js_string userId))) ->
  let oldRoom := Client.channel (deref_in (mem w) client) in
  let w' := handle (listing_fails :: false :: rest) ws (join_channel targetChannel) w in
  let d' := with_users (update_where (fun u => String.eqb (Users.user_id u) userId)
                                     (set_last_seen_channel targetChannel)) (db w) in
  if String.eqb targetChannel oldRoom then w' = w
  else
    db w' = d'
    /\ clients (mem w') = clients (mem w)
    /\ heap (mem w')
       = <[client := Client.with_channel targetChannel (deref_in (mem w) client)]>
           (heap (mem w))
    /\ (forall s, JsMap.get oldRoom (typingUsers (mem w')) = Some s ->
                  JsSet.has (Client.username (deref_in (mem w) client)) s = false)
    /\ In (Sent ws (Event.channel_change targetChannel
                      (RoomData.messages
                         (getRoomData (default false (head rest)) d' targetChannel))
                      (RoomData.pinnedMessage
                         (getRoomData (default false (head rest)) d' targetChannel))
                      (getAuthorizedChannels (default false (head (tail rest))) d'
                                             (js_string userId))))
          (new_outputs w w').
Proof.
  intros Hs Htruthy Hin oldRoom w' d'. subst w'.
  rewrite (handle_session _ _ _ _ _ _ Hs). unfold handle_join.
  rewrite run_segment_deref.
  rewrite (run_segment_var _ ws userId client) by exact Hs.
  rewrite run_segment_await_try.
  cbn [head default from_option Datatypes.id tail exec fst snd bound_id]. rewrite world_eta.
  apply existsb_name_In in Hin. rewrite Hin. fold oldRoom.
  destruct (String.eqb targetChannel oldRoom) eqn:E.
  - unfold change_room. rewrite E, orb_true_r. rewrite run_segment_done. reflexivity.
  - pose proof (change_room_run rest w ws userId client targetChannel Hs Htruthy E) as H.
    cbv zeta in H. fold oldRoom in H.
    destruct H as (H1 & H2 & _ & _ & H5 & H6 & H7 & _). auto.
Qed.

Lemma join_channel_effects_witness :
  let w := Sample.world in
  let oldRoom := Client.channel (deref_in (mem w) 1%nat) in
  let w' := handle [false; false] 1%nat (join_channel "#random") w in
  let d' := with_users (update_where (fun u => String.eqb (Users.user_id u) "u-bob")
                                     (set_last_seen_channel "#random")) (db w) in
  if String.eqb "#random" oldRoom then w' = w
  else
    db w' = d'
    /\ clients (mem w') = clients (mem w)
    /\ heap (mem w')
       = <[1%nat := Client.with_channel "#random" (deref_in (mem w) 1%nat)]> (heap (mem w))
    /\ (forall s, JsMap.get oldRoom (typingUsers (mem w')) = Some s ->
                  JsSet.has (Client.username (deref_in (mem w) 1%nat)) s = false)
    /\ In (Sent 1%nat (Event.channel_change "#random"
                         (RoomData.messages (getRoomData (default false (head [])) d' "#random"))
                         (RoomData.pinnedMessage
                            (getRoomData (default false (head [])) d' "#random"))
                         (getAuthorizedChannels (default false (head (tail []))) d'
                                                (js_string "u-bob"))))
          (new_outputs w w').
Proof.
  apply (join_channel_effects false [] Sample.world 1%nat "u-bob" 1%nat "#random").
  - exact sample_session_bob.
  - reflexivity.
  - vm_compute. right. right. left. reflexivity.
Defined.

(** ** Direct-message rooms *)

Lemma prefix_append (p s : string) : String.prefix p (p +:+ s) = true.
Proof.
  induction p as [|a p IH]; simpl; [destruct s; reflexivity|].
  destruct (ascii_dec a a); [exact IH|congruence].
Qed.

Lemma dm_room_prefix id1 id2 : JS.startsWith (getDmRoomName id1 id2) "DM:" = true.
Proof.
  unfold getDmRoomName, JS.startsWith.
  destruct (String.leb id1 id2); apply prefix_append.
Qed.

(** The two participants of a direct conversation compute the same room
    name, whoever starts it, and the name marks the room as a direct one. *)
Theorem getDmRoomName_symmetric (id1 id2 : string) :
  getDmRoomName id1 id2 = getDmRoomName id2 id1
  /\ JS.startsWith (getDmRoomName id1 id2) "DM:" = true.
Proof.
  split; [|apply dm_room_prefix].
  unfold getDmRoomName.
  destruct (String.leb id1 id2) eqn:E1, (String.leb id2 id1) eqn:E2; try reflexivity.
  - rewrite (String.leb_antisym _ _ E1 E2). reflexivity.
  - destruct (String.leb_total id1 id2); congruence.
Qed.

Lemma getRoomData_dm fail d room :
  JS.startsWith room "DM:" = true -> getRoomData fail d room = empty_room.
Proof. intros H. unfold getRoomData. rewrite H. reflexivity. Qed.




(** bob opens a conversation with alice and alice with bob: both sessions
    end up in the room [DM:u-alice-u-bob]. *)
Example both_sides_of_a_dm :
  let w1 := handle [] 1%nat (start_dm (Some "u-alice")) Sample.world in
  let w2 := handle [] 0%nat (start_dm (Some "u-bob")) w1 in
  map (fun entry => (fst entry, Client.channel (deref_in (mem w2) (snd entry))))
      (clients (mem w2))
  = [("u-alice", "DM:u-alice-u-bob"); ("u-bob", "DM:u-alice-u-bob");
     ("u-carol", "#general")].
Proof. vm_compute. reflexivity. Qed.

(** Direct-message rooms keep nothing.  A message of the send path aimed
    at a room whose name starts with [DM:] leaves every table as it was,
    whatever it carries, and the history served for such a room is always
    empty, with no pinned message. *)
Theorem dm_rooms_are_volatile
    (fails : list bool) (w : World) (ws : WsId) (userId : UserId) (client : Ref)
    (ev : ClientEvent) (room : string) (content : option string)
    (attachment : option Json) (parent : option string) :
  session_of (mem w) ws userId client ->
  send_event ev (mem w) client room content attachment parent ->
  JS.startsWith room "DM:" = true ->
  JS.startsWith (trimmed content) "/" = false ->
  db (handle fails ws ev w) = db w
  /\ forall fail d, getRoomData fail d room = RoomData.mk [] None.
Proof.
  intros Hs Hev Hdm Hcmd. split; [|intros fail d; apply getRoomData_dm; exact Hdm].
  assert (Hbody : db (fst (run_segment fails
                             (handle_send ws client userId (Some room) content attachment
                                          parent) w)) = db w).
  { unfold handle_send. rewrite Hcmd, Hdm. cbn [negb].
    destruct (negb (String.eqb (trimmed content) "") || bool_decide (is_Some attachment)).
    - rewrite run_segment_step. cbn [mem db fst].
      rewrite run_segment_deref, run_segment_now, run_segment_send. cbn [mem db].
      rewrite run_segment_step. cbn [mem db fst].
      rewrite run_segment_broadcast. cbn [mem db]. rewrite run_segment_done. reflexivity.
    - rewrite run_segment_done. reflexivity. }
  rewrite (handle_session _ _ _ _ _ _ Hs).
  destruct Hev as [[-> Hroom]| ->].
  - rewrite <- Hroom. exact Hbody.
  - exact Hbody.
Qed.

Lemma dm_rooms_are_volatile_witness :
  db (handle [] 1%nat (send_dm (Some "DM:u-alice-u-bob") (Some "psst") None None)
             Sample.world)
  = db Sample.world
  /\ forall fail d, getRoomData fail d "DM:u-alice-u-bob" = RoomData.mk [] None.
Proof.
  apply (dm_rooms_are_volatile [] Sample.world 1%nat "u-bob" 1%nat
           (send_dm (Some "DM:u-alice-u-bob") (Some "psst") None None)
           "DM:u-alice-u-bob" (Some "psst") None None).
  - exact sample_session_bob.
  - right. reflexivity.
  - reflexivity.
  - reflexivity.
Defined.

(* ===================================================================== *)
(** * The broadcast router and the close listener                         *)
(* ===================================================================== *)

Lemma in_broadcast_targets room sid m s :
  In s (broadcast_targets room sid m)
  <-> exists entry, In entry (clients m)
        /\ Client.ws (deref_in m (snd entry)) = s
        /\ Client.channel (deref_in m (snd entry)) = room
        /\ sender_differs (fst entry) sid = true
        /\ is_open s m = true.
Proof.
  unfold broadcast_targets.
  induction (clients m) as [|entry l IH]; cbn [omap list_omap].
  - split; [intros []|intros (e & [] & _)].
  - cbv zeta.
    destruct (String.eqb _ room && sender_differs (fst entry) sid
              && is_open (Client.ws (deref_in m (snd entry))) m) eqn:E.
    + cbn [In]. rewrite IH. split.
      * intros [<-|(e & Hin & H)].
        -- exists entry. apply andb_true_iff in E. destruct E as [E E3].
           apply andb_true_iff in E. destruct E as [E1 E2].
           apply String.eqb_eq in E1. cbn [In]. auto.
        -- exists e. cbn [In]. tauto.
      * intros (e & [<-|Hin] & H); [left; tauto|right; exists e; tauto].
    + rewrite IH. split.
      * intros (e & Hin & H). exists e. cbn [In]. tauto.
      * intros (e & [<-|Hin] & Hw & Hr & Hd & Ho); [|exists e; tauto].
        subst s. apply String.eqb_eq in Hr. rewrite Hr, Hd, Ho in E. discriminate.
Qed.

(** [broadcast] writes the frame to the sockets of the sessions that are in
    the room, are not the sender and have an open socket, once per such
    session and in registry order; it writes to nobody else and changes
    nothing but the log of outputs. *)
Theorem broadcast_stays_in_the_room
    (room : string) (e : Event.t) (senderId : option UserId) (m : Mem) :
  exists targets : list WsId,
    snd (broadcast room e senderId m) = emit_all (map (fun s => Sent s e) targets) m
    /\ (length targets <= length (clients m))%nat
    /\ forall s, In s targets
                 <-> exists entry, In entry (clients m)
                       /\ Client.ws (deref_in m (snd entry)) = s
                       /\ Client.channel (deref_in m (snd entry)) = room
                       /\ sender_differs (fst entry) senderId = true
                       /\ is_open s m = true.
Proof.
  exists (broadcast_targets room senderId m).
  split; [rewrite broadcast_run; reflexivity|].
  split; [|apply in_broadcast_targets].
  unfold broadcast_targets. induction (clients m) as [|entry l IH];
    cbn [omap list_omap length]; [reflexivity|].
  cbv zeta. destruct (_ && _ && _); cbn [length]; lia.
Qed.

Lemma broadcast_written_to_open room e sid m :
  Forall (written_to_open m) (map (fun s => Sent s e) (broadcast_targets room sid m)).
Proof.
  apply List.Forall_forall. intros o Hin. apply in_map_iff in Hin.
  destruct Hin as (s & <- & Hs). apply in_broadcast_targets in Hs.
  destruct Hs as (_ & _ & _ & _ & _ & Ho). exact Ho.
Qed.

Lemma presence_written_to_open room m : Forall (written_to_open m) (presence_outputs room m).
Proof. apply broadcast_written_to_open. Qed.

Lemma written_to_open_ext m m' os :
  sockets m' = sockets m -> Forall (written_to_open m) os -> Forall (written_to_open m') os.
Proof.
  intros Hs. apply List.Forall_impl. intros [s e|]; cbn; [|auto].
  rewrite (is_open_ext s m m' Hs). auto.
Qed.

Lemma notice_unless_dm_open room content sid m :
  exists os, out (snd (notice_unless_dm room content sid m)) = out m ++ os
             /\ Forall (written_to_open m) os.
Proof.
  unfold notice_unless_dm. destruct (JS.startsWith room "DM:").
  - exists []. rewrite app_nil_r. split; [reflexivity|constructor].
  - unfold bind, randomUUID, Date_now, gets. rewrite broadcast_run.
    eexists. split; [reflexivity|].
    apply (written_to_open_ext (set_drawn (S (drawn m)) m)); [reflexivity|].
    apply broadcast_written_to_open.
Qed.

Lemma clear_typing_open room name m :
  exists os, out (snd (clear_typing room name m)) = out m ++ os
             /\ Forall (written_to_open m) os.
Proof.
  unfold clear_typing, bind, gets.
  destruct (JsMap.get room (typingUsers m)) as [s0|];
    [|exists []; rewrite app_nil_r; split; [reflexivity|constructor]].
  destruct (JsSet.has name s0);
    [|exists []; rewrite app_nil_r; split; [reflexivity|constructor]].
  unfold modify. rewrite broadcast_run. eexists. split; [reflexivity|].
  apply (written_to_open_ext (set_typingUsers (JsMap.set room (JsSet.delete name s0)) m));
    [reflexivity|].
  apply broadcast_written_to_open.
Qed.

Lemma bind_run {A B} (c : Sync A) (f : A -> Sync B) m :
  bind c f m = f (fst (c m)) (snd (c m)).
Proof. unfold bind. destruct (c m). reflexivity. Qed.

Lemma readyState_after_update ws f m s0 :
  sockets m !! ws = Some s0 ->
  readyState_of ws (update_socket ws f m) = Some (Socket.readyState (f s0)).
Proof.
  intros H. unfold update_socket, readyState_of, socket. rewrite H.
  cbn [set_sockets sockets].
  rewrite list_lookup_insert_eq by (apply lookup_lt_Some in H; exact H). reflexivity.
Qed.

Lemma not_written_to_closed m ws os :
  is_open ws m = false -> Forall (written_to_open m) os ->
  forall o, In o os -> exists s e, o = Sent s e /\ s <> ws.
Proof.
  intros Hc Hall o Hin. rewrite List.Forall_forall in Hall. specialize (Hall o Hin).
  destruct o as [s e|]; [|destruct Hall].
  exists s, e. split; [reflexivity|]. intros ->. cbn in Hall. congruence.
Qed.

(** The close listener.  The socket is closed.  When the registry holds a
    session under the id the socket carries, that session is removed
    (whichever connection it belongs to), the room is told, the name stops
    typing there, presence is recomputed for the room, and no frame is
    written to the closed socket.  Otherwise nothing else happens. *)
Theorem close_listener_effects (ws : WsId) (m : Mem) (s0 : Socket.t) :
  sockets m !! ws = Some s0 ->
  let m' := snd (on_close ws m) in
  readyState_of ws m' = Some CLOSED
  /\ heap m' = heap m
  /\ bannedUsers m' = bannedUsers m
  /\ match Socket.field_currentUserId s0 with
     | js_string userId =>
         match JsMap.get userId (clients m) with
         | Some client =>
             let room := Client.channel (deref_in m client) in
             clients m' = JsMap.delete userId (clients m)
             /\ JsMap.has userId (clients m') = false
             /\ (forall s, JsMap.get room (typingUsers m') = Some s ->
                           JsSet.has (Client.username (deref_in m client)) s = false)
             /\ (exists before, out m' = out m ++ before ++ presence_outputs room m')
             /\ (forall o, In o (skipn (length (out m)) (out m')) ->
                           exists s e, o = Sent s e /\ s <> ws)
         | None => clients m' = clients m /\ out m' = out m
         end
     | _ => clients m' = clients m /\ out m' = out m
     end.
Proof.
  intros Hsock m'. subst m'. unfold on_close.
  set (closed := fun s => Socket.mk CLOSED (Socket.var_currentUserId s)
                                    (Socket.field_currentUserId s)).
  rewrite bind_run. cbn [modify fst snd].
  set (m1 := update_socket ws closed m).
  destruct (update_socket_frame ws closed m) as (Hc1 & Hh1 & Hb1 & Ht1 & Ho1 & _).
  fold m1 in Hc1, Hh1, Hb1, Ht1, Ho1.
  assert (Hrs1 : readyState_of ws m1 = Some CLOSED)
    by apply (readyState_after_update ws closed m s0 Hsock).
  assert (Hclosed1 : is_open ws m1 = false) by (unfold is_open; rewrite Hrs1; reflexivity).
  assert (Hfield : fst (get_ws_currentUserId ws m1) = Socket.field_currentUserId s0).
  { unfold get_ws_currentUserId, gets, socket, m1, update_socket. rewrite Hsock.
    cbn [fst set_sockets sockets].
    rewrite list_lookup_insert_eq by (apply lookup_lt_Some in Hsock; exact Hsock).
    reflexivity. }
  rewrite bind_run, Hfield.
  change (snd (get_ws_currentUserId ws m1)) with m1.
  destruct (Socket.field_currentUserId s0) as [| |userId];
    try (unfold ret; cbn [snd]; repeat (split; [assumption|]); assumption).
  rewrite bind_run. unfold clients_get. cbn [gets fst snd]. rewrite Hc1.
  destruct (JsMap.get userId (clients m)) as [client|];
    [|unfold ret; cbn [snd]; repeat (split; [assumption || reflexivity|]); assumption].
  rewrite bind_run. unfold deref. cbn [gets fst snd].
  assert (Hd1 : deref_in m1 client = deref_in m client)
    by (unfold deref_in; rewrite Hh1; reflexivity).
  rewrite Hd1. set (c := deref_in m client). set (room := Client.channel c).
  rewrite bind_run.
  destruct (notice_unless_dm_frame room (Client.username c +:+ " has disconnected.") None m1)
    as (Hc2 & Hh2 & Hs2 & Hb2 & Ht2 & _).
  destruct (notice_unless_dm_open room (Client.username c +:+ " has disconnected.") None m1)
    as (os2 & Ho2 & Hw2).
  set (m2 := snd (notice_unless_dm room _ None m1)) in *.
  rewrite bind_run.
  destruct (clear_typing_frame room (Client.username c) m2)
    as (Hc3 & Hh3 & Hs3 & Hb3 & _ & Hty3).
  destruct (clear_typing_open room (Client.username c) m2) as (os3 & Ho3 & Hw3).
  set (m3 := snd (clear_typing room (Client.username c) m2)) in *.
  rewrite bind_run. unfold clients_delete. cbn [modify fst snd].
  rewrite broadcastPresence_run. cbn [snd].
  set (m4 := set_clients (JsMap.delete userId) m3).
  assert (Hs4 : sockets m4 = sockets m1) by (unfold m4; cbn [set_clients sockets]; congruence).
  cbn [emit_all clients heap bannedUsers typingUsers out].
  split.
  { unfold readyState_of, socket. cbn [emit_all sockets]. rewrite Hs4. exact Hrs1. }
  split; [unfold m4; cbn [set_clients heap]; congruence|].
  split; [unfold m4; cbn [set_clients bannedUsers]; congruence|].
  assert (Hc4 : clients m4 = JsMap.delete userId (clients m)).
  { unfold m4. cbn [set_clients clients]. congruence. }
  split; [exact Hc4|].
  split; [rewrite Hc4; apply JsMap_has_delete|].
  split; [unfold m4; cbn [set_clients typingUsers]; exact Hty3|].
  assert (Hout : out m4 = out m ++ os2 ++ os3).
  { unfold m4. cbn [set_clients out]. rewrite Ho3, Ho2, Ho1, <- app_assoc. reflexivity. }
  split.
  { exists (os2 ++ os3). rewrite Hout, <- !app_assoc.
    rewrite (presence_outputs_ext room m4 (emit_all (presence_outputs room m4) m4));
      reflexivity. }
  rewrite Hout, <- !app_assoc.
  rewrite skipn_app, skipn_all, Nat.sub_diag. cbn [app]. rewrite skipn_O.
  apply (not_written_to_closed m1 ws); [exact Hclosed1|].
  apply Forall_app. split; [exact Hw2|].
  apply Forall_app. split.
  - apply (written_to_open_ext m2); [congruence|exact Hw3].
  - apply (written_to_open_ext m4); [congruence|]. apply presence_written_to_open.
Qed.

Lemma close_listener_effects_witness :
  let ws := 1%nat in
  let m := Sample.memory in
  let m' := snd (on_close ws m) in
  readyState_of ws m' = Some CLOSED
  /\ heap m' = heap m
  /\ bannedUsers m' = bannedUsers m
  /\ (let room := Client.channel (deref_in m 1%nat) in
      clients m' = JsMap.delete "u-bob" (clients m)
      /\ JsMap.has "u-bob" (clients m') = false
      /\ (forall s, JsMap.get room (typingUsers m') = Some s ->
                    JsSet.has (Client.username (deref_in m 1%nat)) s = false)
      /\ (exists before, out m' = out m ++ before ++ presence_outputs room m')
      /\ (forall o, In o (skipn (length (out m)) (out m')) ->
                    exists s e, o = Sent s e /\ s <> ws)).
Proof.
  exact (close_listener_effects 1%nat Sample.memory
           (Socket.mk OPEN (Some "u-bob") (js_string "u-bob")) eq_refl).
Defined.

(* ===================================================================== *)
(** * Typing marks                                                        *)
(* ===================================================================== *)

Lemma JsSet_has_add x s : JsSet.has x (JsSet.add x s) = true.
Proof.
  unfold JsSet.add. destruct (JsSet.has x s) eqn:E; [exact E|].
  unfold JsSet.has. rewrite existsb_app. cbn. rewrite String.eqb_refl.
  apply orb_true_r.
Qed.

Lemma JsSet_has_add_other x y s : x <> y -> JsSet.has y (JsSet.add x s) = JsSet.has y s.
Proof.
  intros Hne. unfold JsSet.add. destruct (JsSet.has x s); [reflexivity|].
  unfold JsSet.has. rewrite existsb_app. cbn.
  replace (String.eqb y x) with false; [rewrite !orb_false_r; reflexivity|].
  symmetry. apply String.eqb_neq. congruence.
Qed.

Lemma JsSet_has_delete_other x y s :
  x <> y -> JsSet.has y (JsSet.delete x s) = JsSet.has y s.
Proof.
  intros Hne. unfold JsSet.has, JsSet.delete.
  induction s as [|z s IH]; simpl; [reflexivity|].
  destruct (String.eqb z x) eqn:E; simpl.
  - apply String.eqb_eq in E. subst z.
    replace (String.eqb y x) with false; [exact IH|].
    symmetry. apply String.eqb_neq. congruence.
  - rewrite IH. reflexivity.
Qed.

Lemma JsMap_set_set {V} (l : list (string * V)) k v v' :
  JsMap.set k v (JsMap.set k v' l) = JsMap.set k v l.
Proof.
  induction l as [|[k0 v0] l IH]; simpl.
  - rewrite String.eqb_refl. reflexivity.
  - destruct (String.eqb k0 k) eqn:E; simpl; rewrite E; [reflexivity|].
    rewrite IH. reflexivity.
Qed.

Lemma JsSet_delete_idem x s : JsSet.delete x (JsSet.delete x s) = JsSet.delete x s.
Proof.
  unfold JsSet.delete. induction s as [|y l IH]; simpl; [reflexivity|].
  destruct (String.eqb y x) eqn:E; simpl; [exact IH|]. rewrite E. simpl.
  rewrite IH. reflexivity.
Qed.

(** A [typing_update] sets or clears the mark of the session's display
    name in the typing set of its room: afterwards the name is in the set
    exactly when the event said so, every other name is in it exactly when
    it was before, and the set is sent to the others in the room and then
    to the sender.  Repeating the event changes nothing more.  The tables
    are not touched. *)
Theorem typing_update_effects
    (fails : list bool) (w : World) (ws : WsId) (userId : UserId) (client : Ref)
    (isTyping : bool) :
  session_of (mem w) ws userId client ->
  let room := Client.channel (deref_in (mem w) client) in
  let name := Client.username (deref_in (mem w) client) in
  let before := default [] (JsMap.get room (typingUsers (mem w))) in
  let w' := handle fails ws (typing_update isTyping) w in
  exists after,
    JsMap.get room (typingUsers (mem w')) = Some after
    /\ JsSet.has name after = isTyping
    /\ (forall other, other <> name -> JsSet.has other after = JsSet.has other before)
    /\ new_outputs w w'
       = map (fun s => Sent s (Event.typing_status room after))
             (broadcast_targets room (Some userId) (mem w))
         ++ [Sent ws (Event.typing_status room after)]
    /\ db w' = db w
    /\ typingUsers (mem (handle fails ws (typing_update isTyping) w'))
       = typingUsers (mem w').
Proof.
  intros Hs room name before w'.
  set (after := if isTyping && negb (JsSet.has name before)
                then JsSet.add name before
                else if negb isTyping then JsSet.delete name before else before).
  assert (Hrun : forall w0, session_of (mem w0) ws userId client ->
            handle fails ws (typing_update isTyping) w0
            = let c := deref_in (mem w0) client in
              let b := default [] (JsMap.get (Client.channel c) (typingUsers (mem w0))) in
              let a := if isTyping && negb (JsSet.has (Client.username c) b)
                       then JsSet.add (Client.username c) b
                       else if negb isTyping then JsSet.delete (Client.username c) b
                       else b in
              let m1 := set_typingUsers (JsMap.set (Client.channel c) a) (mem w0) in
              mkWorld (emit_all
                         (map (fun s => Sent s (Event.typing_status (Client.channel c) a))
                              (broadcast_targets (Client.channel c) (Some userId) m1)
                          ++ [Sent ws (Event.typing_status (Client.channel c) a)]) m1)
                      (db w0)).
  { intros w0 Hs0. rewrite (handle_session _ _ _ _ _ _ Hs0). unfold handle_typing.
    rewrite run_segment_deref, run_segment_gets. cbv zeta.
    rewrite run_segment_modify. cbn [mem db].
    match goal with |- context [set_typingUsers ?f (mem w0)] =>
      set (m1 := set_typingUsers f (mem w0)) end.
    assert (Hs1 : session_of m1 ws userId client).
    { apply (session_of_ext (mem w0)); [reflexivity|reflexivity|exact Hs0]. }
    rewrite (run_segment_var _ ws userId client) by exact Hs1.
    rewrite run_segment_broadcast, run_segment_send. cbn [mem db].
    rewrite is_open_emit_all, (session_open _ _ _ _ Hs1), emit_all_app.
    rewrite run_segment_done. reflexivity. }
  assert (Hhas : JsSet.has name after = isTyping).
  { unfold after. destruct isTyping; cbn [andb negb].
    - destruct (JsSet.has name before) eqn:E; cbn [negb]; [exact E|apply JsSet_has_add].
    - apply JsSet_has_delete. }
  exists after. subst w'. rewrite (Hrun w Hs). cbv zeta. fold room name before after.
  cbn [mem db emit_all typingUsers set_typingUsers].
  split; [apply JsMap_get_set|].
  split; [exact Hhas|].
  split.
  { intros other Hne. unfold after. destruct isTyping; cbn [andb negb].
    - destruct (JsSet.has name before); cbn [negb]; [reflexivity|].
      apply JsSet_has_add_other. congruence.
    - apply JsSet_has_delete_other. congruence. }
  split.
  { apply new_outputs_app. cbn [mem]. rewrite out_emit_all. cbn [set_typingUsers out].
    reflexivity. }
  split; [reflexivity|].
  set (m1 := set_typingUsers (JsMap.set room after) (mem w)).
  set (w1 := mkWorld (emit_all _ m1) (db w)).
  assert (Hs1 : session_of (mem w1) ws userId client).
  { apply (session_of_ext (mem w)); [reflexivity|reflexivity|exact Hs]. }
  rewrite (Hrun w1 Hs1). cbv zeta.
  change (deref_in (mem w1) client) with (deref_in (mem w) client). fold room name.
  cbn [mem emit_all typingUsers set_typingUsers w1 m1].
  rewrite JsMap_get_set. cbn [default from_option Datatypes.id].
  rewrite JsMap_set_set. f_equal.
  destruct isTyping; cbn [andb negb].
  - rewrite Hhas. reflexivity.
  - unfold after. cbn [andb negb]. apply JsSet_delete_idem.
Qed.

Lemma typing_update_effects_witness :
  let w := Sample.world in
  let room := Client.channel (deref_in (mem w) 1%nat) in
  let name := Client.username (deref_in (mem w) 1%nat) in
  let before := default [] (JsMap.get room (typingUsers (mem w))) in
  let w' := handle [] 1%nat (typing_update true) w in
  exists after,
    JsMap.get room (typingUsers (mem w')) = Some after
    /\ JsSet.has name after = true
    /\ (forall other, other <> name -> JsSet.has other after = JsSet.has other before)
    /\ new_outputs w w'
       = map (fun s => Sent s (Event.typing_status room after))
             (broadcast_targets room (Some "u-bob") (mem w))
         ++ [Sent 1%nat (Event.typing_status room after)]
    /\ db w' = db w
    /\ typingUsers (mem (handle [] 1%nat (typing_update true) w')) = typingUsers (mem w').
Proof.
  exact (typing_update_effects [] Sample.world 1%nat "u-bob" 1%nat true sample_session_bob).
Defined.

(* ===================================================================== *)
(** * The commands [/status], [/pin] and [/unpin]                         *)
(* ===================================================================== *)

(** [/status].  The argument is lower-cased and defaults to [online]; only
    [online], [away] and [dnd] are accepted, anything else is answered with
    an error and changes nothing.  An accepted status is written to the
    session object at once and then to the record; when that UPDATE fails
    the session keeps the new status, the record keeps the old one, and
    nobody is told but the actor, who gets the generic error. *)
Theorem status_command_effects
    (fails : list bool) (w : World) (args : list string)
    (client : Ref) (userId : UserId) (ws : WsId) :
  session_of (mem w) ws userId client ->
  let room := Client.channel (deref_in (mem w) client) in
  let newStatus := match JS.or_null (head args) with
                   | Some a => JS.toLowerCase a
                   | None => "online"
                   end in
  let w' := command fails "/status" args client userId ws w in
  let m1 := set_heap (fun h => <[client := Client.with_status newStatus
                                             (deref_in (mem w) client)]> h) (mem w) in
  if existsb (String.eqb newStatus) ["online"; "away"; "dnd"] then
    heap (mem w') = heap m1
    /\ clients (mem w') = clients (mem w)
    /\ if default false (head fails) then
         db w' = db w
         /\ new_outputs w w' = [Sent ws (Event.error "Internal error processing request.")]
       else
         db w' = with_users (update_where (fun u => String.eqb (Users.user_id u) userId)
                                          (set_current_status newStatus)) (db w)
         /\ new_outputs w w'
            = presence_outputs room m1
              ++ [Sent ws (Event.notification
                             ("Your status is now set to " +:+ newStatus +:+ "."))]
  else
    w' = mkWorld (emit_all [Sent ws (Event.error
                                       "Invalid status. Use: online, away, or dnd.")]
                           (mem w))
                 (db w).
Proof.
  intros Hs room newStatus w' m1. subst w'. unfold command, handleCommand.
  rewrite run_segment_deref. cbv zeta.
  change (String.eqb "/status" "/pin") with false.
  change (String.eqb "/status" "/unpin") with false.
  change (String.eqb "/status" "/kick" || String.eqb "/status" "/ban") with false.
  change (String.eqb "/status" "/status") with true. cbv beta iota.
  fold newStatus.
  assert (Hopen : is_open ws (mem w) = true) by apply (session_open _ _ _ _ Hs).
  destruct (existsb (String.eqb newStatus) ["online"; "away"; "dnd"]); cbn [negb];
    cbv beta iota.
  - unfold assign_status. rewrite run_segment_modify. cbn [mem db]. fold m1.
    rewrite run_segment_await_try. cbn [exec mem db].
    destruct (default false (head fails)); cbn [fst snd].
    + rewrite run_segment_internal_error. cbn [fst mem db emit_all heap clients].
      split; [reflexivity|]. split; [reflexivity|]. split; [reflexivity|].
      apply new_outputs_app. cbn [mem]. rewrite out_emit_all.
      change (is_open ws m1) with (is_open ws (mem w)). rewrite Hopen. reflexivity.
    + fold room. rewrite run_segment_presence, run_segment_send. cbn [mem db].
      rewrite run_segment_done. cbn [fst mem db emit_all heap clients].
      split; [reflexivity|]. split; [reflexivity|]. split; [reflexivity|].
      apply new_outputs_app. cbn [mem]. rewrite !out_emit_all.
      rewrite is_open_emit_all.
      change (is_open ws m1) with (is_open ws (mem w)). rewrite Hopen.
      rewrite <- app_assoc. reflexivity.
  - rewrite run_segment_reject, Hopen. reflexivity.
Qed.

Lemma status_command_effects_witness :
  let w := Sample.world in
  let room := Client.channel (deref_in (mem w) 1%nat) in
  let newStatus := match JS.or_null (head ["DND"]) with
                   | Some a => JS.toLowerCase a
                   | None => "online"
                   end in
  let w' := command [] "/status" ["DND"] 1%nat "u-bob" 1%nat w in
  let m1 := set_heap (fun h => <[1%nat := Client.with_status newStatus
                                            (deref_in (mem w) 1%nat)]> h) (mem w) in
  if existsb (String.eqb newStatus) ["online"; "away"; "dnd"] then
    heap (mem w') = heap m1
    /\ clients (mem w') = clients (mem w)
    /\ if default false (head []) then
         db w' = db w
         /\ new_outputs w w' = [Sent 1%nat (Event.error "Internal error processing request.")]
       else
         db w' = with_users (update_where (fun u => String.eqb (Users.user_id u) "u-bob")
                                          (set_current_status newStatus)) (db w)
         /\ new_outputs w w'
            = presence_outputs room m1
              ++ [Sent 1%nat (Event.notification
                                ("Your status is now set to " +:+ newStatus +:+ "."))]
  else
    w' = mkWorld (emit_all [Sent 1%nat (Event.error
                                          "Invalid status. Use: online, away, or dnd.")]
                           (mem w))
                 (db w).
Proof.
  exact (status_command_effects [] Sample.world ["DND"] 1%nat "u-bob" 1%nat
           sample_session_bob).
Defined.

(** [/pin].  The command needs the Admin role, and reads the message id
    from its second argument (the first is skipped).  The message must be
    in the actor's room.  When it is, the room's pinned reference becomes
    that id and no other channel row changes; the summary of the message
    goes to everyone in the room and a confirmation to the actor.  In every
    other case the actor gets an error and the tables are untouched. *)
Theorem pin_command_effects
    (rest : list bool) (w : World) (args : list string)
    (client : Ref) (userId : UserId) (ws : WsId) :
  session_of (mem w) ws userId client ->
  let room := Client.channel (deref_in (mem w) client) in
  let role := Client.role (deref_in (mem w) client) in
  let w' := command (false :: false :: rest) "/pin" args client userId ws w in
  let refused reason := w' = mkWorld (emit_all [Sent ws (Event.error reason)] (mem w)) (db w) in
  if negb (hasPermission role Admin) then refused "Permission denied. Requires Admin role."
  else
    match JS.or_null (head (tail args)) with
    | None => refused "Usage: /pin [messageId]"
    | Some mid =>
        match message_in_room (db w) mid room with
        | None => refused "Message not found in this channel."
        | Some msg =>
            db w' = with_channels
                      (update_where (fun c => String.eqb (Channels.channel_name c) room)
                                    (set_pinned (Some mid))) (db w)
            /\ new_outputs w w'
               = map (fun s => Sent s (Event.update_pinned_message
                                         (Some (pinned_summary msg))))
                     (broadcast_targets room None (mem w))
                 ++ [Sent ws (Event.notification "Message pinned successfully.")]
        end
    end.
Proof.
  intros Hs room role w' refused. subst w' refused. unfold command, handleCommand.
  rewrite run_segment_deref. cbv zeta.
  change (String.eqb "/pin" "/pin") with true. cbv beta iota. fold room role.
  assert (Hopen : is_open ws (mem w) = true) by apply (session_open _ _ _ _ Hs).
  destruct (negb (hasPermission role Admin)).
  { rewrite run_segment_reject, Hopen. reflexivity. }
  destruct (JS.or_null (head (tail args))) as [mid|].
  2: { rewrite run_segment_reject, Hopen. reflexivity. }
  rewrite run_segment_await.
  cbn [head default from_option Datatypes.id tail exec fst snd]. rewrite world_eta.
  unfold message_in_room.
  destruct (select_where _ (messages (db w))) as [|msg more]; cbn [head].
  { rewrite run_segment_reject, Hopen. reflexivity. }
  rewrite run_segment_await.
  cbn [head default from_option Datatypes.id tail exec fst snd mem db].
  rewrite run_segment_broadcast, run_segment_send. cbn [mem db].
  rewrite is_open_emit_all, Hopen, emit_all_app, run_segment_done. cbn [fst mem db].
  split; [reflexivity|]. apply new_outputs_app. reflexivity.
Qed.

Lemma pin_command_effects_witness :
  let w := Sample.world in
  let room := Client.channel (deref_in (mem w) 0%nat) in
  let role := Client.role (deref_in (mem w) 0%nat) in
  let w' := command [false; false] "/pin" ["x"; "m2"] 0%nat "u-alice" 0%nat w in
  let refused reason :=
    w' = mkWorld (emit_all [Sent 0%nat (Event.error reason)] (mem w)) (db w) in
  if negb (hasPermission role Admin) then refused "Permission denied. Requires Admin role."
  else
    match JS.or_null (head (tail ["x"; "m2"])) with
    | None => refused "Usage: /pin [messageId]"
    | Some mid =>
        match message_in_room (db w) mid room with
        | None => refused "Message not found in this channel."
        | Some msg =>
            db w' = with_channels
                      (update_where (fun c => String.eqb (Channels.channel_name c) room)
                                    (set_pinned (Some mid))) (db w)
            /\ new_outputs w w'
               = map (fun s => Sent s (Event.update_pinned_message
                                         (Some (pinned_summary msg))))
                     (broadcast_targets room None (mem w))
                 ++ [Sent 0%nat (Event.notification "Message pinned successfully.")]
        end
    end.
Proof.
  exact (pin_command_effects [] Sample.world ["x"; "m2"] 0%nat "u-alice" 0%nat
           sample_session_alice).
Defined.

(** A message id given as the only argument is not read. *)
Example pin_with_one_argument :
  new_outputs Sample.world (command [] "/pin" ["m2"] 0%nat "u-alice" 0%nat Sample.world)
  = [Sent 0%nat (Event.error "Usage: /pin [messageId]")].
Proof. vm_compute. reflexivity. Qed.

(** [/unpin].  With the Admin role, the pinned reference of the actor's
    room is cleared, whatever it was, and no other channel row changes;
    everyone in the room is told.  Without it, the actor gets an error and
    the tables are untouched. *)
Theorem unpin_command_effects
    (rest : list bool) (w : World) (args : list string)
    (client : Ref) (userId : UserId) (ws : WsId) :
  session_of (mem w) ws userId client ->
  let room := Client.channel (deref_in (mem w) client) in
  let w' := command (false :: rest) "/unpin" args client userId ws w in
  if hasPermission (Client.role (deref_in (mem w) client)) Admin then
    db w' = with_channels
              (update_where (fun c => String.eqb (Channels.channel_name c) room)
                            (set_pinned None)) (db w)
    /\ (forall c, In c (channels (db w')) -> Channels.channel_name c = room ->
                  Channels.pinned_message_id c = None)
    /\ pinned_of (db w') room = None
    /\ new_outputs w w'
       = map (fun s => Sent s (Event.update_pinned_message None))
             (broadcast_targets room None (mem w))
         ++ [Sent ws (Event.notification "Message unpinned.")]
  else
    w' = mkWorld (emit_all [Sent ws (Event.error "Permission denied. Requires Admin role.")]
                           (mem w))
                 (db w).
Proof.
  intros Hs room w'. subst w'. unfold command, handleCommand.
  rewrite run_segment_deref. cbv zeta.
  change (String.eqb "/unpin" "/pin") with false.
  change (String.eqb "/unpin" "/unpin") with true. cbv beta iota. fold room.
  assert (Hopen : is_open ws (mem w) = true) by apply (session_open _ _ _ _ Hs).
  destruct (hasPermission (Client.role (deref_in (mem w) client)) Admin); cbn [negb].
  2: { rewrite run_segment_reject, Hopen. reflexivity. }
  rewrite run_segment_await_try.
  cbn [head default from_option Datatypes.id tail exec fst snd mem db].
  rewrite run_segment_broadcast, run_segment_send. cbn [mem db].
  rewrite is_open_emit_all, Hopen, emit_all_app, run_segment_done. cbn [fst mem db].
  split; [reflexivity|].
  assert (Hrows : forall c,
            In c (update_where (fun c => String.eqb (Channels.channel_name c) room)
                               (set_pinned None) (channels (db w))) ->
            Channels.channel_name c = room -> Channels.pinned_message_id c = None).
  { intros c Hin Hn. unfold update_where in Hin. apply in_map_iff in Hin.
    destruct Hin as (c0 & <- & _).
    destruct (String.eqb (Channels.channel_name c0) room) eqn:E.
    - destruct c0; reflexivity.
    - apply String.eqb_neq in E. contradiction. }
  split; [exact Hrows|].
  split.
  { unfold pinned_of. cbn [with_channels channels].
    destruct (select_where _ _) as [|c more] eqn:Esel; [reflexivity|].
    assert (Hin : In c (select_where (fun c => String.eqb (Channels.channel_name c) room)
                          (update_where (fun c => String.eqb (Channels.channel_name c) room)
                                        (set_pinned None) (channels (db w)))))
      by (rewrite Esel; left; reflexivity).
    unfold select_where in Hin. apply filter_In in Hin. destruct Hin as [Hin Hn].
    apply String.eqb_eq in Hn. rewrite (Hrows c Hin Hn). reflexivity. }
  apply new_outputs_app. reflexivity.
Qed.

Lemma unpin_command_effects_witness :
  let w := Sample.world in
  let room := Client.channel (deref_in (mem w) 0%nat) in
  let w' := command [false] "/unpin" [] 0%nat "u-alice" 0%nat w in
  if hasPermission (Client.role (deref_in (mem w) 0%nat)) Admin then
    db w' = with_channels
              (update_where (fun c => String.eqb (Channels.channel_name c) room)
                            (set_pinned None)) (db w)
    /\ (forall c, In c (channels (db w')) -> Channels.channel_name c = room ->
                  Channels.pinned_message_id c = None)
    /\ pinned_of (db w') room = None
    /\ new_outputs w w'
       = map (fun s => Sent s (Event.update_pinned_message None))
             (broadcast_targets room None (mem w))
         ++ [Sent 0%nat (Event.notification "Message unpinned.")]
  else
    w' = mkWorld (emit_all [Sent 0%nat (Event.error "Permission denied. Requires Admin role.")]
                           (mem w))
                 (db w).
Proof.
  exact (unpin_command_effects [] Sample.world [] 0%nat "u-alice" 0%nat
           sample_session_alice).
Defined.

(* ===================================================================== *)
(** * Room history                                                        *)
(* ===================================================================== *)

Lemma reaction_step_keeps_own_keys acc r acc' :
  (forall k, is_Some (acc !! k) -> JS.inherited k = false) ->
  reaction_step (Some acc) r = Some acc' ->
  forall k, is_Some (acc' !! k) -> JS.inherited k = false.
Proof.
  intros Hacc Hstep k Hk. cbn [reaction_step] in Hstep.
  destruct (acc !! Reactions.emoji r) as [ids|] eqn:E.
  - injection Hstep as <-. destruct (decide (k = Reactions.emoji r)) as [->|Hne].
    + apply Hacc. rewrite E. eexists. reflexivity.
    + rewrite lookup_insert_ne in Hk by congruence. apply Hacc, Hk.
  - destruct (JS.inherited (Reactions.emoji r)) eqn:Ei; [discriminate|].
    injection Hstep as <-. destruct (decide (k = Reactions.emoji r)) as [->|Hne].
    + exact Ei.
    + rewrite lookup_insert_ne in Hk by congruence. apply Hacc, Hk.
Qed.

(** The aggregate throws as soon as one row carries an inherited name. *)
Lemma aggregate_reactions_throws rows :
  Exists (fun r => JS.inherited (Reactions.emoji r) = true) rows ->
  aggregate_reactions rows = None.
Proof.
  unfold aggregate_reactions.
  assert (H : forall acc,
            (forall k, is_Some (acc !! k) -> JS.inherited k = false) ->
            Exists (fun r => JS.inherited (Reactions.emoji r) = true) rows ->
            fold_left reaction_step rows (Some acc) = None).
  { induction rows as [|r rows IH]; intros acc Hacc Hex; [inversion Hex|].
    cbn [fold_left].
    destruct (reaction_step (Some acc) r) as [acc'|] eqn:Es;
      [|apply aggregate_reactions_None_stays].
    apply IH; [exact (reaction_step_keeps_own_keys acc r acc' Hacc Es)|].
    inversion Hex as [? ? Hr|? ? Hrest]; subst; [|exact Hrest].
    exfalso. cbn [reaction_step] in Es.
    destruct (acc !! Reactions.emoji r) as [ids|] eqn:E.
    - assert (Hf : JS.inherited (Reactions.emoji r) = false)
        by (apply Hacc; rewrite E; eexists; reflexivity).
      congruence.
    - rewrite Hr in Es. discriminate. }
  apply H. intros k [v Hv]. rewrite lookup_empty in Hv. discriminate.
Qed.

Lemma in_insert_by_timestamp x m l :
  In x (insert_by_timestamp m l) <-> x = m \/ In x l.
Proof.
  induction l as [|y l IH]; simpl; [intuition|].
  destruct (Messages.timestamp m <=? Messages.timestamp y); simpl; [intuition|].
  rewrite IH. intuition.
Qed.

Lemma in_order_by_timestamp x l : In x (order_by_timestamp l) <-> In x l.
Proof.
  unfold order_by_timestamp. induction l as [|y l IH]; simpl; [reflexivity|].
  rewrite in_insert_by_timestamp, IH. intuition.
Qed.

Lemma attach_reactions_throws d ms m :
  In m ms -> aggregate_reactions (reactions_of d (Messages.id m)) = None ->
  attach_reactions d ms = None.
Proof.
  induction ms as [|x ms IH]; intros Hin Hm; [destruct Hin|].
  cbn [attach_reactions]. destruct Hin as [Heq|Hin].
  - subst x. rewrite Hm. reflexivity.
  - destruct (aggregate_reactions (reactions_of d (Messages.id x))); [|reflexivity].
    rewrite (IH Hin Hm). reflexivity.
Qed.

(** One stored reaction whose emoji string names a member of
    [Object.prototype], on any message of a room, blanks the history of the
    whole room: [getRoomData] serves no messages and no pinned message for
    it, to everyone who logs in to or joins the room. *)
Theorem history_blanked_by_one_reaction
    (fail : bool) (d : DB) (room : string) (msg : Messages.row) (r : Reactions.row) :
  In msg (messages d) ->
  Messages.channel_name msg = room ->
  In r (reactions d) ->
  Reactions.message_id r = Messages.id msg ->
  JS.inherited (Reactions.emoji r) = true ->
  getRoomData fail d room = RoomData.mk [] None.
Proof.
  intros Hmsg Hroom Hr Hid Hinh. unfold getRoomData.
  destruct (JS.startsWith room "DM:"); [reflexivity|].
  destruct fail; [reflexivity|].
  rewrite (attach_reactions_throws d _ msg); [reflexivity| |].
  - apply in_order_by_timestamp. unfold select_where. apply filter_In.
    split; [exact Hmsg|]. apply String.eqb_eq. exact Hroom.
  - apply aggregate_reactions_throws. apply List.Exists_exists. exists r.
    split; [|exact Hinh].
    unfold reactions_of, select_where. apply filter_In. split; [exact Hr|].
    apply String.eqb_eq. exact Hid.
Qed.

Lemma history_blanked_by_one_reaction_witness :
  let d := db (handle [] 1%nat (add_reaction "m2" "valueOf") Sample.world) in
  getRoomData false d "#general" = RoomData.mk [] None.
Proof.
  cbv zeta.
  apply (history_blanked_by_one_reaction false _ "#general" Sample.m2
           (Reactions.mk "m2" "u-bob" "valueOf")).
  - vm_compute. right. left. reflexivity.
  - reflexivity.
  - vm_compute. left. reflexivity.
  - reflexivity.
  - reflexivity.
Defined.

Lemma in_time_order_cons x l :
  in_time_order (x :: l)
  <-> (forall y, In y l -> Messages.timestamp x <= Messages.timestamp y)
      /\ in_time_order l.
Proof.
  unfold in_time_order. split.
  - intros H. split.
    + intros y Hy. apply In_nth_error in Hy. destruct Hy as [n Hn].
      apply (H 0%nat (S n) x y); [lia|reflexivity|].
      cbn.
      rewrite <- Hn. clear. revert n. induction l as [|z l IH]; intros [|n]; cbn; auto.
    + intros i j a b Hij Ha Hb. apply (H (S i) (S j) a b); [lia|exact Ha|exact Hb].
  - intros [Hx Hl] i j a b Hij Ha Hb.
    destruct j as [|j]; [lia|]. cbn in Hb.
    destruct i as [|i].
    + cbn in Ha. injection Ha as <-. apply Hx.
      apply list_elem_of_lookup_2 in Hb. apply list_elem_of_In. exact Hb.
    + cbn in Ha. apply (Hl i j a b); [lia|exact Ha|exact Hb].
Qed.

Lemma insert_by_timestamp_ordered m l :
  in_time_order l -> in_time_order (insert_by_timestamp m l).
Proof.
  induction l as [|x l IH]; intros Hl; cbn [insert_by_timestamp].
  - apply in_time_order_cons. split; [intros y []|exact Hl].
  - apply in_time_order_cons in Hl. destruct Hl as [Hx Hl].
    destruct (Messages.timestamp m <=? Messages.timestamp x) eqn:E.
    + apply Z.leb_le in E. apply in_time_order_cons. split.
      * intros y [<-|Hy]; [exact E|]. specialize (Hx y Hy). lia.
      * apply in_time_order_cons. split; assumption.
    + apply Z.leb_gt in E. apply in_time_order_cons. split.
      * intros y Hy. apply in_insert_by_timestamp in Hy.
        destruct Hy as [->|Hy]; [lia|apply Hx, Hy].
      * apply IH, Hl.
Qed.

Lemma order_by_timestamp_ordered l : in_time_order (order_by_timestamp l).
Proof.
  unfold order_by_timestamp. induction l as [|x l IH]; cbn [fold_right].
  - intros i j a b _ Ha. discriminate Ha.
  - apply insert_by_timestamp_ordered, IH.
Qed.

Lemma insert_by_timestamp_perm m l : Permutation (insert_by_timestamp m l) (m :: l).
Proof.
  induction l as [|x l IH]; cbn [insert_by_timestamp]; [reflexivity|].
  destruct (Messages.timestamp m <=? Messages.timestamp x); [reflexivity|].
  rewrite IH. apply perm_swap.
Qed.

Lemma order_by_timestamp_perm l : Permutation (order_by_timestamp l) l.
Proof.
  unfold order_by_timestamp. induction l as [|x l IH]; cbn [fold_right]; [reflexivity|].
  rewrite insert_by_timestamp_perm, IH. reflexivity.
Qed.

Lemma attach_reactions_rows d ms :
  (forall r, In r (reactions d) -> JS.inherited (Reactions.emoji r) = false) ->
  exists hs, attach_reactions d ms = Some hs
             /\ map HistMsg.row hs = ms
             /\ forall h, In h hs ->
                   aggregate_reactions (reactions_of d (Messages.id (HistMsg.row h)))
                   = Some (HistMsg.reactions h).
Proof.
  intros Hclean. induction ms as [|m ms (hs & Hat & Hrows & Hagg)].
  - exists []. repeat split. intros h [].
  - cbn [attach_reactions].
    destruct (aggregate_reactions_defined (reactions_of d (Messages.id m))) as [rs Hrs].
    { apply List.Forall_forall. intros r Hr. apply Hclean.
      unfold reactions_of, select_where in Hr. apply filter_In in Hr. tauto. }
    rewrite Hrs, Hat. exists (HistMsg.mk m rs :: hs).
    split; [reflexivity|]. split; [cbn; rewrite Hrows; reflexivity|].
    intros h [<-|Hh]; [exact Hrs|apply Hagg, Hh].
Qed.

(** The history [getRoomData] serves for a channel, when no stored reaction
    carries an inherited name and the queries succeed: the messages of that
    channel and no others, each once, in non-decreasing order of timestamp,
    each with the aggregate of its reactions, and the pinned summary of the
    channel. *)
Theorem history_is_the_room_in_time_order (d : DB) (room : string) :
  JS.startsWith room "DM:" = false ->
  (forall r, In r (reactions d) -> JS.inherited (Reactions.emoji r) = false) ->
  let data := getRoomData false d room in
  let rows := map HistMsg.row (RoomData.messages data) in
  Permutation rows
    (select_where (fun m => String.eqb (Messages.channel_name m) room) (messages d))
  /\ in_time_order rows
  /\ (forall h, In h (RoomData.messages data) ->
                aggregate_reactions (reactions_of d (Messages.id (HistMsg.row h)))
                = Some (HistMsg.reactions h))
  /\ RoomData.pinnedMessage data = pinned_of d room.
Proof.
  intros Hdm Hclean data rows. subst rows data. unfold getRoomData. rewrite Hdm.
  destruct (attach_reactions_rows d
              (order_by_timestamp
                 (select_where (fun m => String.eqb (Messages.channel_name m) room)
                               (messages d))) Hclean) as (hs & -> & Hrows & Hagg).
  cbn [RoomData.messages RoomData.pinnedMessage]. rewrite Hrows.
  split; [apply order_by_timestamp_perm|].
  split; [apply order_by_timestamp_ordered|].
  split; [exact Hagg|reflexivity].
Qed.

Lemma history_is_the_room_in_time_order_witness :
  let data := getRoomData false Sample.tables "#general" in
  let rows := map HistMsg.row (RoomData.messages data) in
  Permutation rows
    (select_where (fun m => String.eqb (Messages.channel_name m) "#general")
                  (messages Sample.tables))
  /\ in_time_order rows
  /\ (forall h, In h (RoomData.messages data) ->
                aggregate_reactions (reactions_of Sample.tables (Messages.id (HistMsg.row h)))
                = Some (HistMsg.reactions h))
  /\ RoomData.pinnedMessage data = pinned_of Sample.tables "#general".
Proof.
  apply (history_is_the_room_in_time_order Sample.tables "#general").
  - reflexivity.
  - intros r [].
Defined.

(* ===================================================================== *)
(** * Deleting a channel                                                  *)
(* ===================================================================== *)

Lemma run_sends_only t :
  sends_only t ->
  forall fails w, exists os fails',
    run fails t w = (mkWorld (emit_all os (mem w)) (db w), fails').
Proof.
  induction 1 as [|R c k Hc Hk Ht IH|t1 t2 H1 IH1 H2 IH2]; intros fails w.
  - exists [], fails. cbn [run]. rewrite emit_all_nil, world_eta. reflexivity.
  - cbn [run].
    pose proof (Hc (default false (head fails)) (db w)) as Hd.
    destruct (exec (default false (head fails)) c (db w)) as [o d'] eqn:E.
    cbn [snd] in Hd. subst d'.
    destruct (Hk o (mem w)) as [os1 Hm].
    specialize (IH o (mem w) (tail fails) (mkWorld (snd (k o (mem w))) (db w))).
    destruct (k o (mem w)) as [t' m'] eqn:Ek. cbn [fst snd] in *. subst m'.
    destruct IH as (os2 & fails' & IH). rewrite IH. cbn [mem db].
    exists (os1 ++ os2), fails'. rewrite emit_all_app. reflexivity.
  - cbn [run]. destruct (IH1 fails w) as (os1 & f1 & E1). rewrite E1.
    destruct (IH2 f1 (mkWorld (emit_all os1 (mem w)) (db w))) as (os2 & f2 & E2).
    rewrite E2. cbn [mem db]. exists (os1 ++ os2), f2. rewrite emit_all_app. reflexivity.
Qed.

Lemma sends_only_fork_all ts t :
  Forall sends_only ts -> sends_only t -> sends_only (fork_all ts t).
Proof.
  intros Hts Ht. induction Hts; simpl; [assumption|]. constructor; assumption.
Qed.

Lemma sendToClient_emits ws e m : exists os, snd (sendToClient ws e m) = emit_all os m.
Proof.
  rewrite sendToClient_run. eexists. reflexivity.
Qed.

Lemma sends_only_channel_list_updates m : Forall sends_only (channel_list_updates m).
Proof.
  unfold channel_list_updates.
  generalize (imap (fun i s => (i, s)) (sockets m)). intros l.
  induction l as [|[i s] l IH]; simpl; [constructor|].
  destruct (Socket.readyState s); try assumption.
  destruct (Socket.field_currentUserId s); try assumption.
  destruct (JS.truthy s0); [|assumption].
  constructor; [|assumption].
  constructor.
  - intros fail d. reflexivity.
  - intros [code|chs] m0.
    + exists []. cbn. rewrite emit_all_nil. reflexivity.
    + unfold bind, done, ret. rewrite sendToClient_run. cbn [snd]. eexists. reflexivity.
  - intros [code|chs] m0.
    + constructor.
    + unfold bind, done, ret. rewrite sendToClient_run. cbn [fst]. constructor.
Qed.

Lemma sends_only_channel_changes room moved m :
  Forall sends_only (channel_changes room moved m).
Proof.
  unfold channel_changes. induction moved as [|r l IH]; simpl; constructor; [|assumption].
  constructor.
  - intros fail d. reflexivity.
  - intros [code|chs] m0.
    + exists []. cbn. rewrite emit_all_nil. reflexivity.
    + unfold bind, deref, gets, done, ret. rewrite sendToClient_run. cbn [snd].
      eexists. reflexivity.
  - intros [code|chs] m0.
    + constructor.
    + unfold bind, deref, gets, done, ret. rewrite sendToClient_run. cbn [fst]. constructor.
Qed.

Lemma JsMap_get_NoDup {V} (l : list (string * V)) k v :
  NoDup (JsMap.keys l) -> In (k, v) l -> JsMap.get k l = Some v.
Proof.
  rewrite NoDup_ListNoDup. unfold JsMap.keys, JsMap.get.
  induction l as [|[k0 v0] l IH]; intros Hnd Hin; [destruct Hin|].
  cbn [map fst] in Hnd. inversion Hnd as [|? ? Hnot Hnd']; subst.
  cbn [List.find fst]. destruct Hin as [[= -> ->]|Hin].
  - rewrite String.eqb_refl. reflexivity.
  - destruct (String.eqb k0 k) eqn:E; [|apply IH; assumption].
    apply String.eqb_eq in E. subst k0. exfalso. apply Hnot.
    apply (in_map fst) in Hin. exact Hin.
Qed.

(** The loop that moves the sessions of a channel to the fallback channel:
    the registry, the sockets and the log are as before, and each session
    object the loop visits is moved if it was in the channel. *)
Lemma move_to_fallback_run name cs m :
  name <> FALLBACK_CHANNEL ->
  (forall entry, In entry cs -> JsMap.get (fst entry) (clients m) = Some (snd entry)) ->
  let m' := snd (move_to_fallback name cs m) in
  clients m' = clients m /\ sockets m' = sockets m /\ out m' = out m
  /\ bannedUsers m' = bannedUsers m /\ typingUsers m' = typingUsers m
  /\ (forall r, In r (map snd cs) -> deref_in m' r = moved_out_of name (deref_in m r))
  /\ (forall r, ~ In r (map snd cs) -> heap m' !! r = heap m !! r).
Proof.
  intros Hname. revert m. induction cs as [|[k r] cs IH]; intros m Hget.
  - cbn. repeat (split; [reflexivity|]). split; [intros r []|reflexivity].
  - set (m1 := set_clients (JsMap.set k r)
                 (set_heap (fun h => <[r := Client.with_channel FALLBACK_CHANNEL
                                               (deref_in m r)]> h) m)).
    assert (Hstep : snd (move_to_fallback name ((k, r) :: cs) m)
                    = if String.eqb (Client.channel (deref_in m r)) name
                      then snd (move_to_fallback name cs m1)
                      else snd (move_to_fallback name cs m)).
    { cbn [move_to_fallback]. unfold bind, deref, gets. cbn [fst snd].
      destruct (String.eqb (Client.channel (deref_in m r)) name); [|reflexivity].
      unfold assign_channel, clients_set, modify, ret. fold m1.
      destruct (move_to_fallback name cs m1). reflexivity. }
    cbv zeta. rewrite Hstep. clear Hstep.
    destruct (String.eqb (Client.channel (deref_in m r)) name) eqn:E.
    + assert (Hc1 : clients m1 = clients m).
      { unfold m1. cbn [set_clients set_heap clients].
        apply JsMap_set_same. apply (Hget (k, r)). left. reflexivity. }
      destruct (IH m1) as (Hc & Hs & Ho & Hb & Ht & Hin & Hout).
      { intros entry He. rewrite Hc1. apply Hget. right. exact He. }
      cbv zeta in Hc, Hs, Ho, Hb, Ht, Hin, Hout.
      split; [congruence|]. split; [rewrite Hs; reflexivity|].
      split; [rewrite Ho; reflexivity|]. split; [rewrite Hb; reflexivity|].
      split; [rewrite Ht; reflexivity|].
      assert (Hd1 : forall r', deref_in m1 r'
                               = if decide (r' = r)
                                 then Client.with_channel FALLBACK_CHANNEL (deref_in m r)
                                 else deref_in m r').
      { intros r'. unfold deref_in, m1. cbn [set_clients set_heap heap].
        destruct (decide (r' = r)) as [->|Hne].
        - rewrite lookup_insert_eq. reflexivity.
        - rewrite lookup_insert_ne by congruence. reflexivity. }
      split.
      * intros r' Hr'. cbn [map snd In] in Hr'.
        destruct (in_dec Nat.eq_dec r' (map snd cs)) as [Hin'|Hnin].
        -- rewrite (Hin r' Hin'), Hd1. destruct (decide (r' = r)) as [->|Hne]; [|reflexivity].
           unfold moved_out_of. rewrite E. cbn [Client.with_channel Client.channel].
           replace (String.eqb FALLBACK_CHANNEL name) with false; [reflexivity|].
           symmetry. apply String.eqb_neq. congruence.
        -- destruct Hr' as [<-|Hr']; [|contradiction].
           replace (deref_in (snd (move_to_fallback name cs m1)) r) with (deref_in m1 r)
             by (unfold deref_in; rewrite (Hout r Hnin); reflexivity).
           rewrite Hd1.
           destruct (decide (r = r)); [|congruence].
           unfold moved_out_of. rewrite E. reflexivity.
      * intros r' Hr'. cbn [map snd In] in Hr'.
        rewrite Hout by tauto. unfold m1. cbn [set_clients set_heap heap].
        rewrite lookup_insert_ne by (intros ->; tauto). reflexivity.
    + destruct (IH m) as (Hc & Hs & Ho & Hb & Ht & Hin & Hout).
      { intros entry He. apply Hget. right. exact He. }
      cbv zeta in Hc, Hs, Ho, Hb, Ht, Hin, Hout.
      repeat (split; [assumption|]).
      split.
      * intros r' Hr'. cbn [map snd In] in Hr'.
        destruct (in_dec Nat.eq_dec r' (map snd cs)) as [Hin'|Hnin]; [apply Hin, Hin'|].
        destruct Hr' as [<-|Hr']; [|contradiction].
        replace (deref_in (snd (move_to_fallback name cs m)) r) with (deref_in m r)
          by (unfold deref_in; rewrite (Hout r Hnin); reflexivity).
        unfold moved_out_of. rewrite E. reflexivity.
      * intros r' Hr'. cbn [map snd In] in Hr'. apply Hout. tauto.
Qed.

Lemma is_open_sockets ws m m' : sockets m' = sockets m -> is_open ws m' = is_open ws m.
Proof. intros H. unfold is_open, readyState_of, socket. rewrite H. reflexivity. Qed.

Lemma session_of_sockets_clients m m' ws userId client :
  sockets m' = sockets m -> clients m' = clients m ->
  session_of m ws userId client -> session_of m' ws userId client.
Proof.
  intros Hs Hc (H1 & H2 & H3). unfold session_of, socket in *. rewrite Hs, Hc. tauto.
Qed.

Lemma run_segment_ret fails t w : run_segment fails (ret t) w = run fails t w.
Proof. unfold run_segment, ret. cbn [fst snd]. rewrite world_eta. reflexivity. Qed.

(** One run of the listener on [delete_channel]. *)
Lemma delete_channel_run
    (rest : list bool) (delete_fails : bool) (w : World) (name : string)
    (client : Ref) (userId : UserId) (ws : WsId) :
  session_of (mem w) ws userId client ->
  one_session_per_identity (mem w) ->
  let role := Client.role (deref_in (mem w) client) in
  let w' := handle (false :: delete_fails :: rest) ws (delete_channel name) w in
  let refused reason :=
    w' = mkWorld (emit_all [Sent ws (Event.error reason)] (mem w)) (db w) in
  match select_where (fun c => String.eqb (Channels.channel_name c) name)
                     (channels (db w)) with
  | [] => refused "Cannot delete default or nonexistent channel."
  | channelInfo :: _ =>
      if String.eqb name FALLBACK_CHANNEL
      then refused "Cannot delete default or nonexistent channel."
      else if negb (hasPermission role Admin
                    || is_creator (Channels.created_by channelInfo) (Some userId))
      then refused "Permission denied. Only the creator or an Admin can delete this channel."
      else
        clients (mem w') = clients (mem w)
        /\ (forall id r, In (id, r) (clients (mem w)) ->
              deref_in (mem w') r = moved_out_of name (deref_in (mem w) r))
        /\ (forall r, ~ In r (map snd (clients (mem w))) ->
              heap (mem w') !! r = heap (mem w) !! r)
        /\ if delete_fails then
             db w' = db w
             /\ new_outputs w w'
                = [Sent ws (Event.error "Failed to delete channel due to server error.")]
           else
             db w' = delete_channel_cascade name (db w)
             /\ In (Sent ws (Event.notification
                               ("Channel " +:+ name +:+ " deleted successfully.")))
                   (new_outputs w w')
  end.
Proof.
  intros Hs Hnd role w' refused. subst w' refused.
  rewrite (handle_session _ _ _ _ _ _ Hs). unfold handle_delete_channel.
  rewrite run_segment_await_try.
  cbn [head default from_option Datatypes.id tail exec fst snd]. rewrite world_eta.
  assert (Hopen : is_open ws (mem w) = true) by apply (session_open _ _ _ _ Hs).
  destruct (select_where _ (channels (db w))) as [|channelInfo more].
  { rewrite run_segment_reject, Hopen. reflexivity. }
  destruct (String.eqb name FALLBACK_CHANNEL) eqn:Ename.
  { rewrite run_segment_reject, Hopen. reflexivity. }
  apply String.eqb_neq in Ename.
  rewrite (run_segment_var _ _ _ _ _ _ Hs), run_segment_deref. fold role.
  destruct (negb (hasPermission role Admin
                  || is_creator (Channels.created_by channelInfo) (Some userId))).
  { rewrite run_segment_reject, Hopen. reflexivity. }
  rewrite run_segment_gets.
  rewrite (run_segment_bind _ _ _ _ _ _
             (surjective_pairing (move_to_fallback name (clients (mem w)) (mem w)))).
  destruct (move_to_fallback_run name (clients (mem w)) (mem w) Ename)
    as (Hc & Hso & Ho & Hb & Ht & Hin & Hout).
  { intros [k r] He. cbn [fst snd]. apply JsMap_get_NoDup; assumption. }
  cbv zeta in Hc, Hso, Ho, Hb, Ht, Hin, Hout.
  set (moved := fst (move_to_fallback name (clients (mem w)) (mem w))) in *.
  set (m1 := snd (move_to_fallback name (clients (mem w)) (mem w))) in *.
  assert (Hopen1 : is_open ws m1 = true) by (rewrite (is_open_sockets ws _ _ Hso); exact Hopen).
  rewrite run_segment_await.
  cbn [head default from_option Datatypes.id tail exec fst snd mem db].
  destruct delete_fails.
  - cbn [fst snd]. rewrite run_segment_reject. cbn [mem db fst]. rewrite Hopen1.
    split; [exact Hc|]. split.
    { intros id r He. replace (deref_in (emit_all _ m1) r) with (deref_in m1 r) by reflexivity.
      apply Hin. apply (in_map snd) in He. exact He. }
    split.
    { intros r Hr. cbn [emit_all heap]. apply Hout, Hr. }
    split; [reflexivity|].
    apply new_outputs_app. cbn [mem]. rewrite out_emit_all, Ho. reflexivity.
  - cbn [fst snd]. rewrite run_segment_await.
    cbn [head default from_option Datatypes.id tail exec fst snd mem db].
    rewrite !run_segment_gets. cbn [mem].
    rewrite !run_segment_presence. cbn [mem db].
    rewrite run_segment_send. cbn [mem db].
    rewrite !is_open_emit_all, Hopen1, !emit_all_app.
    rewrite run_segment_ret.
    match goal with
    | |- context [run ?f ?t ?w0] =>
        destruct (run_sends_only t
                    ltac:(apply sends_only_fork_all;
                          [apply Forall_app; split;
                           [apply sends_only_channel_changes
                           |apply sends_only_channel_list_updates]
                          |constructor]) f w0) as (os & fails' & E);
        rewrite E
    end.
    cbn [fst mem db]. rewrite emit_all_app.
    split; [exact Hc|]. split.
    { intros id r He. replace (deref_in (emit_all _ m1) r) with (deref_in m1 r) by reflexivity.
      apply Hin. apply (in_map snd) in He. exact He. }
    split.
    { intros r Hr. cbn [emit_all heap]. apply Hout, Hr. }
    split; [reflexivity|].
    erewrite new_outputs_app; [|cbn [mem]; rewrite out_emit_all, Ho; reflexivity].
    rewrite !in_app_iff. left. right. right. left. reflexivity.
Qed.

Lemma in_update_where_inv {A} (p : A -> bool) (f : A -> A) (t : list A) y :
  In y (update_where p f t) -> exists x, In x t /\ y = if p x then f x else x.
Proof.
  unfold update_where. rewrite in_map_iff. intros (x & <- & Hx). exists x. tauto.
Qed.

(** The cascade of one deleted message: the other tables are as before,
    every message left is a message that was there under another id, in the
    same channel, and every reaction left was there and is not a reaction
    to the deleted message. *)
Lemma delete_message_cascade_rows id d :
  let d' := delete_message_cascade id d in
  channels d' = channels d /\ channel_members d' = channel_members d
  /\ users d' = users d
  /\ (forall m', In m' (messages d') ->
        exists m, In m (messages d) /\ Messages.id m' = Messages.id m
                  /\ Messages.channel_name m' = Messages.channel_name m
                  /\ Messages.id m <> id)
  /\ (forall r, In r (reactions d') ->
        In r (reactions d) /\ Reactions.message_id r <> id).
Proof.
  cbv zeta. unfold delete_message_cascade. destruct d; cbn.
  repeat (split; [reflexivity|]). split.
  - intros m' Hm'. apply in_update_where_inv in Hm'. destruct Hm' as (m & Hm & ->).
    apply in_delete_where in Hm. destruct Hm as [Hm Hid]. apply String.eqb_neq in Hid.
    exists m. split; [exact Hm|].
    destruct (opt_eqb (Messages.parent_message_id m) id); cbn; tauto.
  - intros r Hr. apply in_delete_where in Hr. destruct Hr as [Hr Hid].
    apply String.eqb_neq in Hid. tauto.
Qed.

Lemma delete_messages_cascade_rows ids d :
  let d' := fold_left (fun acc id => delete_message_cascade id acc) ids d in
  channels d' = channels d /\ channel_members d' = channel_members d
  /\ users d' = users d
  /\ (forall m', In m' (messages d') ->
        exists m, In m (messages d) /\ Messages.id m' = Messages.id m
                  /\ Messages.channel_name m' = Messages.channel_name m
                  /\ ~ In (Messages.id m) ids)
  /\ (forall r, In r (reactions d') ->
        In r (reactions d) /\ ~ In (Reactions.message_id r) ids).
Proof.
  cbv zeta. revert d. induction ids as [|id ids IH]; intros d.
  - cbn. repeat (split; [reflexivity|]). split.
    + intros m' Hm'. exists m'. tauto.
    + intros r Hr. tauto.
  - cbn [fold_left].
    destruct (IH (delete_message_cascade id d)) as (Hc & Hcm & Hu & Hm & Hr).
    destruct (delete_message_cascade_rows id d) as (Hc1 & Hcm1 & Hu1 & Hm1 & Hr1).
    cbv zeta in Hc1, Hcm1, Hu1, Hm1, Hr1.
    split; [congruence|]. split; [congruence|]. split; [congruence|]. split.
    + intros m' Hm'. destruct (Hm m' Hm') as (m1 & Hin1 & Hid1 & Hch1 & Hn1).
      destruct (Hm1 m1 Hin1) as (m0 & Hin0 & Hid0 & Hch0 & Hn0).
      exists m0. split; [exact Hin0|]. split; [congruence|]. split; [congruence|].
      intros [Heq|Hin]; [congruence|]. apply Hn1. rewrite Hid0. exact Hin.
    + intros r Hr'. destruct (Hr r Hr') as [Hin Hn]. destruct (Hr1 r Hin) as [Hin0 Hn0].
      split; [exact Hin0|]. intros [Heq|Hin']; [congruence|tauto].
Qed.

(** [DELETE FROM channels WHERE channel_name = ?] with the cascades of the
    schema: the row, the messages and the memberships of the channel are
    gone, with the reactions to those messages; the rows of the other
    channels, their memberships and the users are as before. *)
Lemma delete_channel_cascade_rows name d :
  let d' := delete_channel_cascade name d in
  channel_exists d' name = false
  /\ (forall c, In c (channels d') <->
                In c (channels d) /\ Channels.channel_name c <> name)
  /\ (forall cm, In cm (channel_members d') <->
                 In cm (channel_members d) /\ ChannelMembers.channel_name cm <> name)
  /\ (forall m, In m (messages d') -> Messages.channel_name m <> name)
  /\ (forall r m, In r (reactions d') -> In m (messages d) ->
                  Messages.channel_name m = name ->
                  Reactions.message_id r <> Messages.id m)
  /\ users d' = users d.
Proof.
  cbv zeta. unfold delete_channel_cascade.
  set (doomed := map Messages.id (select_where _ (messages d))).
  destruct (delete_messages_cascade_rows doomed d) as (Hc & Hcm & Hu & Hm & Hr).
  cbv zeta in Hc, Hcm, Hu, Hm, Hr.
  set (d1 := fold_left _ doomed d) in *.
  assert (Hdoomed : forall m, In m (messages d) -> Messages.channel_name m = name ->
                              In (Messages.id m) doomed).
  { intros m Hin Hch. unfold doomed. apply in_map. unfold select_where.
    apply filter_In. split; [exact Hin|]. apply String.eqb_eq. exact Hch. }
  assert (Hch : forall c, In c (channels
                                  (with_channels
                                     (delete_where (fun c => String.eqb (Channels.channel_name c) name))
                                     (with_channel_members
                                        (delete_where (fun cm => String.eqb (ChannelMembers.channel_name cm) name))
                                        d1)))
                          <-> In c (channels d) /\ Channels.channel_name c <> name).
  { intros c. rewrite <- Hc. unfold with_channels, with_channel_members.
    cbn [channels]. rewrite in_delete_where, String.eqb_neq. reflexivity. }
  split.
  { unfold channel_exists. apply not_true_is_false. intros He.
    apply existsb_exists in He. destruct He as (c & Hin & He).
    apply Hch in Hin. apply String.eqb_eq in He. tauto. }
  split; [exact Hch|]. split.
  { intros cm. rewrite <- Hcm. unfold with_channels, with_channel_members.
    cbn [channel_members]. rewrite in_delete_where, String.eqb_neq. reflexivity. }
  split.
  { intros m Hin Hname.
    assert (Hin1 : In m (messages d1)) by exact Hin.
    destruct (Hm m Hin1) as (m0 & Hin0 & Hid0 & Hch0 & Hn0).
    apply Hn0, Hdoomed; [exact Hin0|congruence]. }
  split.
  { intros r m Hin Hinm Hname Heq.
    assert (Hin1 : In r (reactions d1)) by exact Hin.
    destruct (Hr r Hin1) as [_ Hn]. apply Hn. rewrite Heq. apply Hdoomed; assumption. }
  rewrite <- Hu. reflexivity.
Qed.

(** [delete_channel].  A channel that does not exist, or the fallback
    channel, is not deleted; neither is a channel by somebody who is not
    its creator and has no Admin role.  In those cases the actor gets an
    error and nothing changes.  Otherwise every registered session that was
    in the channel is moved to the fallback channel, in the registry's own
    session objects, before the channel is deleted: when the deletion fails
    the sessions stay moved, the tables are as before and the actor gets an
    error; when it succeeds the tables are those of the cascading delete
    and the actor is told so. *)
Theorem delete_channel_effects
    (rest : list bool) (delete_fails : bool) (w : World) (name : string)
    (client : Ref) (userId : UserId) (ws : WsId) :
  session_of (mem w) ws userId client ->
  one_session_per_identity (mem w) ->
  let role := Client.role (deref_in (mem w) client) in
  let w' := handle (false :: delete_fails :: rest) ws (delete_channel name) w in
  let refused reason :=
    w' = mkWorld (emit_all [Sent ws (Event.error reason)] (mem w)) (db w) in
  match select_where (fun c => String.eqb (Channels.channel_name c) name)
                     (channels (db w)) with
  | [] => refused "Cannot delete default or nonexistent channel."
  | channelInfo :: _ =>
      if String.eqb name FALLBACK_CHANNEL
      then refused "Cannot delete default or nonexistent channel."
      else if negb (hasPermission role Admin
                    || is_creator (Channels.created_by channelInfo) (Some userId))
      then refused "Permission denied. Only the creator or an Admin can delete this channel."
      else
        clients (mem w') = clients (mem w)
        /\ (forall id r, In (id, r) (clients (mem w)) ->
              deref_in (mem w') r = moved_out_of name (deref_in (mem w) r))
        /\ (forall r, ~ In r (map snd (clients (mem w))) ->
              heap (mem w') !! r = heap (mem w) !! r)
        /\ if delete_fails then
             db w' = db w
             /\ new_outputs w w'
                = [Sent ws (Event.error "Failed to delete channel due to server error.")]
           else
             db w' = delete_channel_cascade name (db w)
             /\ In (Sent ws (Event.notification
                               ("Channel " +:+ name +:+ " deleted successfully.")))
                   (new_outputs w w')
  end.
Proof. exact (delete_channel_run rest delete_fails w name client userId ws). Qed.

Lemma delete_channel_effects_witness :
  let w := handle [] 1%nat (join_channel "#random") Sample.world in
  let name := "#random" in
  let role := Client.role (deref_in (mem w) 0%nat) in
  let w' := handle [false; true] 0%nat (delete_channel name) w in
  let refused reason :=
    w' = mkWorld (emit_all [Sent 0%nat (Event.error reason)] (mem w)) (db w) in
  match select_where (fun c => String.eqb (Channels.channel_name c) name)
                     (channels (db w)) with
  | [] => refused "Cannot delete default or nonexistent channel."
  | channelInfo :: _ =>
      if String.eqb name FALLBACK_CHANNEL
      then refused "Cannot delete default or nonexistent channel."
      else if negb (hasPermission role Admin
                    || is_creator (Channels.created_by channelInfo) (Some "u-alice"))
      then refused "Permission denied. Only the creator or an Admin can delete this channel."
      else
        clients (mem w') = clients (mem w)
        /\ (forall id r, In (id, r) (clients (mem w)) ->
              deref_in (mem w') r = moved_out_of name (deref_in (mem w) r))
        /\ (forall r, ~ In r (map snd (clients (mem w))) ->
              heap (mem w') !! r = heap (mem w) !! r)
        /\ if true then
             db w' = db w
             /\ new_outputs w w'
                = [Sent 0%nat (Event.error "Failed to delete channel due to server error.")]
           else
             db w' = delete_channel_cascade name (db w)
             /\ In (Sent 0%nat (Event.notification
                                  ("Channel " +:+ name +:+ " deleted successfully.")))
                   (new_outputs w w')
  end.
Proof.
  refine (delete_channel_effects [] true
            (handle [] 1%nat (join_channel "#random") Sample.world)
            "#random" 0%nat "u-alice" 0%nat _ _).
  - vm_compute. repeat split.
  - unfold one_session_per_identity. apply NoDup_ListNoDup.
    vm_compute. repeat constructor; cbn; intuition congruence.
Defined.

(** The session that was in the deleted channel is in the fallback channel
    afterwards, also when the deletion itself failed. *)
Example delete_channel_moves_sessions_first :
  let w := handle [] 1%nat (join_channel "#random") Sample.world in
  let w' := handle [false; true] 0%nat (delete_channel "#random") w in
  Client.channel (deref_in (mem w) 1%nat) = "#random"
  /\ Client.channel (deref_in (mem w') 1%nat) = "#general"
  /\ channel_exists (db w') "#random" = true.
Proof. vm_compute. repeat split. Qed.

(** After a successful [delete_channel], nothing of the channel is left:
    no channel row, no message, no membership, no reaction to one of its
    messages, and no registered session in it.  The rows of the other
    channels and the users are as before. *)
Theorem deleted_channel_leaves_nothing_behind
    (rest : list bool) (w : World) (name : string)
    (client : Ref) (userId : UserId) (ws : WsId)
    (channelInfo : Channels.row) (more : list Channels.row) :
  session_of (mem w) ws userId client ->
  one_session_per_identity (mem w) ->
  select_where (fun c => String.eqb (Channels.channel_name c) name) (channels (db w))
  = channelInfo :: more ->
  name <> FALLBACK_CHANNEL ->
  hasPermission (Client.role (deref_in (mem w) client)) Admin
  || is_creator (Channels.created_by channelInfo) (Some userId) = true ->
  let w' := handle (false :: false :: rest) ws (delete_channel name) w in
  channel_exists (db w') name = false
  /\ (forall c, In c (channels (db w')) <->
                In c (channels (db w)) /\ Channels.channel_name c <> name)
  /\ (forall m, In m (messages (db w')) -> Messages.channel_name m <> name)
  /\ (forall cm, In cm (channel_members (db w')) ->
                 ChannelMembers.channel_name cm <> name)
  /\ (forall r m, In r (reactions (db w')) -> In m (messages (db w)) ->
                  Messages.channel_name m = name ->
                  Reactions.message_id r <> Messages.id m)
  /\ users (db w') = users (db w)
  /\ (forall id r, In (id, r) (clients (mem w')) ->
        Client.channel (deref_in (mem w') r) <> name).
Proof.
  intros Hs Hnd Hsel Hname Hperm w'.
  pose proof (delete_channel_run rest false w name client userId ws Hs Hnd) as H.
  cbv zeta in H. fold w' in H. rewrite Hsel in H.
  apply String.eqb_neq in Hname. rewrite Hname, Hperm in H. cbn [negb] in H.
  destruct H as (Hc & Hin & _ & Hdb & _).
  destruct (delete_channel_cascade_rows name (db w)) as (He & Hch & Hcm & Hm & Hr & Hu).
  cbv zeta in He, Hch, Hcm, Hm, Hr, Hu. rewrite <- Hdb in He, Hch, Hcm, Hm, Hr, Hu.
  split; [exact He|]. split; [exact Hch|]. split; [exact Hm|].
  split; [intros cm Hi; apply Hcm in Hi; tauto|]. split; [exact Hr|]. split; [exact Hu|].
  intros id r Hi. rewrite Hc in Hi. rewrite (Hin id r Hi).
  unfold moved_out_of. destruct (String.eqb (Client.channel (deref_in (mem w) r)) name) eqn:E.
  - cbn. intros Heq. apply String.eqb_neq in Hname. congruence.
  - apply String.eqb_neq. exact E.
Qed.

Lemma deleted_channel_leaves_nothing_behind_witness :
  let w := handle [] 1%nat (join_channel "#random") Sample.world in
  let name := "#random" in
  let w' := handle [false; false] 0%nat (delete_channel name) w in
  channel_exists (db w') name = false
  /\ (forall c, In c (channels (db w')) <->
                In c (channels (db w)) /\ Channels.channel_name c <> name)
  /\ (forall m, In m (messages (db w')) -> Messages.channel_name m <> name)
  /\ (forall cm, In cm (channel_members (db w')) ->
                 ChannelMembers.channel_name cm <> name)
  /\ (forall r m, In r (reactions (db w')) -> In m (messages (db w)) ->
                  Messages.channel_name m = name ->
                  Reactions.message_id r <> Messages.id m)
  /\ users (db w') = users (db w)
  /\ (forall id r, In (id, r) (clients (mem w')) ->
        Client.channel (deref_in (mem w') r) <> name).
Proof.
  refine (deleted_channel_leaves_nothing_behind []
            (handle [] 1%nat (join_channel "#random") Sample.world)
            "#random" 0%nat "u-alice" 0%nat
            (Channels.mk "#random" false None None (Some "m3")) [] _ _ _ _ _).
  - vm_compute. repeat split.
  - unfold one_session_per_identity. apply NoDup_ListNoDup.
    vm_compute. repeat constructor; cbn; intuition congruence.
  - vm_compute. reflexivity.
  - discriminate.
  - vm_compute. reflexivity.
Defined.

(* ===================================================================== *)
(** * Creating a channel and joining by invite code                       *)
(* ===================================================================== *)

Lemma same_fails_head f1 f2 :
  same_fails f1 f2 -> default false (head f1) = default false (head f2).
Proof. intros H. specialize (H 0%nat). destruct f1, f2; exact H. Qed.

Lemma same_fails_tail f1 f2 : same_fails f1 f2 -> same_fails (tail f1) (tail f2).
Proof.
  intros H i. specialize (H (S i)).
  destruct f1, f2; cbn [tail nth] in *; try exact H; destruct i; try exact H; reflexivity.
Qed.

Lemma same_fails_nil_false f : same_fails [] f -> same_fails [] (false :: f).
Proof. intros H [|i]; [reflexivity|]. cbn [nth]. rewrite <- H. destruct i; reflexivity. Qed.

Lemma same_fails_refl f : same_fails f f.
Proof. intros i. reflexivity. Qed.

(** A run depends on the schedule only through what it says of each call. *)
Lemma run_same_fails (t : Task) :
  forall f1 f2 w, same_fails f1 f2 ->
    fst (run f1 t w) = fst (run f2 t w)
    /\ same_fails (snd (run f1 t w)) (snd (run f2 t w)).
Proof.
  revert t. fix IH 1. intros [|R c k|t1 t2] f1 f2 w H.
  - cbn [run fst snd]. split; [reflexivity|exact H].
  - cbn [run]. rewrite (same_fails_head _ _ H).
    destruct (exec (default false (head f2)) c (db w)) as [o d'].
    destruct (k o (mem w)) as [t' m'].
    apply (IH t'). apply same_fails_tail, H.
  - cbn [run].
    destruct (IH t1 f1 f2 w H) as [E1 H1].
    destruct (run f1 t1 w) as [w1 g1], (run f2 t1 w) as [w2 g2].
    cbn [fst snd] in E1, H1. subst w2. apply (IH t2). exact H1.
Qed.

Lemma run_segment_same_fails f1 f2 s w :
  same_fails f1 f2 -> fst (run_segment f1 s w) = fst (run_segment f2 s w).
Proof.
  intros H. unfold run_segment. destruct (s (mem w)) as [t m'].
  apply run_same_fails, H.
Qed.

Lemma run_sends_only_nil t :
  sends_only t ->
  forall w, exists os, run [] t w = (mkWorld (emit_all os (mem w)) (db w), []).
Proof.
  induction 1 as [|R c k Hc Hk Ht IH|t1 t2 H1 IH1 H2 IH2]; intros w.
  - exists []. cbn [run]. rewrite emit_all_nil, world_eta. reflexivity.
  - cbn [run head tail default from_option Datatypes.id].
    pose proof (Hc false (db w)) as Hd.
    destruct (exec false c (db w)) as [o d'] eqn:E.
    cbn [snd] in Hd. subst d'.
    destruct (Hk o (mem w)) as [os1 Hm].
    specialize (IH o (mem w) (mkWorld (snd (k o (mem w))) (db w))).
    destruct (k o (mem w)) as [t' m'] eqn:Ek. cbn [fst snd] in *. subst m'.
    destruct IH as (os2 & IH). rewrite IH. cbn [mem db].
    exists (os1 ++ os2). rewrite emit_all_app. reflexivity.
  - cbn [run]. destruct (IH1 w) as (os1 & E1). rewrite E1.
    destruct (IH2 (mkWorld (emit_all os1 (mem w)) (db w))) as (os2 & E2).
    rewrite E2. cbn [mem db]. exists (os1 ++ os2). rewrite emit_all_app. reflexivity.
Qed.

(** Forked continuations that only write frames, then [t]: when no call
    fails, [t] starts from the same tables and the same memory, with
    frames added to the log. *)
Lemma run_fork_all_sends ts t w :
  Forall sends_only ts ->
  exists os, run [] (fork_all ts t) w = run [] t (mkWorld (emit_all os (mem w)) (db w)).
Proof.
  intros Hts. revert w. induction Hts as [|t1 ts H1 Hts IH]; intros w.
  - exists []. cbn. rewrite emit_all_nil, world_eta. reflexivity.
  - cbn [fork_all fold_right run].
    destruct (run_sends_only_nil t1 H1 w) as (os1 & E1). rewrite E1.
    destruct (IH (mkWorld (emit_all os1 (mem w)) (db w))) as (os2 & E2).
    unfold fork_all in E2. rewrite E2. cbn [mem db].
    exists (os1 ++ os2). rewrite emit_all_app. reflexivity.
Qed.

Lemma with_channel_same room c :
  Client.channel c = room -> Client.with_channel room c = c.
Proof. intros <-. destruct c. reflexivity. Qed.

(** The listener on an emitted [join_channel], when no call fails: the
    session of the connection is in the target afterwards if the user may
    see it (also when it was there already), the other session objects and
    the registry are as before, and so are the tables of channels and
    memberships. *)
Lemma emitted_join_run w ws userId client target :
  session_of (mem w) ws userId client ->
  JS.truthy target = true ->
  In target (map ChannelInfo.name (getAuthorizedChannels false (db w) (js_string userId))) ->
  let w' := fst (run_segment [] (emit_join_channel ws target) w) in
  channels (db w') = channels (db w)
  /\ channel_members (db w') = channel_members (db w)
  /\ clients (mem w') = clients (mem w)
  /\ heap (mem w')
     = <[client := Client.with_channel target (deref_in (mem w) client)]> (heap (mem w))
  /\ exists os, out (mem w') = out (mem w) ++ os.
Proof.
  intros Hs Htruthy Hin w'. subst w'.
  assert (Hemit : run_segment [] (emit_join_channel ws target) w
                  = run_segment [] (handle_join ws client target) w).
  { unfold run_segment.
    change (emit_join_channel ws target (mem w))
      with (on_message ws (join_channel target) (mem w)).
    rewrite (on_message_session _ _ _ _ _ Hs). reflexivity. }
  rewrite Hemit.
  rewrite (run_segment_same_fails [] [false; false]).
  2: { apply same_fails_nil_false, same_fails_nil_false, same_fails_refl. }
  unfold handle_join.
  rewrite run_segment_deref.
  rewrite (run_segment_var _ ws userId client) by exact Hs.
  rewrite run_segment_await_try.
  cbn [head default from_option Datatypes.id tail exec fst snd bound_id]. rewrite world_eta.
  apply existsb_name_In in Hin. rewrite Hin.
  destruct (String.eqb target (Client.channel (deref_in (mem w) client))) eqn:E.
  - unfold change_room. rewrite E, orb_true_r. rewrite run_segment_done. cbn [fst].
    repeat (split; [reflexivity|]). split.
    + apply String.eqb_eq in E. rewrite with_channel_same by congruence.
      unfold deref_in. destruct (heap (mem w) !! client) as [c|] eqn:Eh.
      * cbn. symmetry. apply insert_id. exact Eh.
      * exfalso. revert E. unfold deref_in. rewrite Eh. cbn.
        intros ->. discriminate.
    + exists []. rewrite app_nil_r. reflexivity.
  - pose proof (change_room_run [] w ws userId client target Hs Htruthy E) as H.
    cbv zeta in H.
    destruct H as (H1 & H2 & _ & _ & H5 & _ & _ & H8).
    rewrite H1. cbn [with_users channels channel_members].
    repeat (split; [reflexivity || assumption|]). exact H8.
Qed.

Lemma session_of_emit_all os m ws userId client :
  session_of m ws userId client -> session_of (emit_all os m) ws userId client.
Proof. intros H. exact H. Qed.

(** The end of a successful [create_channel], when no call fails: the
    creator is told, every logged-in connection gets its channel list, and
    the timer's emitted [join_channel] moves the creator's session. *)
Lemma create_finish_run w ws userId client name inviteCode :
  session_of (mem w) ws userId client ->
  JS.truthy name = true ->
  In name (map ChannelInfo.name (getAuthorizedChannels false (db w) (js_string userId))) ->
  let w' := fst (run_segment [] (create_finish ws name inviteCode) w) in
  channels (db w') = channels (db w)
  /\ channel_members (db w') = channel_members (db w)
  /\ clients (mem w') = clients (mem w)
  /\ heap (mem w')
     = <[client := Client.with_channel name (deref_in (mem w) client)]> (heap (mem w))
  /\ exists os,
       out (mem w')
       = out (mem w)
         ++ Sent ws (Event.notification
                       match JS.or_null inviteCode with
                       | Some code => "Private Channel " +:+ name
                                      +:+ " created! Invite code: " +:+ code
                       | None => "Public Channel " +:+ name +:+ " created!"
                       end) :: os.
Proof.
  intros Hs Htruthy Hin w'. subst w'. unfold create_finish.
  assert (Hopen : is_open ws (mem w) = true) by apply (session_open _ _ _ _ Hs).
  set (text := match JS.or_null inviteCode with
               | Some code => "Private Channel " +:+ name
                              +:+ " created! Invite code: " +:+ code
               | None => "Public Channel " +:+ name +:+ " created!"
               end).
  assert (Hsend : match JS.or_null inviteCode with
                  | Some code =>
                      sendToClient ws (Event.notification
                        ("Private Channel " +:+ name +:+ " created! Invite code: " +:+ code))
                  | None =>
                      sendToClient ws (Event.notification
                        ("Public Channel " +:+ name +:+ " created!"))
                  end = sendToClient ws (Event.notification text)).
  { unfold text. destruct (JS.or_null inviteCode); reflexivity. }
  rewrite Hsend, run_segment_send, Hopen, run_segment_gets, run_segment_ret.
  cbn [mem db].
  destruct (run_fork_all_sends
              (channel_list_updates (emit_all [Sent ws (Event.notification text)] (mem w)))
              (Await (SetTimeout 50) (fun _ => emit_join_channel ws name))
              (mkWorld (emit_all [Sent ws (Event.notification text)] (mem w)) (db w))
              (sends_only_channel_list_updates _)) as (os & E).
  rewrite E. cbn [mem db]. rewrite emit_all_app.
  set (w2 := mkWorld (emit_all _ (mem w)) (db w)).
  change (run [] (Await (SetTimeout 50) (fun _ => emit_join_channel ws name)) w2)
    with (run_segment [] (emit_join_channel ws name) w2).
  destruct (emitted_join_run w2 ws userId client name) as (H1 & H2 & H3 & H4 & os' & H5).
  { unfold w2. cbn [mem]. apply session_of_emit_all, Hs. }
  { exact Htruthy. }
  { exact Hin. }
  cbv zeta in H1, H2, H3, H4, H5.
  split; [exact H1|]. split; [exact H2|]. split; [exact H3|]. split; [exact H4|].
  exists (os ++ os'). rewrite H5. unfold w2. cbn [mem]. rewrite out_emit_all.
  rewrite <- !app_assoc. reflexivity.
Qed.

Lemma existsb_app_last {A} (p : A -> bool) l x :
  existsb p (l ++ [x]) = existsb p l || p x.
Proof. rewrite existsb_app. cbn. rewrite orb_false_r. reflexivity. Qed.

Lemma truthy_of_length (s : string) : (2 <= String.length s)%nat -> JS.truthy s = true.
Proof. destruct s; cbn; [lia|reflexivity]. Qed.

(** [create_channel], when no call fails.  For a name of 2 to 50
    characters that no channel has, the channel row is added with the
    creator's id; a private channel gets the drawn invite code and a
    membership row for the creator.  The creator is told, and the join
    scheduled at the end puts the creator's session into the new channel. *)
Theorem create_channel_effects
    (w : World) (ws : WsId) (userId : UserId) (client : Ref)
    (name : string) (isPrivate : bool) :
  session_of (mem w) ws userId client ->
  (2 <= String.length name)%nat /\ (String.length name <= 50)%nat ->
  let code := if isPrivate
              then Some (JS.toUpperCase (invite_codes (env (mem w)) (drawn (mem w))))
              else None in
  channel_exists (db w) name = false ->
  invite_code_taken (db w) code = false ->
  user_exists (db w) userId = true ->
  member_exists (db w) name userId = false ->
  let w' := handle [] ws (create_channel name isPrivate) w in
  channels (db w')
  = channels (db w) ++ [Channels.mk name isPrivate code (Some userId) None]
  /\ channel_members (db w')
     = (if isPrivate then channel_members (db w) ++ [ChannelMembers.mk name userId]
        else channel_members (db w))
  /\ clients (mem w') = clients (mem w)
  /\ heap (mem w')
     = <[client := Client.with_channel name (deref_in (mem w) client)]> (heap (mem w))
  /\ In (Sent ws (Event.notification
                    match JS.or_null code with
                    | Some c => "Private Channel " +:+ name
                                +:+ " created! Invite code: " +:+ c
                    | None => "Public Channel " +:+ name +:+ " created!"
                    end))
        (new_outputs w w').
Proof.
  intros Hs [Hlo Hhi] code Hnew Hcode Huser Hmem w'. subst w'.
  rewrite (handle_session _ _ _ _ _ _ Hs). unfold handle_create_channel.
  replace (Nat.ltb 50 (String.length name)) with false
    by (symmetry; apply Nat.ltb_ge; exact Hhi).
  replace (Nat.ltb (String.length name) 2) with false
    by (symmetry; apply Nat.ltb_ge; exact Hlo).
  cbn [orb].
  pose proof (truthy_of_length name Hlo) as Htruthy.
  rewrite run_segment_step.
  set (m1 := snd ((if isPrivate then code <- generateInviteCode;; ret (Some code)
                   else ret None) (mem w))).
  assert (Hcode1 : fst ((if isPrivate then code <- generateInviteCode;; ret (Some code)
                         else ret None) (mem w)) = code).
  { unfold code. destruct isPrivate; reflexivity. }
  rewrite Hcode1.
  assert (Hm1 : clients m1 = clients (mem w) /\ heap m1 = heap (mem w)
                /\ sockets m1 = sockets (mem w) /\ out m1 = out (mem w)).
  { unfold m1. destruct isPrivate; repeat split; reflexivity. }
  destruct Hm1 as (Hc1 & Hh1 & Hs1 & Ho1).
  assert (Hsess1 : session_of m1 ws userId client)
    by (apply (session_of_ext (mem w)); assumption).
  rewrite (run_segment_var _ ws userId client) by exact Hsess1.
  rewrite run_segment_await.
  cbn [head default from_option Datatypes.id tail exec fst snd mem db bound_id].
  rewrite Hnew, Hcode, Huser. cbn [orb fst snd].
  match goal with
  | |- context [mkWorld m1 ?d] => remember d as d1 eqn:Hd1
  end.
  remember (Channels.mk name isPrivate code (Some userId) None) as row eqn:Hrow.
  assert (Hd1' : d1 = with_channels (fun t => t ++ [row]) (db w))
    by (rewrite Hd1, Hrow; reflexivity).
  clear Hd1. rename Hd1' into Hd1.
  assert (Hrow_in : In row (channels d1)).
  { rewrite Hd1. cbn [with_channels channels]. apply in_or_app. right. left. reflexivity. }
  assert (Hexists1 : channel_exists d1 name = true).
  { unfold channel_exists. rewrite Hd1. cbn [with_channels channels].
    rewrite existsb_app_last, Hrow. cbn [Channels.channel_name].
    rewrite String.eqb_refl. apply orb_true_r. }
  assert (Hmem1 : member_exists d1 name userId = false) by (rewrite Hd1; exact Hmem).
  assert (Huser1 : user_exists d1 userId = true) by (rewrite Hd1; exact Huser).
  assert (Hch1 : channels d1 = channels (db w) ++ [row])
    by (rewrite Hd1; reflexivity).
  assert (Hcm1 : channel_members d1 = channel_members (db w))
    by (rewrite Hd1; reflexivity).
  assert (Hfinish : forall d2 : DB,
             channels d2 = channels d1 ->
             (isPrivate = true -> member_exists d2 name userId = true) ->
             In name (map ChannelInfo.name
                        (getAuthorizedChannels false d2 (js_string userId)))).
  { intros d2 Hch Hmemb. apply authorized_names. exists row. split.
    - rewrite Hch. exact Hrow_in.
    - rewrite Hrow. split; [reflexivity|]. cbn [Channels.is_private].
      destruct isPrivate; [right|left; reflexivity].
      unfold is_member. cbn [Channels.channel_name]. apply Hmemb. reflexivity. }
  clear Hd1.
  destruct isPrivate eqn:Ep.
  - assert (Hsess1' : session_of (mem (mkWorld m1 d1)) ws userId client) by exact Hsess1.
    rewrite (run_segment_var _ ws userId client) by exact Hsess1'.
    rewrite run_segment_await.
    cbn [head default from_option Datatypes.id tail exec fst snd mem db bound_id].
    rewrite Hmem1, Hexists1, Huser1.
    cbn [andb fst snd].
    match goal with
    | |- context [mkWorld m1 ?d] => remember d as d2 eqn:Hd2
    end.
    destruct (create_finish_run (mkWorld m1 d2) ws userId client name code)
      as (H1 & H2 & H3 & H4 & os & H5).
    { exact Hsess1. }
    { exact Htruthy. }
    { apply Hfinish; [rewrite Hd2; reflexivity|]. intros _. unfold member_exists.
      rewrite Hd2. cbn [with_channel_members channel_members db].
      rewrite existsb_app_last. cbn [ChannelMembers.channel_name ChannelMembers.user_id].
      rewrite !String.eqb_refl. apply orb_true_r. }
    cbv zeta in H1, H2, H3, H4, H5. cbn [mem db] in H1, H2, H3, H4, H5.
    split; [rewrite H1, Hd2; exact Hch1|].
    split; [rewrite H2, Hd2; cbn [with_channel_members channel_members]; rewrite Hcm1;
            reflexivity|].
    split; [rewrite H3; exact Hc1|].
    split.
    { rewrite H4, Hh1. unfold deref_in. rewrite Hh1. reflexivity. }
    unfold new_outputs. rewrite H5, Ho1, skipn_app, skipn_all, Nat.sub_diag.
    cbn [app]. rewrite skipn_O. left. reflexivity.
  - destruct (create_finish_run (mkWorld m1 d1) ws userId client name code)
      as (H1 & H2 & H3 & H4 & os & H5).
    { exact Hsess1. }
    { exact Htruthy. }
    { apply Hfinish; [reflexivity|]. discriminate. }
    cbv zeta in H1, H2, H3, H4, H5. cbn [mem db] in H1, H2, H3, H4, H5.
    split; [rewrite H1; exact Hch1|]. split; [rewrite H2; exact Hcm1|].
    split; [rewrite H3; exact Hc1|].
    split.
    { rewrite H4, Hh1. unfold deref_in. rewrite Hh1. reflexivity. }
    unfold new_outputs. rewrite H5, Ho1, skipn_app, skipn_all, Nat.sub_diag.
    cbn [app]. rewrite skipn_O. left. reflexivity.
Qed.

Lemma create_channel_effects_witness :
  let w := Sample.world in
  let name := "#books" in
  let code := Some (JS.toUpperCase (invite_codes (env (mem w)) (drawn (mem w)))) in
  let w' := handle [] 1%nat (create_channel name true) w in
  channels (db w')
  = channels (db w) ++ [Channels.mk name true code (Some "u-bob") None]
  /\ channel_members (db w')
     = channel_members (db w) ++ [ChannelMembers.mk name "u-bob"]
  /\ clients (mem w') = clients (mem w)
  /\ heap (mem w')
     = <[1%nat := Client.with_channel name (deref_in (mem w) 1%nat)]> (heap (mem w))
  /\ In (Sent 1%nat (Event.notification
                       match JS.or_null code with
                       | Some c => "Private Channel " +:+ name
                                   +:+ " created! Invite code: " +:+ c
                       | None => "Public Channel " +:+ name +:+ " created!"
                       end))
        (new_outputs w w').
Proof.
  refine (create_channel_effects Sample.world 1%nat "u-bob" 1%nat "#books" true
            sample_session_bob _ _ _ _ _).
  - cbn. lia.
  - reflexivity.
  - reflexivity.
  - reflexivity.
  - reflexivity.
Defined.

(** [create_channel] refused.  A name shorter than 2 or longer than 50
    characters is refused before anything is drawn or written.  A name, or
    a drawn invite code, that a channel already has is answered with
    [already exists]; a failure of the insertion for any other reason with
    a server error.  In every case the tables, the registry and the session
    objects are as before, and the error is all the creator gets. *)
Theorem create_channel_refused
    (fails : list bool) (w : World) (ws : WsId) (userId : UserId) (client : Ref)
    (name : string) (isPrivate : bool) :
  session_of (mem w) ws userId client ->
  let code := if isPrivate
              then Some (JS.toUpperCase (invite_codes (env (mem w)) (drawn (mem w))))
              else None in
  let w' := handle fails ws (create_channel name isPrivate) w in
  let refused reason :=
    db w' = db w /\ clients (mem w') = clients (mem w) /\ heap (mem w') = heap (mem w)
    /\ new_outputs w w' = [Sent ws (Event.error reason)] in
  if Nat.ltb 50 (String.length name) || Nat.ltb (String.length name) 2
  then w' = mkWorld (emit_all [Sent ws (Event.error "Channel name is too short or too long.")]
                              (mem w)) (db w)
  else if default false (head fails)
  then refused "Failed to create channel due to server error."
  else if channel_exists (db w) name || invite_code_taken (db w) code
  then refused ("Channel " +:+ name +:+ " already exists.")
  else user_exists (db w) userId = false ->
       refused "Failed to create channel due to server error.".
Proof.
  intros Hs code w' refused. subst w' refused.
  rewrite (handle_session _ _ _ _ _ _ Hs). unfold handle_create_channel.
  assert (Hopen : is_open ws (mem w) = true) by apply (session_open _ _ _ _ Hs).
  destruct (Nat.ltb 50 (String.length name) || Nat.ltb (String.length name) 2).
  { rewrite run_segment_reject, Hopen. reflexivity. }
  rewrite run_segment_step.
  set (m1 := snd ((if isPrivate then code <- generateInviteCode;; ret (Some code)
                   else ret None) (mem w))).
  assert (Hcode1 : fst ((if isPrivate then code <- generateInviteCode;; ret (Some code)
                         else ret None) (mem w)) = code).
  { unfold code. destruct isPrivate; reflexivity. }
  rewrite Hcode1.
  assert (Hm1 : clients m1 = clients (mem w) /\ heap m1 = heap (mem w)
                /\ sockets m1 = sockets (mem w) /\ out m1 = out (mem w)).
  { unfold m1. destruct isPrivate; repeat split; reflexivity. }
  destruct Hm1 as (Hc1 & Hh1 & Hs1 & Ho1).
  assert (Hsess1 : session_of m1 ws userId client)
    by (apply (session_of_ext (mem w)); assumption).
  assert (Hopen1 : is_open ws m1 = true) by apply (session_open _ _ _ _ Hsess1).
  rewrite (run_segment_var _ ws userId client) by exact Hsess1.
  rewrite run_segment_await.
  cbn [exec bound_id default from_option Datatypes.id mem db].
  assert (Hrej : forall f reason,
             let w1 := fst (run_segment f (reject ws reason) (mkWorld m1 (db w))) in
             db w1 = db w /\ clients (mem w1) = clients (mem w)
             /\ heap (mem w1) = heap (mem w)
             /\ new_outputs w w1 = [Sent ws (Event.error reason)]).
  { intros f reason. cbv zeta. rewrite run_segment_reject. cbn [fst mem db]. rewrite Hopen1.
    split; [reflexivity|]. split; [exact Hc1|]. split; [exact Hh1|].
    apply new_outputs_app. cbn [mem]. rewrite out_emit_all, Ho1. reflexivity. }
  destruct (default false (head fails)).
  { cbn [fst snd]. unfold create_failed. cbn. apply Hrej. }
  destruct (channel_exists (db w) name || invite_code_taken (db w) code).
  { cbn [fst snd]. unfold create_failed. cbn. apply Hrej. }
  intros Hnouser. rewrite Hnouser. cbn [fst snd]. unfold create_failed. cbn. apply Hrej.
Qed.

Lemma create_channel_refused_witness :
  let w := Sample.world in
  let name := "#random" in
  let code := None in
  let w' := handle [] 1%nat (create_channel name false) w in
  let refused reason :=
    db w' = db w /\ clients (mem w') = clients (mem w) /\ heap (mem w') = heap (mem w)
    /\ new_outputs w w' = [Sent 1%nat (Event.error reason)] in
  if Nat.ltb 50 (String.length name) || Nat.ltb (String.length name) 2
  then w' = mkWorld (emit_all [Sent 1%nat
                                 (Event.error "Channel name is too short or too long.")]
                              (mem w)) (db w)
  else if default false (head [])
  then refused "Failed to create channel due to server error."
  else if channel_exists (db w) name || invite_code_taken (db w) code
  then refused ("Channel " +:+ name +:+ " already exists.")
  else user_exists (db w) "u-bob" = false ->
       refused "Failed to create channel due to server error.".
Proof.
  exact (create_channel_refused [] Sample.world 1%nat "u-bob" 1%nat "#random" false
           sample_session_bob).
Defined.

(** A private channel whose membership insertion fails: the channel row
    stays (the two insertions are not one transaction), it has no
    membership for its creator, who is told the creation failed, and the
    creator cannot see the channel in its list. *)
Theorem private_channel_without_member
    (rest : list bool) (w : World) (ws : WsId) (userId : UserId) (client : Ref)
    (name : string) :
  session_of (mem w) ws userId client ->
  (2 <= String.length name)%nat /\ (String.length name <= 50)%nat ->
  let code := Some (JS.toUpperCase (invite_codes (env (mem w)) (drawn (mem w)))) in
  channel_exists (db w) name = false ->
  invite_code_taken (db w) code = false ->
  user_exists (db w) userId = true ->
  member_exists (db w) name userId = false ->
  let w' := handle (false :: true :: rest) ws (create_channel name true) w in
  db w' = with_channels (fun t => t ++ [Channels.mk name true code (Some userId) None])
                        (db w)
  /\ new_outputs w w'
     = [Sent ws (Event.error "Failed to create channel due to server error.")]
  /\ Client.channel (deref_in (mem w') client) = Client.channel (deref_in (mem w) client)
  /\ ~ In name (map ChannelInfo.name
                    (getAuthorizedChannels false (db w') (js_string userId))).
Proof.
  intros Hs [Hlo Hhi] code Hnew Hcode Huser Hmem w'. subst w'.
  rewrite (handle_session _ _ _ _ _ _ Hs). unfold handle_create_channel.
  replace (Nat.ltb 50 (String.length name)) with false
    by (symmetry; apply Nat.ltb_ge; exact Hhi).
  replace (Nat.ltb (String.length name) 2) with false
    by (symmetry; apply Nat.ltb_ge; exact Hlo).
  cbn [orb].
  rewrite run_segment_step.
  set (m1 := snd ((code <- generateInviteCode;; ret (Some code)) (mem w))).
  change (fst ((code <- generateInviteCode;; ret (Some code)) (mem w))) with code.
  assert (Hsess1 : session_of m1 ws userId client) by exact Hs.
  assert (Hopen1 : is_open ws m1 = true) by apply (session_open _ _ _ _ Hsess1).
  rewrite (run_segment_var _ ws userId client) by exact Hsess1.
  rewrite run_segment_await.
  cbn [head default from_option Datatypes.id tail exec fst snd mem db bound_id].
  rewrite Hnew, Hcode, Huser. cbn [orb fst snd].
  match goal with
  | |- context [mkWorld m1 ?d] => remember d as d1 eqn:Hd1
  end.
  assert (Hsess1' : session_of (mem (mkWorld m1 d1)) ws userId client) by exact Hsess1.
  rewrite (run_segment_var _ ws userId client) by exact Hsess1'.
  rewrite run_segment_await.
  cbn [head default from_option Datatypes.id tail exec fst snd mem db bound_id].
  unfold create_failed. cbn [String.eqb Ascii.eqb Bool.eqb CONNECTION_LOST ER_DUP_ENTRY].
  rewrite run_segment_reject. cbn [fst mem db]. rewrite Hopen1.
  split; [rewrite Hd1; reflexivity|].
  split; [apply new_outputs_app; reflexivity|].
  split; [reflexivity|].
  intros Hin. apply authorized_names in Hin. destruct Hin as (c & Hc & Hn & Hacc).
  rewrite Hd1 in Hc. cbn [with_channels channels] in Hc.
  apply in_app_or in Hc. destruct Hc as [Hc|[<-|[]]].
  - unfold channel_exists in Hnew.
    assert (Ht : existsb (fun c => String.eqb (Channels.channel_name c) name)
                         (channels (db w)) = true).
    { apply existsb_exists. exists c. split; [exact Hc|]. apply String.eqb_eq. exact Hn. }
    congruence.
  - cbn [Channels.is_private] in Hacc. destruct Hacc as [Hf|Hm]; [discriminate|].
    unfold is_member in Hm. cbn [Channels.channel_name] in Hm.
    rewrite Hd1 in Hm. cbn [with_channels channel_members] in Hm.
    unfold member_exists in Hmem. congruence.
Qed.

Lemma private_channel_without_member_witness :
  let w := Sample.world in
  let name := "#books" in
  let code := Some (JS.toUpperCase (invite_codes (env (mem w)) (drawn (mem w)))) in
  let w' := handle [false; true] 1%nat (create_channel name true) w in
  db w' = with_channels (fun t => t ++ [Channels.mk name true code (Some "u-bob") None])
                        (db w)
  /\ new_outputs w w'
     = [Sent 1%nat (Event.error "Failed to create channel due to server error.")]
  /\ Client.channel (deref_in (mem w') 1%nat) = Client.channel (deref_in (mem w) 1%nat)
  /\ ~ In name (map ChannelInfo.name
                    (getAuthorizedChannels false (db w') (js_string "u-bob"))).
Proof.
  refine (private_channel_without_member [] Sample.world 1%nat "u-bob" 1%nat "#books"
            sample_session_bob _ _ _ _ _).
  - cbn. lia.
  - reflexivity.
  - reflexivity.
  - reflexivity.
  - reflexivity.
Defined.

(** [join_channel_by_code], when no call fails.  A code no channel has, or
    the code of a public channel, is refused with an error and nothing
    changes.  The code of a private channel gives the user a membership row
    (one, also when the user was a member already), tells the user so, and
    the emitted [join_channel] puts the user's session into the channel. *)
Theorem join_by_code_effects
    (w : World) (ws : WsId) (userId : UserId) (client : Ref) (code : string) :
  session_of (mem w) ws userId client ->
  user_exists (db w) userId = true ->
  let w' := handle [] ws (join_channel_by_code code) w in
  let refused reason :=
    w' = mkWorld (emit_all [Sent ws (Event.error reason)] (mem w)) (db w) in
  match select_where (fun c => opt_eqb (Channels.invite_code c) code) (channels (db w)) with
  | [] => refused "Invalid or expired invite code."
  | channelResult :: _ =>
      let name := Channels.channel_name channelResult in
      if Channels.is_private channelResult then
        JS.truthy name = true ->
        channels (db w') = channels (db w)
        /\ channel_members (db w')
           = (if member_exists (db w) name userId then channel_members (db w)
              else channel_members (db w) ++ [ChannelMembers.mk name userId])
        /\ clients (mem w') = clients (mem w)
        /\ heap (mem w')
           = <[client := Client.with_channel name (deref_in (mem w) client)]> (heap (mem w))
        /\ In (Sent ws (Event.notification
                          ("Successfully joined private channel " +:+ name +:+ ".")))
              (new_outputs w w')
      else refused "This code is for a public channel. Use the channel list."
  end.
Proof.
  intros Hs Huser w' refused. subst w' refused.
  rewrite (handle_session _ _ _ _ _ _ Hs). unfold handle_join_by_code.
  assert (Hopen : is_open ws (mem w) = true) by apply (session_open _ _ _ _ Hs).
  rewrite run_segment_await_try.
  cbn [head default from_option Datatypes.id tail exec fst snd]. rewrite world_eta.
  destruct (select_where _ (channels (db w))) as [|c more] eqn:Esel.
  { rewrite run_segment_reject, Hopen. reflexivity. }
  assert (Hc : In c (channels (db w))).
  { assert (H : In c (select_where (fun c => opt_eqb (Channels.invite_code c) code)
                                   (channels (db w)))) by (rewrite Esel; left; reflexivity).
    unfold select_where in H. apply filter_In in H. tauto. }
  cbv zeta.
  destruct (Channels.is_private c) eqn:Ep.
  2: { rewrite run_segment_reject, Hopen. reflexivity. }
  intros Htruthy.
  rewrite (run_segment_var _ ws userId client) by exact Hs.
  rewrite run_segment_await_try.
  cbn [head default from_option Datatypes.id tail exec fst snd bound_id].
  assert (Hex : channel_exists (db w) (Channels.channel_name c) = true).
  { unfold channel_exists. apply existsb_exists. exists c. split; [exact Hc|].
    apply String.eqb_refl. }
  rewrite Hex, Huser. cbn [negb]. rewrite orb_false_r.
  set (name := Channels.channel_name c) in *.
  assert (Hd1 : exists d1,
             channels d1 = channels (db w)
             /\ channel_members d1
                = (if member_exists (db w) name userId then channel_members (db w)
                   else channel_members (db w) ++ [ChannelMembers.mk name userId])
             /\ member_exists d1 name userId = true
             /\ (if member_exists (db w) name userId || false
                 then (Resolved tt, db w)
                 else (Resolved tt,
                       with_channel_members
                         (fun t => t ++ [ChannelMembers.mk name userId]) (db w)))
                = (Resolved tt, d1)).
  { destruct (member_exists (db w) name userId) eqn:E.
    - exists (db w). repeat split; [exact E].
    - eexists. split; [|split; [|split; [|reflexivity]]]; try reflexivity.
      unfold member_exists. cbn [with_channel_members channel_members].
      rewrite existsb_app_last. cbn [ChannelMembers.channel_name ChannelMembers.user_id].
      rewrite !String.eqb_refl. apply orb_true_r. }
  destruct Hd1 as (d1 & Hch1 & Hcm1 & Hmem1 & Hres).
  match goal with
  | |- context [run_segment _ _ (mkWorld _ (snd ?p))] =>
      replace p with (Resolved tt, d1) by (rewrite <- Hres; reflexivity)
  end.
  cbn [fst snd].
  rewrite run_segment_send. cbn [mem db]. rewrite Hopen.
  assert (Hs2 : forall os d, session_of (mem (mkWorld (emit_all os (mem w)) d))
                                        ws userId client) by (intros; exact Hs).
  rewrite (run_segment_var _ ws userId client) by apply Hs2.
  rewrite run_segment_await_try.
  cbn [head default from_option Datatypes.id tail exec fst snd bound_id mem db].
  rewrite run_segment_send. cbn [mem db]. rewrite is_open_emit_all, Hopen, emit_all_app.
  match goal with
  | |- context [run_segment [] (emit_join_channel ws name) ?w3] =>
      destruct (emitted_join_run w3 ws userId client name)
        as (H1 & H2 & H3 & H4 & os & H5)
  end.
  { apply Hs2. }
  { exact Htruthy. }
  { cbn [db]. apply authorized_names. exists c. split; [rewrite Hch1; exact Hc|].
    split; [reflexivity|]. right. exact Hmem1. }
  cbv zeta in H1, H2, H3, H4, H5. cbn [mem db] in H1, H2, H3, H4, H5.
  split; [rewrite H1; exact Hch1|]. split; [rewrite H2; exact Hcm1|].
  split; [exact H3|]. split; [exact H4|].
  unfold new_outputs. rewrite H5, out_emit_all, <- !app_assoc.
  rewrite skipn_app, skipn_all, Nat.sub_diag. cbn [app]. rewrite skipn_O.
  left. reflexivity.
Qed.

Lemma join_by_code_effects_witness :
  let w := handle [] 1%nat (create_channel "#books" true) Sample.world in
  let code := "C0DE0000" in
  let w' := handle [] 2%nat (join_channel_by_code code) w in
  let refused reason :=
    w' = mkWorld (emit_all [Sent 2%nat (Event.error reason)] (mem w)) (db w) in
  match select_where (fun c => opt_eqb (Channels.invite_code c) code) (channels (db w)) with
  | [] => refused "Invalid or expired invite code."
  | channelResult :: _ =>
      let name := Channels.channel_name channelResult in
      if Channels.is_private channelResult then
        JS.truthy name = true ->
        channels (db w') = channels (db w)
        /\ channel_members (db w')
           = (if member_exists (db w) name "u-carol" then channel_members (db w)
              else channel_members (db w) ++ [ChannelMembers.mk name "u-carol"])
        /\ clients (mem w') = clients (mem w)
        /\ heap (mem w')
           = <[2%nat := Client.with_channel name (deref_in (mem w) 2%nat)]> (heap (mem w))
        /\ In (Sent 2%nat (Event.notification
                             ("Successfully joined private channel " +:+ name +:+ ".")))
              (new_outputs w w')
      else refused "This code is for a public channel. Use the channel list."
  end.
Proof.
  refine (join_by_code_effects
            (handle [] 1%nat (create_channel "#books" true) Sample.world)
            2%nat "u-carol" 2%nat "C0DE0000" _ _).
  - vm_compute. repeat split.
  - vm_compute. reflexivity.
Defined.

(** An invite code taken from a private channel's creation lets another
    user in: after the channel is created by one user and the code is used
    by another, both sessions are in the channel and both are members. *)
Example invite_code_round_trip :
  let w1 := handle [] 1%nat (create_channel "#books" true) Sample.world in
  let w2 := handle [] 2%nat (join_channel_by_code "C0DE0000") w1 in
  Client.channel (deref_in (mem w2) 1%nat) = "#books"
  /\ Client.channel (deref_in (mem w2) 2%nat) = "#books"
  /\ channel_members (db w2)
     = [ChannelMembers.mk "#books" "u-bob"; ChannelMembers.mk "#books" "u-carol"].
Proof. vm_compute. repeat split. Qed.

(* ===================================================================== *)
(** * Storing before delivering                                           *)
(* ===================================================================== *)

(** The send path on a message for a channel (not a command, not empty, not
    a direct-message room): the INSERT is awaited first.  When it goes
    through, the row is appended; when it does not, the tables are as
    before and the sender gets an internal error, nothing else is
    written. *)
Lemma send_stored_run
    (fails : list bool) (w : World) (ws : WsId) (userId : UserId) (client : Ref)
    (ev : ClientEvent) (room : string) (content : option string)
    (attachment : option Json) (parent : option string) :
  session_of (mem w) ws userId client ->
  send_event ev (mem w) client room content attachment parent ->
  JS.startsWith (trimmed content) "/" = false ->
  trimmed content <> "" \/ attachment <> None ->
  JS.startsWith room "DM:" = false ->
  let id := uuids (env (mem w)) (drawn (mem w)) in
  let row := new_message_row id room userId (Client.username (deref_in (mem w) client))
               (trimmed content) (clock (mem w)) attachment (JS.or_null parent)
               match JS.or_null parent with Some _ => false | None => true end in
  let w' := handle fails ws ev w in
  if negb (default false (head fails))
     && insert_message_accepted (db w) id room userId (JS.or_null parent)
  then db w' = with_messages (fun t => t ++ [row]) (db w)
  else db w' = db w
       /\ new_outputs w w' = [Sent ws (Event.error "Internal error processing request.")].
Proof.
  intros Hs Hev Hcmd Hacc Hdm id row w'.
  assert (Hacc' : negb (String.eqb (trimmed content) "")
                  || bool_decide (is_Some attachment) = true).
  { destruct Hacc as [Hc|Ha].
    - apply String.eqb_neq in Hc. rewrite Hc. reflexivity.
    - destruct attachment; [apply orb_true_r|congruence]. }
  assert (Hw' : w' = fst (run_segment fails
                            (handle_send ws client userId (Some room) content attachment
                                         parent) w)).
  { subst w'. rewrite (handle_session _ _ _ _ _ _ Hs).
    destruct Hev as [[-> Hroom] | ->]; [rewrite <- Hroom|]; reflexivity. }
  rewrite Hw'. clear Hw' w'.
  unfold handle_send. rewrite Hcmd, Hacc', Hdm. cbv zeta. cbn [negb].
  rewrite run_segment_step. cbn [mem db].
  change (fst (randomUUID (mem w))) with id.
  set (m1 := snd (randomUUID (mem w))).
  rewrite run_segment_deref, run_segment_now. cbn [mem].
  change (deref_in m1 client) with (deref_in (mem w) client).
  change (clock m1) with (clock (mem w)).
  rewrite run_segment_await_try. cbn [exec mem db].
  assert (Hopen1 : is_open ws m1 = true) by apply (session_open _ _ _ _ Hs).
  unfold insert_message_accepted.
  destruct (default false (head fails)); cbn [negb andb fst snd].
  { rewrite run_segment_internal_error. cbn [fst mem db]. rewrite Hopen1.
    split; [reflexivity|]. apply new_outputs_app. reflexivity. }
  destruct (message_exists (db w) id); cbn [negb andb fst snd].
  { rewrite run_segment_internal_error. cbn [fst mem db]. rewrite Hopen1.
    split; [reflexivity|]. apply new_outputs_app. reflexivity. }
  destruct (channel_exists (db w) room && user_exists (db w) userId
            && parent_ok (db w) (JS.or_null parent)); cbn [fst snd].
  - rewrite run_segment_send. cbn [mem db].
    assert (Hs1 : forall os d, session_of (mem (mkWorld (emit_all os m1) d))
                                          ws userId client) by (intros; exact Hs).
    rewrite (run_segment_var _ ws userId client) by apply Hs1.
    rewrite run_segment_broadcast, run_segment_done. reflexivity.
  - rewrite run_segment_internal_error. cbn [fst mem db]. rewrite Hopen1.
    split; [reflexivity|]. apply new_outputs_app. reflexivity.
Qed.

(** A message that cannot be stored is not delivered.  When the INSERT of a
    channel message fails (the environment, an id that exists, a channel or
    an author without a row, a parent that is not a stored message), nobody
    receives the message, the sender included; the sender gets an internal
    error and the tables are as before. *)
Theorem unstored_message_is_not_delivered
    (fails : list bool) (w : World) (ws : WsId) (userId : UserId) (client : Ref)
    (ev : ClientEvent) (room : string) (content : option string)
    (attachment : option Json) (parent : option string) :
  session_of (mem w) ws userId client ->
  send_event ev (mem w) client room content attachment parent ->
  JS.startsWith (trimmed content) "/" = false ->
  trimmed content <> "" \/ attachment <> None ->
  JS.startsWith room "DM:" = false ->
  default false (head fails) = true
  \/ insert_message_accepted (db w) (uuids (env (mem w)) (drawn (mem w)))
                             room userId (JS.or_null parent) = false ->
  let w' := handle fails ws ev w in
  db w' = db w
  /\ new_outputs w w' = [Sent ws (Event.error "Internal error processing request.")].
Proof.
  intros Hs Hev Hcmd Hacc Hdm Hfail w'.
  pose proof (send_stored_run fails w ws userId client ev room content attachment parent
                Hs Hev Hcmd Hacc Hdm) as H.
  cbv zeta in H. fold w' in H.
  destruct Hfail as [Hf|Hf]; rewrite Hf in H; cbn [negb andb] in H;
    [|rewrite andb_false_r in H]; exact H.
Qed.

Lemma unstored_message_is_not_delivered_witness :
  let w := Sample.world in
  let w' := handle [] 1%nat (send_message (Some "re: gone") None (Some "m9")) w in
  db w' = db w
  /\ new_outputs w w' = [Sent 1%nat (Event.error "Internal error processing request.")].
Proof.
  refine (unstored_message_is_not_delivered [] Sample.world 1%nat "u-bob" 1%nat
            (send_message (Some "re: gone") None (Some "m9")) "#general"
            (Some "re: gone") None (Some "m9") sample_session_bob _ _ _ _ _).
  - left. split; reflexivity.
  - reflexivity.
  - left. discriminate.
  - reflexivity.
  - right. reflexivity.
Defined.

(** What is sent is served.  A channel message that is stored is part of
    the history [getRoomData] serves for its room from then on, under the
    id drawn for it, with its trimmed content, its author and the time of
    the send. *)
Theorem sent_message_is_in_the_history
    (rest : list bool) (w : World) (ws : WsId) (userId : UserId) (client : Ref)
    (ev : ClientEvent) (room : string) (content : option string)
    (attachment : option Json) (parent : option string) :
  session_of (mem w) ws userId client ->
  send_event ev (mem w) client room content attachment parent ->
  JS.startsWith (trimmed content) "/" = false ->
  trimmed content <> "" \/ attachment <> None ->
  JS.startsWith room "DM:" = false ->
  insert_message_accepted (db w) (uuids (env (mem w)) (drawn (mem w)))
                          room userId (JS.or_null parent) = true ->
  (forall r, In r (reactions (db w)) -> JS.inherited (Reactions.emoji r) = false) ->
  let w' := handle (false :: rest) ws ev w in
  exists h, In h (RoomData.messages (getRoomData false (db w') room))
            /\ Messages.id (HistMsg.row h) = uuids (env (mem w)) (drawn (mem w))
            /\ Messages.content (HistMsg.row h) = trimmed content
            /\ Messages.author_id (HistMsg.row h) = userId
            /\ Messages.timestamp (HistMsg.row h) = clock (mem w)
            /\ Messages.parent_message_id (HistMsg.row h) = JS.or_null parent.
Proof.
  intros Hs Hev Hcmd Hacc Hdm Hins Hclean w'.
  pose proof (send_stored_run (false :: rest) w ws userId client ev room content
                attachment parent Hs Hev Hcmd Hacc Hdm) as H.
  cbv zeta in H. fold w' in H. rewrite Hins in H. cbn [head default from_option
    Datatypes.id negb andb] in H.
  rewrite H. unfold getRoomData. rewrite Hdm.
  set (row := new_message_row _ _ _ _ _ _ _ _ _).
  set (d' := with_messages (fun t => t ++ [row]) (db w)).
  destruct (attach_reactions_rows d'
              (order_by_timestamp
                 (select_where (fun m => String.eqb (Messages.channel_name m) room)
                               (messages d'))) Hclean) as (hs & -> & Hrows & _).
  cbn [RoomData.messages].
  assert (Hin : In row (map HistMsg.row hs)).
  { rewrite Hrows. apply in_order_by_timestamp. unfold select_where. apply filter_In.
    split.
    - unfold d'. cbn [with_messages messages]. apply in_or_app. right. left. reflexivity.
    - apply String.eqb_refl. }
  apply in_map_iff in Hin. destruct Hin as (h & Hrow & Hh).
  exists h. split; [exact Hh|]. rewrite Hrow. repeat split.
Qed.

Lemma sent_message_is_in_the_history_witness :
  let w := Sample.world in
  let w' := handle [false] 1%nat (send_message (Some "  hello again  ") None None) w in
  exists h, In h (RoomData.messages (getRoomData false (db w') "#general"))
            /\ Messages.id (HistMsg.row h) = uuids (env (mem w)) (drawn (mem w))
            /\ Messages.content (HistMsg.row h) = trimmed (Some "  hello again  ")
            /\ Messages.author_id (HistMsg.row h) = "u-bob"
            /\ Messages.timestamp (HistMsg.row h) = clock (mem w)
            /\ Messages.parent_message_id (HistMsg.row h) = JS.or_null None.
Proof.
  refine (sent_message_is_in_the_history [] Sample.world 1%nat "u-bob" 1%nat
            (send_message (Some "  hello again  ") None None) "#general"
            (Some "  hello again  ") None None sample_session_bob _ _ _ _ _ _).
  - left. split; reflexivity.
  - reflexivity.
  - left. discriminate.
  - reflexivity.
  - reflexivity.
  - intros r [].
Defined.
